(** * digi_locker: document lifecycle, sharing and categorisation

    A shallow embedding of the parts of the application that decide how a
    document's storage path, category, deletion marker and share record
    interact:

    - [lib/supabaseClient.ts]: [uploadDocument], [moveToTrash],
      [restoreFromTrash], [listUserTrash], [deletePermanent],
      [purgeOldTrash], [listUserDocuments];
    - [pages/Index.tsx]: [loadDocuments], [filteredDocuments],
      [requireAuth], [handleDownload], [handleRename], [handleShare],
      [handleDelete], [handleRestore], [handleBulkCategoryUpdate],
      [generateFolderKeywords];
    - [pages/SharedDocument.tsx]: [loadSharedDocument], [loadDocument],
      [getDocumentName], [getExpirationText], [verifyPassword],
      [downloadDocument];
    - [lib/geminiCategorization.ts]: [categorizeDocument],
      [fallbackCategorization], [getSubcategoryName],
      [getFallbackSubcategory], [findBestMatchingFolder],
      [findFallbackMatchingFolder], [bulkCategorizeDocuments];
    - [components/UploadDialog.tsx], [components/RenameDialog.tsx],
      [components/BulkCategorizeDialog.tsx]: what the dialogs hand to
      the page;
    - [hooks/useWebAuthn.ts]: [toBase64Url], [fromBase64Url].

    Modelling conventions.

    - A JavaScript string is a [string]: its code units are restricted to
      one byte (Latin-1), the range on which [btoa] is defined.
    - A timestamp ([Date.now()], a [timestamptz] column) is a number of
      milliseconds, a [Z]; [Date.now()] itself is an argument.
    - The object store and the two tables are values of type [Backend].
      A query answers from that value; what the database generates (row
      ids, [NOW()]) and what the browser generates ([crypto.randomUUID()],
      [window.confirm]) are arguments.  Every client call returns a
      [response], as the Supabase client returns [{ data, error }]; the
      functions [*_on] take those responses and follow the source's
      handling of [error] and of [null] data, the functions without the
      suffix feed them from the [Backend].
    - A row id is the text the database prints for a [uuid]; an id given
      to a query goes through the [uuid] input syntax ([Db.uuid_in]) and
      the query fails where that syntax rejects it.  A user id is the
      [user.id] of the authentication service, which is a [uuid] by
      construction, and is compared as given.
    - The policies of [document_shares] are part of the queries on that
      table: a query takes the [viewer] (the signed-in user, if any) and
      the database's clock [db_now], and sees the viewer's own rows and
      the public rows that have not expired at [db_now]; an update
      reaches the viewer's own rows only.  The browser's clock [now] is
      a second argument.  The policy of [deleted_documents] shows a user
      their own rows; every call on that table carries the [user_id] of
      the signed-in user, as a filter or in the row inserted, and the
      policy then agrees with the query.
    - Where the source reads the [error] of a storage call that changes
      the store (the upload and the removal of [handleRename]), or
      catches what the call throws (the removal of [deletePermanent]),
      that error is an argument: [None] when the call succeeds, in which
      case the store is changed as the call asks, and the message
      otherwise, in which case the store is left as it was.
    - The answer of the generative-AI endpoint is an argument of
      [categorizeDocument], one constructor per place where the source can
      fail, and likewise of [getSubcategoryName] and
      [findBestMatchingFolder].  A parsed categorisation answer is a JSON
      object whose fields may be missing; its confidence is a double
      ([float]), and arithmetic on it is that of IEEE 754.  The
      confidence of a folder match is only compared and scaled by
      constants of the source, and is kept as a rational number.
    - What the platform authenticator answers is an argument of
      [requireAuth]; a blob is represented by its size.

    The definitions come first, module by module as the source has them;
    [step] and [reachable] describe the backends the operations produce
    from a store without markers, [Demo] holds the concrete states on
    which the statements are exercised.  The properties follow. *)

From Stdlib Require Import ZArith QArith Qminmax List Bool Ascii String Lia.
From Stdlib Require Import DecimalString Permutation Floats.
From stdpp Require Import base gmap strings.
Import ListNotations.

Open Scope string_scope.
Open Scope list_scope.
Open Scope Z_scope.

(** ** JavaScript strings *)

Module JS.

(** Character classes of the regular expressions in the source. *)
Definition between (lo hi : nat) (c : ascii) : bool :=
  (Nat.leb lo (nat_of_ascii c) && Nat.leb (nat_of_ascii c) hi)%bool.

Definition is_digit (c : ascii) : bool := between 48 57 c.
Definition is_upper (c : ascii) : bool := between 65 90 c.
Definition is_lower (c : ascii) : bool := between 97 122 c.

(** [[a-zA-Z0-9]] *)
Definition is_alnum (c : ascii) : bool :=
  (is_lower c || is_upper c || is_digit c)%bool.

(** [\w] *)
Definition is_word (c : ascii) : bool :=
  (is_alnum c || Ascii.eqb c "_")%bool.

Fixpoint map_chars (f : ascii -> ascii) (s : string) : string :=
  match s with
  | EmptyString => EmptyString
  | String c r => String (f c) (map_chars f r)
  end.

Fixpoint all_chars (p : ascii -> bool) (s : string) : bool :=
  match s with
  | EmptyString => true
  | String c r => (p c && all_chars p r)%bool
  end.

Definition nonempty (s : string) : bool :=
  match s with EmptyString => false | String _ _ => true end.

(** No code unit of [s] is [c]. *)
Definition lacks (c : ascii) : string -> bool :=
  all_chars (fun x => negb (Ascii.eqb x c)).

(** [s.split(sep)] for a one-character separator. *)
Fixpoint split (sep : ascii) (s : string) : list string :=
  match s with
  | EmptyString => [EmptyString]
  | String c r =>
      if Ascii.eqb c sep then EmptyString :: split sep r
      else match split sep r with
           | h :: t => String c h :: t
           | [] => [String c EmptyString]
           end
  end.

(** [parts.join(sep)] *)
Fixpoint join (sep : string) (parts : list string) : string :=
  match parts with
  | [] => EmptyString
  | x :: t =>
      match t with
      | [] => x
      | _ :: _ => x +:+ sep +:+ join sep t
      end
  end.

(** [parts.pop()] on the result of a [split], which is never empty. *)
Definition pop (parts : list string) : string := List.last parts EmptyString.

(** [s.includes(sub)] *)
Fixpoint includes (s sub : string) : bool :=
  (String.prefix sub s
   || match s with
      | EmptyString => false
      | String _ r => includes r sub
      end)%bool.

(** [s.replace(/_/g, ' ')] *)
Definition underscores_to_spaces (s : string) : string :=
  map_chars (fun c => if Ascii.eqb c "_" then " "%char else c) s.

(** [s.replace(/[^a-zA-Z0-9]/g, '_')] *)
Definition sanitize (s : string) : string :=
  map_chars (fun c => if is_alnum c then c else "_"%char) s.

(** [s.replace(re, '')] for a regular expression [\.C+$], where [cls]
    is the class [C]: the leftmost position at which a dot is followed,
    up to the end of the string, by one or more characters of [C]. *)
Fixpoint strip_dot_suffix (cls : ascii -> bool) (s : string) : string :=
  match s with
  | EmptyString => EmptyString
  | String c r =>
      if (Ascii.eqb c "." && nonempty r && all_chars cls r)%bool
      then EmptyString
      else String c (strip_dot_suffix cls r)
  end.

(** [s.replace(/\.\w+$/, '')] *)
Definition strip_word_extension : string -> string :=
  strip_dot_suffix is_word.

(** [s.replace(/\.[^.]+$/, '')] *)
Definition strip_extension : string -> string :=
  strip_dot_suffix (fun c => negb (Ascii.eqb c ".")).

(** [s.replace(/\.[^/.]+$/, '')] *)
Definition strip_file_extension : string -> string :=
  strip_dot_suffix (fun c => negb (Ascii.eqb c "." || Ascii.eqb c "/")).

(** [s.replace(/^\/+/, '')] *)
Fixpoint strip_leading_slashes (s : string) : string :=
  match s with
  | String c r => if Ascii.eqb c "/" then strip_leading_slashes r else s
  | EmptyString => EmptyString
  end.

(** [s.toLowerCase()] on one-byte code units. *)
Definition lower_char (c : ascii) : ascii :=
  let n := nat_of_ascii c in
  if (is_upper c
      || (between 192 222 c && negb (Nat.eqb n 215)))%bool
  then ascii_of_nat (n + 32)
  else c.

Definition toLowerCase : string -> string := map_chars lower_char.

(** The decimal rendering of a non-negative integer in a template literal. *)
Definition of_N (n : N) : string := NilEmpty.string_of_uint (N.to_uint n).

(** [btoa]: base64 of the code units. *)
Definition b64_alphabet : string :=
  "ABCDEFGHIJKLMNOPQRSTUVWXYZabcdefghijklmnopqrstuvwxyz0123456789+/".

Definition b64 (n : N) : ascii :=
  match String.get (N.to_nat n) b64_alphabet with
  | Some c => c
  | None => "="%char
  end.

Fixpoint btoa (s : string) : string :=
  match s with
  | EmptyString => EmptyString
  | String a EmptyString =>
      let x := N_of_ascii a in
      String (b64 (x / 4))
        (String (b64 ((x mod 4) * 16)) "==")
  | String a (String b EmptyString) =>
      let x := N_of_ascii a in
      let y := N_of_ascii b in
      String (b64 (x / 4))
        (String (b64 ((x mod 4) * 16 + y / 16))
           (String (b64 ((y mod 16) * 4)) "="))
  | String a (String b (String c r)) =>
      let x := N_of_ascii a in
      let y := N_of_ascii b in
      let z := N_of_ascii c in
      String (b64 (x / 4))
        (String (b64 ((x mod 4) * 16 + y / 16))
           (String (b64 ((y mod 16) * 4 + z / 64))
              (String (b64 (z mod 64)) (btoa r))))
  end%N.

(** JavaScript truthiness of a nullable string: [null] and [''] are
    falsy. *)
Definition truthy (s : option string) : bool :=
  match s with
  | Some x => nonempty x
  | None => false
  end.

(** [new Date(ms)] as a request carries it: a time value more than
    8.64e15 ms away from the epoch makes an invalid date, which
    [JSON.stringify] writes as [null]. *)
Definition date (ms : Z) : option Z :=
  if Z.abs ms <=? 8640000000000000 then Some ms else None.

(** *** Numbers

    A JavaScript number is a double, a [float]; a number that is read
    from a field which is not there is [undefined], [None]. *)

(** [ToNumber]: [undefined] becomes [NaN]. *)
Definition to_number (x : option float) : float :=
  match x with
  | Some v => v
  | None => nan
  end.

(** [Math.max(a, b)]: [NaN] when one of the two is, and [+0] above
    [-0]. *)
Definition Math_max (a b : float) : float :=
  if (PrimFloat.is_nan a || PrimFloat.is_nan b)%bool then nan
  else if (a <? b)%float then b
  else if (b <? a)%float then a
  else if PrimFloat.get_sign a then b else a.

(** [x >= bound] for a number [bound]: false when [x] is [undefined] or
    [NaN]. *)
Definition ge (x : option float) (bound : float) : bool :=
  (bound <=? to_number x)%float.

(** A template literal or a [+=] on a field that may be missing. *)
Definition string_of (s : option string) : string :=
  match s with
  | Some x => x
  | None => "undefined"
  end.

(** The white space of [trim()] and of [\s] among one-byte code units:
    TAB, LF, VT, FF, CR, SPACE and NBSP. *)
Definition is_white_space (c : ascii) : bool :=
  (between 9 13 c || Nat.eqb (nat_of_ascii c) 32
   || Nat.eqb (nat_of_ascii c) 160)%bool.

(** [s.trimStart()] *)
Fixpoint trim_start (s : string) : string :=
  match s with
  | EmptyString => EmptyString
  | String c r => if is_white_space c then trim_start r else s
  end.

(** [s.trimEnd()] *)
Fixpoint trim_end (s : string) : string :=
  match s with
  | EmptyString => EmptyString
  | String c r =>
      if (is_white_space c && all_chars is_white_space r)%bool
      then EmptyString
      else String c (trim_end r)
  end.

(** [s.trim()] *)
Definition trim (s : string) : string := trim_end (trim_start s).

Fixpoint filter_chars (p : ascii -> bool) (s : string) : string :=
  match s with
  | EmptyString => EmptyString
  | String c r => if p c then String c (filter_chars p r) else filter_chars p r
  end.

(** The apostrophe and the quotation mark. *)
Definition is_quote (c : ascii) : bool :=
  (Nat.eqb (nat_of_ascii c) 39 || Nat.eqb (nat_of_ascii c) 34)%bool.

(** [s.replace(re, '')] where [re] is the global pattern for one
    apostrophe or quotation mark. *)
Definition remove_quotes : string -> string :=
  filter_chars (fun c => negb (is_quote c)).

End JS.

(** ** What a client call returns

    [{ data, error }]: [error] is set exactly when [data] is [null]. *)

Inductive response (A : Type) : Type :=
| Data (data : A)
| Failure (message : string).

Arguments Data {A} data.
Arguments Failure {A} message.

(** ** The object store (bucket [documents])

    The storage service is outside the repository; the module holds the
    calls the source makes on it, on a store that is a list of objects. *)

Module Storage.

(** A stored object: its key in the bucket and [metadata.size]. *)
Record StoredObject : Type := { key : string; bytes : Z }.

(** An entry of a listing: a file has its metadata, a folder
    placeholder has none. *)
Record FileObject : Type := { name : string; metadata : option Z }.

Definition FileObject_eq_dec (a b : FileObject) : {a = b} + {a <> b}.
Proof.
  decide equality;
    [ decide equality; apply Z.eq_dec | apply String.string_dec ].
Defined.

(** [s = p ++ rest] *)
Fixpoint strip_prefix (p s : string) : option string :=
  match p with
  | EmptyString => Some s
  | String a p' =>
      match s with
      | EmptyString => None
      | String b s' => if Ascii.eqb a b then strip_prefix p' s' else None
      end
  end.

(** The entry that an object contributes to the listing of [dir]: the
    object itself when it lies directly in [dir], the sub-folder that
    holds it otherwise. *)
Definition entry_of (dir : string) (o : StoredObject) : option FileObject :=
  match strip_prefix (dir +:+ "/") (key o) with
  | None => None
  | Some rest =>
      match JS.split "/" rest with
      | [] => None
      | [f] => Some {| name := f; metadata := Some (bytes o) |}
      | d :: _ :: _ => Some {| name := d; metadata := None |}
      end
  end.

Fixpoint entries (dir : string) (objs : list StoredObject) : list FileObject :=
  match objs with
  | [] => []
  | o :: r =>
      match entry_of dir o with
      | Some e => e :: entries dir r
      | None => entries dir r
      end
  end.

(** [storage.from("documents").list(dir, { limit, sortBy })]: the store
    keeps its objects in the order of the listing (newest first). *)
Definition list_ (dir : string) (limit : nat) (objs : list StoredObject)
  : response (list FileObject) :=
  Data (firstn limit (nodup FileObject_eq_dec (entries dir objs))).

Definition mem (path : string) (paths : list string) : bool :=
  existsb (String.eqb path) paths.

(** [storage.from("documents").remove(paths)] *)
Definition remove (paths : list string) (objs : list StoredObject)
  : list StoredObject :=
  List.filter (fun o => negb (mem (key o) paths)) objs.

Definition has (path : string) (objs : list StoredObject) : bool :=
  existsb (fun o => String.eqb (key o) path) objs.

(** [storage.from("documents").upload(path, file, { upsert: false })] *)
Definition upload (path : string) (size : Z) (objs : list StoredObject)
  : response (list StoredObject) :=
  if has path objs then Failure "The resource already exists"
  else Data ({| key := path; bytes := size |} :: objs).

(** [storage.from("documents").getPublicUrl(path)] *)
Definition getPublicUrl (path : string) : string :=
  "/storage/v1/object/public/documents/" +:+ path.

(** [storage.from("documents").createSignedUrl(path, 3600)] *)
Definition createSignedUrl (path : string) (objs : list StoredObject)
  : response string :=
  if has path objs
  then Data ("/storage/v1/object/sign/documents/" +:+ path)
  else Failure "Object not found".

(** [storage.from("documents").download(path)]: the blob is represented
    by its size. *)
Definition download (path : string) (objs : list StoredObject) : response Z :=
  match List.find (fun o => String.eqb (key o) path) objs with
  | Some o => Data (bytes o)
  | None => Failure "Object not found"
  end.

(** [storage.from("documents").upload(path, file, { upsert: true })] *)
Definition upsert (path : string) (size : Z) (objs : list StoredObject)
  : list StoredObject :=
  {| key := path; bytes := size |} :: remove [path] objs.

(** What the browser is told to save: the blob and the [download]
    attribute of the link. *)
Record Download : Type := { blob : Z; filename : string }.

(** Every object lies in a folder: no key is a bare file name. *)
Definition foldered (objs : list StoredObject) : Prop :=
  forall o, In o objs -> JS.includes (key o) "/" = true.

End Storage.

(** ** The tables *)

(** A row of [deleted_documents]. *)
Module Marker.
Record t : Type := {
  id : string;
  user_id : string;
  document_path : string;
  document_name : string;
  deleted_at : Z
}.
End Marker.

(** A row of [document_shares] ([SharedDocumentData]); the columns
    [created_at] and [updated_at], which no code reads, are left out. *)
Module Share.
Record t : Type := {
  id : string;
  user_id : string;
  document_path : string;
  share_token : string;
  is_public : bool;
  expires_at : option Z;
  password_hash : option string;
  allow_download : bool;
  access_count : Z
}.

Definition set_access_count (n : Z) (r : t) : t :=
  {| id := id r; user_id := user_id r; document_path := document_path r;
     share_token := share_token r; is_public := is_public r;
     expires_at := expires_at r; password_hash := password_hash r;
     allow_download := allow_download r; access_count := n |}.
End Share.

Record Backend : Type := {
  objects : list Storage.StoredObject;
  deleted_documents : list Marker.t;
  document_shares : list Share.t
}.

Definition with_objects (o : list Storage.StoredObject) (st : Backend) : Backend :=
  {| objects := o; deleted_documents := deleted_documents st;
     document_shares := document_shares st |}.

Definition with_deleted (d : list Marker.t) (st : Backend) : Backend :=
  {| objects := objects st; deleted_documents := d;
     document_shares := document_shares st |}.

Definition with_shares (s : list Share.t) (st : Backend) : Backend :=
  {| objects := objects st; deleted_documents := deleted_documents st;
     document_shares := s |}.

(** ** Queries on [deleted_documents] and [document_shares]

    The queries the source sends, answered from the tables, with the
    constraints of the schema ([PRIMARY KEY], [UNIQUE]) on insertion. *)

Module Db.

(** *** The type [uuid]

    [deleted_documents.id] is a [UUID] column.  A row holds its id in the
    form the database prints, 32 lower-case hexadecimal digits in groups
    of 8-4-4-4-12; a text that is compared with the column is first read
    as a [uuid], and the query fails when it is none. *)

Definition hex_value (c : ascii) : option N :=
  let n := N_of_ascii c in
  if JS.is_digit c then Some (n - 48)%N
  else if JS.between 97 102 c then Some (n - 87)%N
  else if JS.between 65 70 c then Some (n - 55)%N
  else None.

Definition hex_digit (n : N) : ascii :=
  if (n <? 10)%N then ascii_of_N (n + 48) else ascii_of_N (n + 87).

(** The loop of PostgreSQL's input function for [uuid]: sixteen pairs of
    hexadecimal digits, the pair number [i] followed by an optional
    hyphen when [i] is odd and the pair is not the last one. *)
Fixpoint uuid_pairs (count i : nat) (src : string)
  : option (list (N * N) * string) :=
  match count with
  | O => Some ([], src)
  | S count' =>
      match src with
      | String a (String b rest) =>
          match hex_value a, hex_value b with
          | Some x, Some y =>
              let rest' :=
                match rest with
                | String "-" r =>
                    if (Nat.odd i && Nat.ltb i 15)%bool then r else rest
                | _ => rest
                end in
              match uuid_pairs count' (S i) rest' with
              | Some (l, r) => Some ((x, y) :: l, r)
              | None => None
              end
          | _, _ => None
          end
      | _ => None
      end
  end.

(** The text the database prints for the sixteen bytes. *)
Fixpoint uuid_text (i : nat) (pairs : list (N * N)) : string :=
  match pairs with
  | [] => EmptyString
  | (x, y) :: r =>
      let sep :=
        if (Nat.eqb i 4 || Nat.eqb i 6 || Nat.eqb i 8 || Nat.eqb i 10)%bool
        then "-" else EmptyString in
      sep +:+ String (hex_digit x) (String (hex_digit y) (uuid_text (S i) r))
  end.

(** [uuid_in src]: the value of [src] as a [uuid], in the printed form, or
    [None] where the database reports
    [invalid input syntax for type uuid].  The text may stand in braces. *)
Definition uuid_in (src : string) : option string :=
  let '(body, braces) :=
    match src with
    | String "{" r => (r, true)
    | _ => (src, false)
    end in
  match uuid_pairs 16 0 body with
  | None => None
  | Some (pairs, rest) =>
      if (if braces then String.eqb rest "}" else String.eqb rest EmptyString)
      then Some (uuid_text 0 pairs)
      else None
  end.

(** The text is the printed form of a [uuid]. *)
Definition is_uuid (s : string) : bool :=
  match uuid_in s with
  | Some u => String.eqb u s
  | None => false
  end.

Definition invalid_uuid : string := "invalid input syntax for type uuid".

Definition owned (userId : string) (m : Marker.t) : bool :=
  String.eqb (Marker.user_id m) userId.

Definition is_row (documentId userId : string) (m : Marker.t) : bool :=
  (String.eqb (Marker.id m) documentId && owned userId m)%bool.

(** [.order('deleted_at', { ascending: false })] *)
Fixpoint insert_desc (m : Marker.t) (rows : list Marker.t) : list Marker.t :=
  match rows with
  | [] => [m]
  | x :: r =>
      if Marker.deleted_at x <? Marker.deleted_at m
      then m :: rows
      else x :: insert_desc m r
  end.

Definition order_desc (rows : list Marker.t) : list Marker.t :=
  fold_right insert_desc [] rows.

(** [.from('deleted_documents').select(..).eq('user_id', userId)] *)
Definition select_deleted (userId : string) (st : Backend)
  : response (list Marker.t) :=
  Data (List.filter (owned userId) (deleted_documents st)).

(** [.from('deleted_documents').select('*').eq('user_id', userId)
     .order('deleted_at', { ascending: false })] *)
Definition select_deleted_ordered (userId : string) (st : Backend)
  : response (list Marker.t) :=
  Data (order_desc (List.filter (owned userId) (deleted_documents st))).

(** [.select('*').eq('id', documentId).eq('user_id', userId).single()]:
    an error when [documentId] is no [uuid], and unless exactly one row
    matches. *)
Definition select_deleted_single (documentId userId : string) (st : Backend)
  : response Marker.t :=
  match uuid_in documentId with
  | None => Failure invalid_uuid
  | Some u =>
      match List.filter (is_row u userId) (deleted_documents st) with
      | [m] => Data m
      | _ => Failure "JSON object requested, multiple (or no) rows returned"
      end
  end.

(** [.from('deleted_documents').insert(row)] under [PRIMARY KEY (id)] and
    [UNIQUE (user_id, document_path)].  The id of the row is the one the
    database generates: the printed form of a [uuid]; no row is written
    with another text as its id. *)
Definition conflicts (row m : Marker.t) : bool :=
  (String.eqb (Marker.id m) (Marker.id row)
   || (String.eqb (Marker.user_id m) (Marker.user_id row)
       && String.eqb (Marker.document_path m) (Marker.document_path row)))%bool.

Definition insert_deleted (row : Marker.t) (st : Backend) : response Backend :=
  if negb (is_uuid (Marker.id row)) then Failure invalid_uuid
  else if existsb (conflicts row) (deleted_documents st)
  then Failure "duplicate key value violates unique constraint"
  else Data (with_deleted (deleted_documents st ++ [row]) st).

(** [.from('deleted_documents').delete().eq('id', documentId)
     .eq('user_id', userId)]: an error when [documentId] is no [uuid]. *)
Definition delete_deleted (documentId userId : string) (st : Backend)
  : response Backend :=
  match uuid_in documentId with
  | None => Failure invalid_uuid
  | Some u =>
      Data (with_deleted
              (List.filter (fun m => negb (is_row u userId m))
                 (deleted_documents st)) st)
  end.

Definition has_token (token : string) (r : Share.t) : bool :=
  String.eqb (Share.share_token r) token.

(** *** Row-level security of [document_shares]

    [viewer] is [auth.uid()], the user of the session that sends the
    query, [None] for a visitor who is not signed in; [db_now] is the
    [NOW()] of the database. *)

(** ["Users can manage their own document shares"]:
    [FOR ALL USING (auth.uid() = user_id)]. *)
Definition own_share (viewer : option string) (r : Share.t) : bool :=
  match viewer with
  | Some uid => String.eqb uid (Share.user_id r)
  | None => false
  end.

(** ["Public can view non-expired shares"] and
    ["Anonymous can view public shares"]: [FOR SELECT USING
    (is_public = true AND (expires_at IS NULL OR expires_at > NOW()))]. *)
Definition public_share (db_now : Z) (r : Share.t) : bool :=
  (Share.is_public r
   && match Share.expires_at r with
      | None => true
      | Some t => db_now <? t
      end)%bool.

(** The rows a [SELECT] of the session sees. *)
Definition visible (viewer : option string) (db_now : Z) (r : Share.t) : bool :=
  (own_share viewer r || public_share db_now r)%bool.

(** [.from('document_shares').select('*').eq('share_token', token)] *)
Definition select_shares (viewer : option string) (db_now : Z)
    (token : string) (st : Backend) : response (list Share.t) :=
  Data (List.filter (fun r => (has_token token r && visible viewer db_now r)%bool)
          (document_shares st)).

(** The same query with [.single()]. *)
Definition select_share_single (viewer : option string) (db_now : Z)
    (token : string) (st : Backend) : response Share.t :=
  match List.filter (fun r => (has_token token r && visible viewer db_now r)%bool)
          (document_shares st) with
  | [r] => Data r
  | _ => Failure "JSON object requested, multiple (or no) rows returned"
  end.

(** [.from('document_shares').insert(row)] under [PRIMARY KEY (id)] and
    [share_token UNIQUE]. *)
Definition share_conflicts (row r : Share.t) : bool :=
  (String.eqb (Share.id r) (Share.id row)
   || String.eqb (Share.share_token r) (Share.share_token row))%bool.

Definition insert_share (row : Share.t) (st : Backend) : response Backend :=
  if existsb (share_conflicts row) (document_shares st)
  then Failure "duplicate key value violates unique constraint"
  else Data (with_shares (document_shares st ++ [row]) st).

(** The range of the column type [INTEGER]. *)
Definition is_integer (n : Z) : bool :=
  ((-2147483648 <=? n) && (n <=? 2147483647))%bool.

(** [.from('document_shares').update({ access_count: n, updated_at })
     .eq('id', id)]: an [UPDATE] reaches the rows of the session's own
    user only, and fails on a number outside the column type.  The column
    [updated_at] is not among the fields of [Share.t]. *)
Definition update_access_count (viewer : option string) (id : string) (n : Z)
    (st : Backend) : response Backend :=
  if negb (is_integer n) then Failure "integer out of range"
  else
    Data (with_shares
            (map (fun r => if (String.eqb (Share.id r) id && own_share viewer r)%bool
                           then Share.set_access_count n r else r)
               (document_shares st)) st).

End Db.

(** ** [lib/supabaseClient.ts] *)

(** An entry of [listUserDocuments]. *)
Module Listed.
Record t : Type := {
  name : string;
  path : string;
  publicUrl : string;
  size : Z;
  category : string
}.
End Listed.

(** An entry of [listUserTrash]. *)
Module TrashItem.
Record t : Type := {
  id : string;
  name : string;
  path : string;
  publicUrl : string;
  size : Z;
  deletedAt : Z
}.
End TrashItem.

Module Client.

(** The [File] handed to [uploadDocument]: [file.name] and [file.size]. *)
Record File : Type := { file_name : string; file_size : Z }.

Record Uploaded : Type := { publicUrl : string; path : string }.

(** [file.name.split(".").pop()] *)
Definition fileExt (file : File) : string :=
  JS.pop (JS.split "." (file_name file)).

(** [`${prefix}/${Date.now()}_${category}_${safeName}.${fileExt}`] without
    the prefix. *)
Definition objectName (now : N) (file : File) (name category : string) : string :=
  JS.of_N now +:+ "_" +:+ category +:+ "_" +:+ JS.sanitize name
    +:+ "." +:+ fileExt file.

Definition filePath (userId : string) (now : N) (file : File)
    (name category : string) (isPrivate : bool) : string :=
  let prefix := if isPrivate then userId +:+ "/private" else userId in
  prefix +:+ "/" +:+ objectName now file name category.

Definition uploadDocument (now : N) (userId : string) (file : File)
    (name category : string) (isPrivate : bool) (st : Backend)
  : response (Uploaded * Backend) :=
  let p := filePath userId now file name category isPrivate in
  match Storage.upload p (file_size file) (objects st) with
  | Failure e => Failure e
  | Data objs =>
      Data ({| publicUrl := Storage.getPublicUrl p; path := p |},
            with_objects objs st)
  end.

(** [path.includes('/') ? path.split('/').pop()! : path] *)
Definition filename_of (path : string) : string :=
  if JS.includes path "/" then JS.pop (JS.split "/" path) else path.

(** The row id and [deleted_at] are the database's defaults
    ([gen_random_uuid()], [NOW()]). *)
Definition moveToTrash (new_id : string) (now : Z) (userId path : string)
    (st : Backend) : response Backend :=
  Db.insert_deleted
    {| Marker.id := new_id; Marker.user_id := userId;
       Marker.document_path := path;
       Marker.document_name := filename_of path;
       Marker.deleted_at := now |} st.

Definition restoreFromTrash (userId documentId : string) (st : Backend)
  : response Backend :=
  Db.delete_deleted documentId userId st.

(** The display name that [listUserTrash] parses from [document_name]. *)
Definition trashDisplayName (document_name : string) : string :=
  let parts := JS.split "_" document_name in
  if Nat.leb 3 (length parts)
  then JS.underscores_to_spaces
         (JS.strip_extension (JS.join "_" (skipn 2 parts)))
  else document_name.

Definition trashItem (userId : string) (deletedDoc : Marker.t) : TrashItem.t :=
  {| TrashItem.id := Marker.id deletedDoc;
     TrashItem.name := trashDisplayName (Marker.document_name deletedDoc);
     TrashItem.path := Marker.document_path deletedDoc;
     TrashItem.publicUrl :=
       Storage.getPublicUrl (userId +:+ "/" +:+ Marker.document_name deletedDoc);
     TrashItem.size := 0;
     TrashItem.deletedAt := Marker.deleted_at deletedDoc |}.

Definition listUserTrash_on (userId : string)
    (deletedDocs : response (list Marker.t)) : response (list TrashItem.t) :=
  match deletedDocs with
  | Failure e => Failure e
  | Data rows => Data (map (trashItem userId) rows)
  end.

Definition listUserTrash (userId : string) (st : Backend)
  : response (list TrashItem.t) :=
  listUserTrash_on userId (Db.select_deleted_ordered userId st).

(** The removal from storage goes through [supabaseAdmin], in a [try]
    block of its own.  [storageError] is what becomes of that call:
    [None] when the service removes the object, an error when the call
    throws or is refused; the source logs what it catches, does not read
    the answer, and returns normally either way. *)
Definition deletePermanent (storageError : option string)
    (userId documentId : string) (st : Backend) : response Backend :=
  match Db.select_deleted_single documentId userId st with
  | Failure e => Failure e
  | Data deletedDoc =>
      match Db.delete_deleted documentId userId st with
      | Failure e => Failure e
      | Data st1 =>
          let filePath := userId +:+ "/" +:+ Marker.document_name deletedDoc in
          match storageError with
          | None =>
              Data (with_objects (Storage.remove [filePath] (objects st1)) st1)
          | Some _ => Data st1
          end
      end
  end.

(** [trash.filter(..).map((t) => t.path)] of [purgeOldTrash]. *)
Definition toDelete (now days : Z) (trash : list TrashItem.t) : list string :=
  let threshold := now - days * 24 * 60 * 60 * 1000 in
  map TrashItem.path
    (List.filter
       (fun t => (0 <? TrashItem.size t) && (TrashItem.deletedAt t <? threshold))%bool
       trash).

Definition purgeOldTrash (now : Z) (userId : string) (days : Z) (st : Backend)
  : response Backend :=
  match listUserTrash userId st with
  | Failure e => Failure e
  | Data trash =>
      match toDelete now days trash with
      | [] => Data st
      | (_ :: _) as paths =>
          Data (with_objects (Storage.remove paths (objects st)) st)
      end
  end.

(** [{ ...obj, isPrivate }] *)
Record TaggedObject : Type := { obj : Storage.FileObject; isPrivate : bool }.

Definition tag (p : bool) (o : Storage.FileObject) : TaggedObject :=
  {| obj := o; isPrivate := p |}.

Definition obj_name (o : TaggedObject) : string := Storage.name (obj o).

(** [obj.metadata?.size || 0] *)
Definition obj_size (o : TaggedObject) : Z :=
  match Storage.metadata (obj o) with
  | Some n => n
  | None => 0
  end.

(** The predicate of the [filter] in [listUserDocuments]. *)
Definition keep (deletedPaths : gset string) (o : TaggedObject) : bool :=
  let isDeleted := bool_decide (obj_name o ∈ deletedPaths) in
  (JS.includes (obj_name o) "."
   && (0 <? obj_size o)
   && negb (JS.includes (obj_name o) "_trash_")
   && negb isDeleted)%bool.

(** The parse [timestamp_category_name.ext] of a filename. *)
Definition parsedCategory (name : string) : string :=
  let parts := JS.split "_" name in
  if Nat.leb 3 (length parts) then nth 1 parts EmptyString else "other".

Definition parsedDisplayName (name : string) : string :=
  let parts := JS.split "_" name in
  if Nat.leb 3 (length parts)
  then JS.underscores_to_spaces
         (JS.strip_word_extension (JS.join "_" (skipn 2 parts)))
  else name.

Definition fullPath (userId : string) (o : TaggedObject) : string :=
  if isPrivate o then userId +:+ "/private/" +:+ obj_name o
  else userId +:+ "/" +:+ obj_name o.

(** The function of the [map] in [listUserDocuments]. *)
Definition toListed (userId : string) (o : TaggedObject) : Listed.t :=
  {| Listed.name := parsedDisplayName (obj_name o);
     Listed.path := obj_name o;
     Listed.publicUrl := Storage.getPublicUrl (fullPath userId o);
     Listed.size := obj_size o;
     Listed.category :=
       if isPrivate o then "private" else parsedCategory (obj_name o) |}.

Definition allData (regularData privateData : list Storage.FileObject)
  : list TaggedObject :=
  map (tag false) regularData ++ map (tag true) privateData.

(** [listUserDocuments] on the three answers it awaits: an error of the
    first listing is thrown, an error of the second listing or of the
    marker query is logged and its data taken as empty. *)
Definition listUserDocuments_on (userId : string)
    (regular private : response (list Storage.FileObject))
    (deletedDocs : response (list Marker.t)) : response (list Listed.t) :=
  match regular with
  | Failure e => Failure e
  | Data regularData =>
      let privateData :=
        match private with Data d => d | Failure _ => [] end in
      let deletedPaths : gset string :=
        list_to_set
          (map Marker.document_name
             (match deletedDocs with Data d => d | Failure _ => [] end)) in
      Data (map (toListed userId)
              (List.filter (keep deletedPaths)
                 (allData regularData privateData)))
  end.

Definition listUserDocuments (userId : string) (st : Backend)
  : response (list Listed.t) :=
  listUserDocuments_on userId
    (Storage.list_ userId 100 (objects st))
    (Storage.list_ (userId +:+ "/private") 100 (objects st))
    (Db.select_deleted userId st).

(** The vocabulary of the statements about the listing. *)

Definition data_or_empty {A : Type} (r : response (list A)) : list A :=
  match r with Data d => d | Failure _ => [] end.

(** The objects the two listings of [listUserDocuments] return. *)
Definition listed_objects (userId : string) (st : Backend) : list TaggedObject :=
  allData (data_or_empty (Storage.list_ userId 100 (objects st)))
    (data_or_empty (Storage.list_ (userId +:+ "/private") 100 (objects st))).

(** The checks of the filter that do not look at the markers: a file
    extension, a size, no legacy trash name. *)
Definition present (o : TaggedObject) : bool :=
  (JS.includes (obj_name o) "."
   && (0 <? obj_size o)
   && negb (JS.includes (obj_name o) "_trash_"))%bool.

(** A marker of [userId] names the file [name]. *)
Definition marked (userId name : string) (st : Backend) : Prop :=
  exists m, In m (deleted_documents st)
            /\ Marker.user_id m = userId
            /\ Marker.document_name m = name.

(** What [moveToTrash] establishes for the row it writes. *)
Definition written_by_moveToTrash (m : Marker.t) : Prop :=
  Marker.document_name m = filename_of (Marker.document_path m)
  /\ Db.is_uuid (Marker.id m) = true.

End Client.

(** ** [pages/Index.tsx] *)

Module Index.

(** [Document | TrashDocument], with the fields the handlers read. *)
Record Document : Type := {
  id : string;
  name : string;
  category : string;
  url : option string;
  path : option string
}.

(** [ShareSettings]; [expiresIn] is a number of hours. *)
Record ShareSettings : Type := {
  isPublic : bool;
  expiresIn : Z;
  requiresPassword : bool;
  password : option string;
  allowDownload : bool
}.

(** The component state the handlers read and write. *)
Record UI : Type := {
  documents : list Document;
  trashDocs : list Document;
  selectedCategory : string
}.

Definition setDocuments (docs : list Document) (ui : UI) : UI :=
  {| documents := docs; trashDocs := trashDocs ui;
     selectedCategory := selectedCategory ui |}.

Definition setTrashDocs (docs : list Document) (ui : UI) : UI :=
  {| documents := documents ui; trashDocs := docs;
     selectedCategory := selectedCategory ui |}.

Definition ofListed (d : Listed.t) : Document :=
  {| id := Listed.path d; name := Listed.name d;
     category := Listed.category d; url := Some (Listed.publicUrl d);
     path := Some (Listed.path d) |}.

Definition ofTrashItem (t : TrashItem.t) : Document :=
  {| id := "trash-" +:+ TrashItem.name t; name := TrashItem.name t;
     category := "trash"; url := Some (TrashItem.publicUrl t);
     path := Some (TrashItem.path t) |}.

(** [loadDocuments]: the body of [try] sets the documents, [finally] sets
    the trash; an error of [listUserDocuments] is caught, an error of the
    trash listing in [finally] is thrown. *)
Definition loadDocuments (userId : string) (ui : UI) (st : Backend)
  : response UI :=
  let ui1 :=
    match Client.listUserDocuments userId st, Client.listUserTrash userId st with
    | Data docs, Data _ => setDocuments (map ofListed docs) ui
    | _, _ => ui
    end in
  match Client.listUserTrash userId st with
  | Failure e => Failure e
  | Data trashData => Data (setTrashDocs (map ofTrashItem trashData) ui1)
  end.

Definition find_doc (id0 : string) (docs : list Document) : option Document :=
  List.find (fun d => String.eqb (id d) id0) docs.

Definition without (id0 : string) (docs : list Document) : list Document :=
  List.filter (fun d => negb (String.eqb (id d) id0)) docs.

(** What a handler leaves behind: the component state, the backend and
    the title of the toast it raised. *)
Record Outcome : Type := {
  ui_of : UI;
  backend_of : Backend;
  toast_of : option string
}.

Definition unchanged (ui : UI) (st : Backend) : Outcome :=
  {| ui_of := ui; backend_of := st; toast_of := None |}.

Definition failed (ui : UI) (st : Backend) : Outcome :=
  {| ui_of := ui; backend_of := st; toast_of := Some "Delete failed" |}.

(** [handleDelete(id)]; [confirmed] is the answer of [window.confirm],
    [new_id] and [now] are what the database fills into a new marker,
    [storageError] is the one of [deletePermanent]. *)
Definition handleDelete (confirmed : bool) (new_id : string) (now : Z)
    (storageError : option string) (user : option string) (id0 : string)
    (ui : UI) (st : Backend) : Outcome :=
  match user with
  | None => unchanged ui st
  | Some userId =>
      let doc := find_doc id0 (documents ui) in
      let trashDoc := find_doc id0 (trashDocs ui) in
      let foundDoc := match doc with Some d => Some d | None => trashDoc end in
      match foundDoc with
      | None => unchanged ui st
      | Some found =>
          if String.eqb (category found) "private" then
            (* Private docs: immediate permanent delete *)
            if negb confirmed then unchanged ui st
            else match Client.deletePermanent storageError userId id0 st with
                 | Failure _ => failed ui st
                 | Data st1 =>
                     (* the toast reads [doc.name]: without [doc], that
                        throws and the [catch] raises its own toast *)
                     {| ui_of := setDocuments (without id0 (documents ui)) ui;
                        backend_of := st1;
                        toast_of :=
                          match doc with
                          | Some _ => Some "Private document deleted permanently"
                          | None => Some "Delete failed"
                          end |}
                 end
          else if String.eqb (selectedCategory ui) "trash" then
            if negb confirmed then unchanged ui st
            else match trashDoc with
                 | None => unchanged ui st
                 | Some t =>
                     match Client.deletePermanent storageError userId (id t) st with
                     | Failure _ => failed ui st
                     | Data st1 =>
                         match loadDocuments userId ui st1 with
                         | Failure _ => failed ui st1
                         | Data ui1 =>
                             {| ui_of := ui1; backend_of := st1;
                                toast_of := Some "Deleted permanently" |}
                         end
                     end
                 end
          else match doc with
               | None => unchanged ui st
               | Some d =>
                   match path d with
                   | None => failed ui st
                   | Some p =>
                       match Client.moveToTrash new_id now userId p st with
                       | Failure _ => failed ui st
                       | Data st1 =>
                           match loadDocuments userId ui st1 with
                           | Failure _ => failed ui st1
                           | Data ui1 =>
                               {| ui_of := setDocuments (without id0 (documents ui1)) ui1;
                                  backend_of := st1;
                                  toast_of := Some "Document deleted permanently" |}
                           end
                       end
                   end
               end
      end
  end.

(** [handleRestore(id)] *)
Definition handleRestore (user : option string) (id0 : string) (ui : UI)
    (st : Backend) : Outcome :=
  match user with
  | None => unchanged ui st
  | Some userId =>
      match find_doc id0 (trashDocs ui) with
      | None => unchanged ui st
      | Some doc =>
          match Client.restoreFromTrash userId (id doc) st with
          | Failure _ =>
              {| ui_of := ui; backend_of := st;
                 toast_of := Some "Restore failed" |}
          | Data st1 =>
              let ui1 := setTrashDocs (without id0 (trashDocs ui)) ui in
              match loadDocuments userId ui1 st1 with
              | Failure _ =>
                  {| ui_of := ui1; backend_of := st1;
                     toast_of := Some "Restore failed" |}
              | Data ui2 =>
                  {| ui_of := ui2; backend_of := st1;
                     toast_of := Some "Restored" |}
              end
          end
      end
  end.

(** [shareSettings.expiresIn > 0
     ? new Date(Date.now() + shareSettings.expiresIn * 60 * 60 * 1000)
     : null], with [now] for [Date.now()].  For a time [now] that is not
    negative and a whole number of hours, the sum the source computes in
    doubles is this one wherever it lies within the range of [Date]. *)
Definition expiresAt (now expiresIn : Z) : option Z :=
  if 0 <? expiresIn
  then JS.date (now + expiresIn * 60 * 60 * 1000)
  else None.

(** [passwordHash] of [handleShare]: [btoa] of the password when one is
    required and given, [null] otherwise. *)
Definition passwordHash (shareSettings : ShareSettings) : option string :=
  if (requiresPassword shareSettings && JS.truthy (password shareSettings))%bool
  then option_map JS.btoa (password shareSettings)
  else None.

(** [handleShare(document, shareSettings)]: [shareToken] is
    [crypto.randomUUID()], [new_id] the row id the database generates,
    [baseUrl] the origin of the share link.  A [Failure] is a thrown
    error; the backend comes back with it. *)
Definition handleShare (shareToken new_id baseUrl : string) (now : Z)
    (user : option string) (document : Document) (shareSettings : ShareSettings)
    (st : Backend) : response string * Backend :=
  match user with
  | None => (Failure "User not authenticated", st)
  | Some userId =>
      (* Prevent sharing private documents *)
      if String.eqb (category document) "private"
      then (Failure "Private documents cannot be shared", st)
      else
        let expiresAt := expiresAt now (expiresIn shareSettings) in
        let passwordHash := passwordHash shareSettings in
        let row :=
          {| Share.id := new_id;
             Share.user_id := userId;
             Share.document_path :=
               (if JS.truthy (path document)
                then default EmptyString (path document)
                else userId +:+ "/" +:+ name document);
             Share.share_token := shareToken;
             Share.is_public := isPublic shareSettings;
             Share.expires_at := expiresAt;
             Share.password_hash := passwordHash;
             Share.allow_download := allowDownload shareSettings;
             Share.access_count := 0 |} in
        match Db.insert_share row st with
        | Failure e => (Failure e, st)
        | Data st1 => (Data (baseUrl +:+ "/shared/" +:+ shareToken), st1)
        end
  end.

(** [{ ...doc, name: newName, path: newPath }] for the document with the
    id of [document]. *)
Definition renamed (document : Document) (newName newPath : string)
    (doc : Document) : Document :=
  if String.eqb (id doc) (id document)
  then {| id := id doc; name := newName; category := category doc;
          url := url doc; path := Some newPath |}
  else doc.

(** [handleRename(document, newName)].  [uploadError] and [deleteError]
    are the errors the storage service answers to the upload and to the
    removal, [None] where it carries the call out: the first is thrown,
    the second only logged.  The update of [smart_folder_assignments] and
    of the folder view, which the source makes in smart-folder mode,
    touch neither the object store nor the document list and are left
    out. *)
Definition handleRename (uploadError deleteError : option string)
    (user : option string) (document : Document) (newName : string)
    (ui : UI) (st : Backend) : Outcome :=
  match user with
  | None => unchanged ui st
  | Some userId =>
      let oldPath := userId +:+ "/" +:+ name document in
      let newPath := userId +:+ "/" +:+ newName in
      (* Copy file to new location *)
      match Storage.download oldPath (objects st) with
      | Failure _ =>
          {| ui_of := ui; backend_of := st; toast_of := Some "Error" |}
      | Data fileData =>
          (* Upload with new name *)
          match uploadError with
          | Some _ =>
              {| ui_of := ui; backend_of := st; toast_of := Some "Error" |}
          | None =>
              let uploaded := Storage.upsert newPath fileData (objects st) in
              (* Delete old file *)
              let removed :=
                match deleteError with
                | None => Storage.remove [oldPath] uploaded
                | Some _ => uploaded
                end in
              {| ui_of :=
                   setDocuments
                     (map (renamed document newName newPath) (documents ui)) ui;
                 backend_of := with_objects removed st;
                 toast_of := Some "Document Renamed" |}
          end
      end
  end.

(** What [useWebAuthn] gives to [requireAuth]: [isSupported] and the
    results of the first and of the second call of [authenticateUser],
    which returns [false] where the platform call fails; reading the
    stored credential id is taken not to throw. *)
Record Authenticator : Type := {
  isSupported : bool;
  first_attempt : bool;
  second_attempt : bool
}.

(** [requireAuth(document)], with the title of the toast it raises. *)
Definition requireAuth (auth : Authenticator) (document : Document)
  : bool * option string :=
  if negb (String.eqb (category document) "private") then (true, None)
  else if negb (isSupported auth)
  then (false, Some "Authentication required")
  else
    let authenticated :=
      if first_attempt auth then true else second_attempt auth in
    (authenticated,
     if authenticated then None else Some "Authentication failed").

(** [handleDownload(document)]: what is saved, and the title of the
    toast. *)
Definition handleDownload (auth : Authenticator) (document : Document)
    (st : Backend) : option Storage.Download * option string :=
  match requireAuth auth document with
  | (false, t) => (None, t)
  | (true, _) =>
      match path document with
      | None => (None, Some "Download failed")
      | Some p =>
          match Storage.download p (objects st) with
          | Failure _ => (None, Some "Download failed")
          | Data data =>
              (Some {| Storage.blob := data;
                       Storage.filename := name document |}, None)
          end
      end
  end.

(** [filteredDocuments], for the content [searchQuery] of the search
    field. *)
Definition filteredDocuments (searchQuery : string) (ui : UI)
  : list Document :=
  let currentList :=
    if String.eqb (selectedCategory ui) "trash" then trashDocs ui
    else documents ui in
  List.filter
    (fun doc =>
       let matchesSearch :=
         JS.includes (JS.toLowerCase (name doc)) (JS.toLowerCase searchQuery) in
       let matchesCategory :=
         if String.eqb (selectedCategory ui) "all"
         then negb (String.eqb (category doc) "trash")
         else String.eqb (category doc) (selectedCategory ui) in
       (matchesSearch && matchesCategory)%bool)
    currentList.

(** An element of the [updates] of [handleBulkCategoryUpdate]. *)
Record CategoryUpdate : Type := {
  update_path : string;
  update_category : string
}.

(** [d.path === p] *)
Definition path_is (p : string) (d : Document) : bool :=
  match path d with
  | Some q => String.eqb q p
  | None => false
  end.

(** [doc.category = update.category] on the first document that
    [documents.find(d => d.path === update.path)] meets. *)
Fixpoint apply_update (update : CategoryUpdate) (docs : list Document)
  : list Document :=
  match docs with
  | [] => []
  | d :: r =>
      if path_is (update_path update) d
      then {| id := id d; name := name d;
              category := update_category update;
              url := url d; path := path d |} :: r
      else d :: apply_update update r
  end.

(** [handleBulkCategoryUpdate(updates)] *)
Definition handleBulkCategoryUpdate (updates : list CategoryUpdate)
    (ui : UI) (st : Backend) : Outcome :=
  {| ui_of :=
       setDocuments
         (fold_left (fun docs update => apply_update update docs) updates
            (documents ui)) ui;
     backend_of := st;
     toast_of := Some "Categories Updated" |}.

(** [keywords.add(word)] on a [Set], whose elements are kept in the
    order of their insertion. *)
Definition add_keyword (keywords : list string) (word : string) : list string :=
  if existsb (String.eqb word) keywords then keywords else keywords ++ [word].

Definition long_word (word : string) : bool := Nat.ltb 2 (String.length word).

(** The words [generateFolderKeywords] takes from the folder name. *)
Definition folderWords (folderName : string) : list string :=
  List.filter long_word (JS.split " " (JS.toLowerCase folderName)).

(** [s.replace(/[^a-z0-9\s]/g, ' ')] *)
Definition clean_word_chars : string -> string :=
  JS.map_chars
    (fun c => if (JS.is_lower c || JS.is_digit c || JS.is_white_space c)%bool
              then c else " "%char).

(** The words [generateFolderKeywords] takes from a document name. *)
Definition documentWords (doc : Document) : list string :=
  List.filter long_word
    (JS.split " " (clean_word_chars (JS.toLowerCase (name doc)))).

(** [generateFolderKeywords(folderName, documents)] *)
Definition generateFolderKeywords (folderName : string)
    (documents : list Document) : list string :=
  firstn 10
    (fold_left add_keyword
       (folderWords folderName ++ flat_map documentWords documents) []).

End Index.

(** ** [pages/SharedDocument.tsx] *)

Module SharedDocument.

(** The component state. *)
Record Page : Type := {
  shareData : option Share.t;
  documentUrl : string;
  loading : bool;
  error : string;
  passwordRequired : bool
}.

Definition initial : Page :=
  {| shareData := None; documentUrl := EmptyString; loading := true;
     error := EmptyString; passwordRequired := false |}.

Definition setError (e : string) (p : Page) : Page :=
  {| shareData := shareData p; documentUrl := documentUrl p;
     loading := loading p; error := e;
     passwordRequired := passwordRequired p |}.

Definition setLoading (b : bool) (p : Page) : Page :=
  {| shareData := shareData p; documentUrl := documentUrl p;
     loading := b; error := error p;
     passwordRequired := passwordRequired p |}.

Definition setShareData (r : Share.t) (p : Page) : Page :=
  {| shareData := Some r; documentUrl := documentUrl p;
     loading := loading p; error := error p;
     passwordRequired := passwordRequired p |}.

Definition setDocumentUrl (u : string) (p : Page) : Page :=
  {| shareData := shareData p; documentUrl := u;
     loading := loading p; error := error p;
     passwordRequired := passwordRequired p |}.

Definition setPasswordRequired (b : bool) (p : Page) : Page :=
  {| shareData := shareData p; documentUrl := documentUrl p;
     loading := loading p; error := error p;
     passwordRequired := b |}.

Definition not_found : string :=
  "Share link not found. Please check if the link is correct.".
Definition removed : string :=
  "Share link not found or has been removed.".
Definition not_public : string :=
  "This document is not publicly accessible.".
Definition expired : string :=
  "This share link has expired.".
Definition file_not_found : string :=
  "Document file not found in storage. The file may have been moved or deleted.".

(** The path formats [loadDocument] tries after the stored path failed. *)
Definition alternativePaths (shareInfo : Share.t) : list string :=
  [ Share.document_path shareInfo;
    JS.strip_leading_slashes (Share.document_path shareInfo);
    Share.user_id shareInfo +:+ "/"
      +:+ JS.pop (JS.split "/" (Share.document_path shareInfo)) ].

Fixpoint firstSignedUrl (paths : list string)
    (objs : list Storage.StoredObject) : option string :=
  match paths with
  | [] => None
  | altPath :: rest =>
      match Storage.createSignedUrl altPath objs with
      | Data u => Some u
      | Failure _ => firstSignedUrl rest objs
      end
  end.

(** [loadDocument(shareInfo)], for the session of [viewer].  The
    increment of [access_count] is best effort: its answer is not
    read. *)
Definition loadDocument (viewer : option string) (shareInfo : Share.t)
    (p : Page) (st : Backend) : Page * Backend :=
  let resolved :=
    match Storage.createSignedUrl (Share.document_path shareInfo) (objects st) with
    | Data u => Some u
    | Failure _ => firstSignedUrl (alternativePaths shareInfo) (objects st)
    end in
  match resolved with
  | None => (setError file_not_found p, st)
  | Some u =>
      (setShareData shareInfo (setDocumentUrl u p),
       match Db.update_access_count viewer (Share.id shareInfo)
               (Share.access_count shareInfo + 1) st with
       | Data st1 => st1
       | Failure _ => st
       end)
  end.

(** [shareInfo.expires_at && new Date(shareInfo.expires_at) < new Date()] *)
Definition hasExpired (now : Z) (shareInfo : Share.t) : bool :=
  match Share.expires_at shareInfo with
  | Some t => t <? now
  | None => false
  end.

(** The checks of [loadSharedDocument] once the record is at hand. *)
Definition resolve (viewer : option string) (now : Z) (shareInfo : Share.t)
    (p : Page) (st : Backend) : Page * Backend :=
  if negb (Share.is_public shareInfo) then (setError not_public p, st)
  else if hasExpired now shareInfo then (setError expired p, st)
  else if JS.truthy (Share.password_hash shareInfo)
       then (setShareData shareInfo (setPasswordRequired true p), st)
       else loadDocument viewer shareInfo p st.

(** [loadSharedDocument] on the answers of its two attempts to fetch the
    record: the query with [.single()], and the plain query the source
    repeats when the first one failed. *)
Definition loadSharedDocument_on (viewer : option string) (now : Z)
    (first : response Share.t) (second : response (list Share.t))
    (p : Page) (st : Backend) : Page * Backend :=
  let p0 := setLoading true p in
  let '(p1, st1) :=
    match first with
    | Data shareInfo => resolve viewer now shareInfo p0 st
    | Failure _ =>
        match second with
        | Failure _ => (setError removed p0, st)
        | Data (shareInfo :: _) => resolve viewer now shareInfo p0 st
        | Data [] => (setError not_found p0, st)
        end
    end in
  (setLoading false p1, st1).

(** [loadSharedDocument()] in the session of [viewer]: [db_now] is the
    clock of the database, which decides what the queries see, [now] the
    clock of the browser, [new Date()]. *)
Definition loadSharedDocument (viewer : option string) (db_now now : Z)
    (token : string) (p : Page) (st : Backend) : Page * Backend :=
  loadSharedDocument_on viewer now
    (Db.select_share_single viewer db_now token st)
    (Db.select_shares viewer db_now token st) p st.

(** [verifyPassword()], with the content of the password field; the
    third component is the title of the toast. *)
Definition verifyPassword (viewer : option string) (password : string)
    (p : Page) (st : Backend) : Page * Backend * option string :=
  match shareData p with
  | None => (p, st, None)
  | Some shareInfo =>
      if negb (JS.nonempty password) then (p, st, None)
      else
        let hashedInput := JS.btoa password in
        match Share.password_hash shareInfo with
        | Some h =>
            if String.eqb hashedInput h
            then let '(p1, st1) :=
                   loadDocument viewer shareInfo
                     (setPasswordRequired false p) st in
                 (p1, st1, Some "Access Granted")
            else (p, st, Some "Invalid Password")
        | None => (p, st, Some "Invalid Password")
        end
  end.

(** [Math.ceil(a / b)] for an integer [a] and a positive integer [b]. *)
Definition ceil_div (a b : Z) : Z := - ((- a) / b).

Definition getExpirationText (now : Z) (p : Page) : string :=
  match shareData p with
  | None => "Never expires"
  | Some shareInfo =>
      match Share.expires_at shareInfo with
      | None => "Never expires"
      | Some expiry =>
          let diffMs := expiry - now in
          let diffHours := ceil_div diffMs (1000 * 60 * 60) in
          if diffHours <? 1 then "Expires soon"
          else if diffHours <? 24
               then "Expires in " +:+ JS.of_N (Z.to_N diffHours) +:+ " hours"
               else "Expires in "
                      +:+ JS.of_N (Z.to_N (ceil_div diffHours 24)) +:+ " days"
      end
  end.

(** [getDocumentName()] *)
Definition getDocumentName (p : Page) : string :=
  match shareData p with
  | None => "Document"
  | Some shareInfo =>
      let last := JS.pop (JS.split "/" (Share.document_path shareInfo)) in
      if JS.nonempty last then last else "Document"
  end.

(** The loop of [downloadDocument] over the path formats. *)
Fixpoint firstDownload (paths : list string)
    (objs : list Storage.StoredObject) : option Z :=
  match paths with
  | [] => None
  | altPath :: rest =>
      match Storage.download altPath objs with
      | Data data => Some data
      | Failure _ => firstDownload rest objs
      end
  end.

(** [downloadDocument()]: what is saved, and the title of the toast. *)
Definition downloadDocument (p : Page) (st : Backend)
  : option Storage.Download * option string :=
  match shareData p with
  | None => (None, None)
  | Some shareInfo =>
      if negb (Share.allow_download shareInfo) then (None, None)
      else
        match firstDownload (alternativePaths shareInfo) (objects st) with
        | Some data =>
            let last := JS.pop (JS.split "/" (Share.document_path shareInfo)) in
            (Some {| Storage.blob := data;
                     Storage.filename :=
                       if JS.nonempty last then last else "document" |},
             Some "Download Started")
        | None => (None, Some "Download Failed")
        end
  end.

End SharedDocument.

(** ** [lib/geminiCategorization.ts] *)

Module Gemini.

(** The decimal literals of the source are the doubles next to them. *)
#[local] Set Warnings "-inexact-float".

(** A [CategorySuggestion] as [categorizeDocument] returns it.  The
    category is a string; [confidence] and [reasoning] are what the
    object holds, [None] where it has no such field (the suggestion then
    comes from an answer that lacks it). *)
Record CategorySuggestion : Type := {
  category : string;
  confidence : option float;
  reasoning : option string;
  subcategory : option string
}.

(** The object [JSON.parse] gives for the answer of the endpoint, read at
    the four fields of a [CategorySuggestion]: each field holds a value
    of the type the interface declares for it, or is not there. *)
Record JsonObject : Type := {
  json_category : option string;
  json_confidence : option float;
  json_reasoning : option string;
  json_subcategory : option string
}.

(** The keys of [categoryMapping]. *)
Definition categories : list string :=
  ["education"; "identity"; "financial"; "medical"; "legal"; "other"].

(** The property names an object literal inherits from
    [Object.prototype]; each of them holds a truthy value. *)
Definition inherited : list string :=
  ["constructor"; "hasOwnProperty"; "isPrototypeOf"; "propertyIsEnumerable";
   "toLocaleString"; "toString"; "valueOf"; "__proto__";
   "__defineGetter__"; "__defineSetter__"; "__lookupGetter__";
   "__lookupSetter__"].

Definition mem (x : string) (l : list string) : bool :=
  existsb (String.eqb x) l.

(** Whether [categoryMapping[key]] is truthy. *)
Definition categoryMapping_has (key : string) : bool :=
  (mem key categories || mem key inherited)%bool.

(** What the call to the generative-AI endpoint comes to, one constructor
    per place where [categorizeDocument] can leave its [try] block
    ([fetch] rejects, the status is not ok, the body is no JSON, the
    candidate has no text, the text is no string and has no [match], the
    text holds no braces, what the braces hold does not parse), and
    [Parsed] for a text whose braces hold a JSON object. *)
Inductive Answer : Type :=
| FetchRejected
| NotOk (status : Z)
| BodyUnreadable
| NoText
| TextNotAString
| NoJsonObject (text : string)
| JsonParseError (text : string)
| Parsed (suggestion : JsonObject).

Definition any_of (s : string) (keywords : list string) : bool :=
  existsb (JS.includes s) keywords.

Definition fallbackCategorization (fileName : string) : CategorySuggestion :=
  let lowerFileName := JS.toLowerCase fileName in
  if any_of lowerFileName
       ["semester"; "transcript"; "certificate"; "degree"; "result"; "marksheet"]
  then {| category := "education"; confidence := Some 0.7%float;
          reasoning := Some "Filename contains education-related keywords";
          subcategory := Some "academic_transcripts" |}
  else if any_of lowerFileName ["passport"; "license"; "id"; "aadhar"; "pan"]
  then {| category := "identity"; confidence := Some 0.7%float;
          reasoning := Some "Filename contains identity document keywords";
          subcategory := None |}
  else if any_of lowerFileName ["bank"; "statement"; "tax"; "salary"; "invoice"]
  then {| category := "financial"; confidence := Some 0.7%float;
          reasoning := Some "Filename contains financial document keywords";
          subcategory := None |}
  else if any_of lowerFileName ["medical"; "prescription"; "report"; "health"]
  then {| category := "medical"; confidence := Some 0.7%float;
          reasoning := Some "Filename contains medical document keywords";
          subcategory := None |}
  else if any_of lowerFileName ["contract"; "agreement"; "legal"; "court"]
  then {| category := "legal"; confidence := Some 0.7%float;
          reasoning := Some "Filename contains legal document keywords";
          subcategory := None |}
  else {| category := "other"; confidence := Some 0.5%float;
          reasoning :=
            Some "Could not determine category from filename, defaulting to 'other'";
          subcategory := None |}.

(** The validation of a parsed suggestion:
    [if (!categoryMapping[suggestion.category]) { ... }], then
    [return suggestion].  A category that is not there is looked up under
    the key ["undefined"]. *)
Definition validate (suggestion : JsonObject) : CategorySuggestion :=
  let key := JS.string_of (json_category suggestion) in
  if negb (categoryMapping_has key)
  then {| category := "other";
          confidence :=
            Some (JS.Math_max 0.3
                    (JS.to_number (json_confidence suggestion) - 0.2))%float;
          reasoning :=
            Some (JS.string_of (json_reasoning suggestion)
                    +:+ " (Fallback to 'other' category)");
          subcategory := json_subcategory suggestion |}
  else {| category := key;
          confidence := json_confidence suggestion;
          reasoning := json_reasoning suggestion;
          subcategory := json_subcategory suggestion |}.

(** [categorizeDocument(fileName)]: [apiKey] is [GEMINI_API_KEY], [answer]
    what the endpoint gives when it is called. *)
Definition categorizeDocument (apiKey : option string) (answer : Answer)
    (fileName : string) : CategorySuggestion :=
  if negb (JS.truthy apiKey) then fallbackCategorization fileName
  else match answer with
       | Parsed suggestion => validate suggestion
       | FetchRejected | NotOk _ | BodyUnreadable | NoText | TextNotAString
       | NoJsonObject _ | JsonParseError _ => fallbackCategorization fileName
       end.

(** The answers on which the source throws inside its [try] block. *)
Definition failed (answer : Answer) : bool :=
  match answer with
  | Parsed _ => false
  | FetchRejected | NotOk _ | BodyUnreadable | NoText | TextNotAString
  | NoJsonObject _ | JsonParseError _ => true
  end.


(** [getFallbackSubcategory(fileName, category)] *)
Definition getFallbackSubcategory (fileName category : string) : string :=
  let lowerFileName := JS.toLowerCase fileName in
  let has := JS.includes lowerFileName in
  if String.eqb category "education" then
    if (has "certificate" || has "course")%bool then "Courses"
    else if has "transcript" then "Transcripts"
    else if has "degree" then "Degrees"
    else if (has "result" || has "semester")%bool then "Results"
    else if has "internship" then "Internships"
    else "Academic Documents"
  else if String.eqb category "financial" then
    if (has "bank" || has "statement")%bool then "Bank Statements"
    else if has "tax" then "Tax Documents"
    else if has "salary" then "Salary"
    else if has "investment" then "Investments"
    else if has "insurance" then "Insurance"
    else "Financial Documents"
  else if String.eqb category "identity" then
    if has "passport" then "Passport"
    else if has "license" then "Licenses"
    else if (has "aadhar" || has "national")%bool then "National ID"
    else if has "address" then "Address Proof"
    else "Identity Documents"
  else if String.eqb category "medical" then
    if has "prescription" then "Prescriptions"
    else if has "report" then "Medical Reports"
    else if has "vaccination" then "Vaccinations"
    else if has "insurance" then "Health Insurance"
    else "Medical Documents"
  else if String.eqb category "legal" then
    if has "contract" then "Contracts"
    else if has "property" then "Property"
    else if has "court" then "Court Documents"
    else "Legal Documents"
  else "Miscellaneous".

(** What the endpoint comes to for [getSubcategoryName]: [Text] carries
    [candidates[0].content.parts[0].text], [None] where the chain of
    optional accesses gives [undefined]. *)
Inductive TextAnswer : Type :=
| TextFetchRejected
| TextNotOk (status : Z)
| TextBodyUnreadable
| Text (text : option string).

(** [getSubcategoryName(fileName, category)] *)
Definition getSubcategoryName (apiKey : option string) (answer : TextAnswer)
    (fileName category : string) : string :=
  if negb (JS.truthy apiKey) then getFallbackSubcategory fileName category
  else match answer with
       | Text (Some raw) =>
           let text := JS.trim raw in
           if negb (JS.nonempty text)
           then getFallbackSubcategory fileName category
           else
             (* Clean up the response *)
             let subcategory := JS.trim (JS.remove_quotes text) in
             (* Validate length and format *)
             if (Nat.ltb 0 (String.length subcategory)
                 && Nat.leb (String.length subcategory) 30)%bool
             then subcategory
             else getFallbackSubcategory fileName category
       | Text None | TextFetchRejected | TextNotOk _ | TextBodyUnreadable =>
           getFallbackSubcategory fileName category
       end.

(** An element of [existingFolders]. *)
Record Folder : Type := { name : string; keywords : list string }.

Record FolderMatch : Type := { folderName : string; match_confidence : Q }.

Definition matchingKeywords (lowerFileName : string) (folder : Folder)
  : list string :=
  List.filter (fun keyword => JS.includes lowerFileName (JS.toLowerCase keyword))
    (keywords folder).

(** [matchingKeywords.length / folder.keywords.length] *)
Definition ratio (k n : nat) : Q :=
  (inject_Z (Z.of_nat k) / inject_Z (Z.of_nat n))%Q.

(** The loop of [findFallbackMatchingFolder]. *)
Fixpoint firstMatchingFolder (lowerFileName : string)
    (existingFolders : list Folder) : option FolderMatch :=
  match existingFolders with
  | [] => None
  | folder :: rest =>
      let matching := matchingKeywords lowerFileName folder in
      if Nat.ltb 0 (List.length matching)
      then Some {| folderName := name folder;
                   match_confidence :=
                     Qmin (8 # 10)
                       (ratio (List.length matching)
                          (List.length (keywords folder)) + (3 # 10)) |}
      else firstMatchingFolder lowerFileName rest
  end.

(** [findFallbackMatchingFolder(fileName, category, existingFolders)];
    the source does not read [category]. *)
Definition findFallbackMatchingFolder (fileName category : string)
    (existingFolders : list Folder) : option FolderMatch :=
  firstMatchingFolder (JS.toLowerCase fileName) existingFolders.

(** What the endpoint comes to for [findBestMatchingFolder]:
    [FolderJson] is a JSON object with its [folderName], [None] for
    [null] or a missing field, and its [confidence], a number. *)
Inductive FolderAnswer : Type :=
| FolderFetchRejected
| FolderNotOk (status : Z)
| FolderBodyUnreadable
| FolderNoText
| FolderNoJsonObject (text : string)
| FolderJsonParseError (text : string)
| FolderJson (folderName : option string) (confidence : Q).

(** [findBestMatchingFolder(fileName, category, existingFolders)] *)
Definition findBestMatchingFolder (apiKey : option string)
    (answer : FolderAnswer) (fileName category : string)
    (existingFolders : list Folder) : option FolderMatch :=
  if negb (JS.truthy apiKey)
  then findFallbackMatchingFolder fileName category existingFolders
  else match answer with
       | FolderJson folder c =>
           if (JS.truthy folder && Qle_bool (7 # 10) c)%bool
           then Some {| folderName := default EmptyString folder;
                        match_confidence := c |}
           else None
       | FolderNoJsonObject _ => None
       | FolderFetchRejected | FolderNotOk _ | FolderBodyUnreadable
       | FolderNoText | FolderJsonParseError _ =>
           findFallbackMatchingFolder fileName category existingFolders
       end.

(** An element of the [documents] of [bulkCategorizeDocuments]. *)
Record Doc : Type := {
  doc_name : string;
  doc_path : string;
  doc_category : string
}.

Record BulkResult : Type := {
  result_path : string;
  suggestedCategory : string;
  result_confidence : option float;
  result_reasoning : option string
}.

(** [bulkCategorizeDocuments(documents)]: every document comes with the
    answer the endpoint gives to its call.  [categorizeDocument] does not
    throw, so the [catch] of the loop is not entered. *)
Definition bulkCategorizeDocuments (apiKey : option string)
    (documents : list (Doc * Answer)) : list BulkResult :=
  map (fun '(doc, answer) =>
         let suggestion := categorizeDocument apiKey answer (doc_name doc) in
         {| result_path := doc_path doc;
            suggestedCategory := category suggestion;
            result_confidence := confidence suggestion;
            result_reasoning := reasoning suggestion |})
    documents.

(** A subcategory name as the callers expect it: between 1 and 30 code
    units, none of them a quote. *)
Definition well_formed_subcategory (s : string) : bool :=
  (Nat.ltb 0 (String.length s) && Nat.leb (String.length s) 30
   && JS.all_chars (fun c => negb (JS.is_quote c)) s)%bool.

End Gemini.

(** ** [components/UploadDialog.tsx] *)

Module UploadDialog.

(** The name [handleFileSelect] proposes for a chosen file. *)
Definition defaultName (file : Client.File) : string :=
  JS.strip_file_extension (Client.file_name file).

(** The category [handleUpload] passes on. *)
Definition uploadCategory (category : string) (isPrivate : bool) : string :=
  if isPrivate then "private" else category.

End UploadDialog.

(** ** The backends the application reaches *)

(** One operation of the application on the backend. *)
Inductive step : Backend -> Backend -> Prop :=
| step_upload now userId file name category isPrivate st up st' :
    Client.uploadDocument now userId file name category isPrivate st
    = Data (up, st') ->
    step st st'
| step_moveToTrash new_id now userId path st st' :
    Client.moveToTrash new_id now userId path st = Data st' ->
    step st st'
| step_restoreFromTrash userId documentId st st' :
    Client.restoreFromTrash userId documentId st = Data st' ->
    step st st'
| step_deletePermanent storageError userId documentId st st' :
    Client.deletePermanent storageError userId documentId st = Data st' ->
    step st st'
| step_purgeOldTrash now userId days st st' :
    Client.purgeOldTrash now userId days st = Data st' ->
    step st st'
| step_handleDelete confirmed new_id now storageError user id0 ui st :
    step st (Index.backend_of
               (Index.handleDelete confirmed new_id now storageError user id0
                  ui st))
| step_handleRestore user id0 ui st :
    step st (Index.backend_of (Index.handleRestore user id0 ui st))
| step_handleRename uploadError deleteError user document newName ui st :
    step st (Index.backend_of
               (Index.handleRename uploadError deleteError user document
                  newName ui st))
| step_handleShare shareToken new_id baseUrl now user document settings st :
    step st (snd (Index.handleShare shareToken new_id baseUrl now user
                    document settings st))
| step_loadSharedDocument viewer db_now now token p st :
    step st (snd (SharedDocument.loadSharedDocument viewer db_now now token p st))
| step_verifyPassword viewer password p st :
    step st (snd (fst (SharedDocument.verifyPassword viewer password p st))).

(** The application starts on a store without markers. *)
Inductive reachable : Backend -> Prop :=
| reachable_start objs shares :
    reachable {| objects := objs; deleted_documents := [];
                 document_shares := shares |}
| reachable_step st st' :
    reachable st -> step st st' -> reachable st'.

(** Every marker is as [moveToTrash] writes it. *)
Definition markers_written (st : Backend) : Prop :=
  forall m, In m (deleted_documents st) -> Client.written_by_moveToTrash m.

(** ** Concrete states used to exercise the model *)

Module Demo.

Definition alice : string := "3d6f7a10-8c2b-4e59-a1d7-5b90c4e2f681".

Definition resume : string := "1700000000000_education_Resume_2024.pdf".
Definition passport : string := "1700000000500_financial_Passport.pdf".

Definition store : list Storage.StoredObject :=
  [ {| Storage.key := alice +:+ "/private/" +:+ passport; Storage.bytes := 4096 |};
    {| Storage.key := alice +:+ "/" +:+ resume; Storage.bytes := 2048 |} ].

(** One regular and one private document, nothing trashed, nothing
    shared. *)
Definition backend : Backend :=
  {| objects := store; deleted_documents := []; document_shares := [] |}.

Definition resume_marker : Marker.t :=
  {| Marker.id := "6f1c0d1e-0000-4000-8000-000000000001";
     Marker.user_id := alice;
     Marker.document_path := resume;
     Marker.document_name := resume;
     Marker.deleted_at := 1700000100000 |}.

(** The same store with the regular document in the trash. *)
Definition trashed : Backend :=
  with_deleted [resume_marker] backend.

(** The entry of the trashed document in the component state. *)
Definition trashed_document : Index.Document :=
  Index.ofTrashItem (Client.trashItem alice resume_marker).

Definition private_object : Client.TaggedObject :=
  Client.tag true {| Storage.name := passport; Storage.metadata := Some 4096 |}.

Definition regular_object : Client.TaggedObject :=
  Client.tag false {| Storage.name := resume; Storage.metadata := Some 2048 |}.

Definition private_document : Index.Document :=
  Index.ofListed (Client.toListed alice private_object).

Definition regular_document : Index.Document :=
  Index.ofListed (Client.toListed alice regular_object).

(** The component state after [loadDocuments] on [backend]. *)
Definition ui : Index.UI :=
  {| Index.documents := [regular_document; private_document];
     Index.trashDocs := [];
     Index.selectedCategory := "all" |}.

Definition resume_file : Client.File :=
  {| Client.file_name := "Resume_2024.pdf"; Client.file_size := 2048 |}.

Definition empty : Backend :=
  {| objects := []; deleted_documents := []; document_shares := [] |}.

Definition settings (hours : Z) (pw : option string) : Index.ShareSettings :=
  {| Index.isPublic := true; Index.expiresIn := hours;
     Index.requiresPassword := match pw with Some _ => true | None => false end;
     Index.password := pw; Index.allowDownload := true |}.

Definition share (public : bool) (expires : option Z) (hash : option string)
  : Share.t :=
  {| Share.id := "9a3b0000-0000-4000-8000-000000000001";
     Share.user_id := alice;
     Share.document_path := resume;
     Share.share_token := "tok-1";
     Share.is_public := public;
     Share.expires_at := expires;
     Share.password_hash := hash;
     Share.allow_download := true;
     Share.access_count := 0 |}.

Definition shared (r : Share.t) : Backend := with_shares [r] backend.

End Demo.

(** ** [components/RenameDialog.tsx] *)

Module RenameDialog.

(** The content of the input when the dialog opens. *)
Definition nameWithoutExtension (document : Index.Document) : string :=
  JS.strip_file_extension (Index.name document).

(** The name [handleRename] of the dialog hands to [onRename], [None]
    where it returns at once. *)
Definition finalName (document : Index.Document) (newName : string)
  : option string :=
  if negb (JS.nonempty (JS.trim newName)) then None
  else
    (* Get the original file extension *)
    let extension := JS.pop (JS.split "." (Index.name document)) in
    Some (if JS.nonempty extension
          then JS.trim newName +:+ "." +:+ extension
          else JS.trim newName).

(** [handleRename] of the dialog, with [onRename] the handler of the
    page. *)
Definition handleRename (uploadError deleteError : option string)
    (user : option string) (document : Index.Document) (newName : string)
    (ui : Index.UI) (st : Backend) : Index.Outcome :=
  match finalName document newName with
  | None => Index.unchanged ui st
  | Some final =>
      Index.handleRename uploadError deleteError user document final ui st
  end.

End RenameDialog.


(** ** [components/BulkCategorizeDialog.tsx] *)

Module BulkCategorizeDialog.

(** An element of the [documents] the page hands to the dialog;
    [doc.path || ''] is the path or the empty string. *)
Definition ofDocument (doc : Index.Document) : Gemini.Doc :=
  {| Gemini.doc_name := Index.name doc;
     Gemini.doc_path := default EmptyString (Index.path doc);
     Gemini.doc_category := Index.category doc |}.

Record Suggestion : Type := {
  path : string;
  suggestedCategory : string;
  confidence : option float;
  reasoning : option string;
  currentCategory : string;
  name : string
}.

(** The function of the [map] in [analyzeAllDocuments]. *)
Definition withMetadata (documents : list Gemini.Doc)
    (result : Gemini.BulkResult) : Suggestion :=
  let doc :=
    List.find
      (fun d => String.eqb (Gemini.doc_path d) (Gemini.result_path result))
      documents in
  {| path := Gemini.result_path result;
     suggestedCategory := Gemini.suggestedCategory result;
     confidence := Gemini.result_confidence result;
     reasoning := Gemini.result_reasoning result;
     currentCategory :=
       match doc with
       | Some d =>
           if JS.nonempty (Gemini.doc_category d) then Gemini.doc_category d
           else "other"
       | None => "other"
       end;
     name :=
       match doc with
       | Some d =>
           if JS.nonempty (Gemini.doc_name d) then Gemini.doc_name d
           else "Unknown"
       | None => "Unknown"
       end |}.

(** The predicate of the [filter] in [analyzeAllDocuments]. *)
Definition shown (suggestion : Suggestion) : bool :=
  (negb (String.eqb (suggestedCategory suggestion) (currentCategory suggestion))
   && JS.ge (confidence suggestion) 0.5)%bool.

(** The suggestions [analyzeAllDocuments] sets; every document comes
    with the answer of the endpoint to its call. *)
Definition analyzeAllDocuments (apiKey : option string)
    (documents : list (Gemini.Doc * Gemini.Answer)) : list Suggestion :=
  List.filter shown
    (map (withMetadata (map fst documents))
       (Gemini.bulkCategorizeDocuments apiKey documents)).

(** The [updates] of [applySelectedSuggestions]. *)
Definition selectedUpdates (selectedSuggestions : gset string)
    (suggestions : list Suggestion) : list Index.CategoryUpdate :=
  map (fun s => {| Index.update_path := path s;
                   Index.update_category := suggestedCategory s |})
    (List.filter (fun s => bool_decide (path s ∈ selectedSuggestions))
       suggestions).

(** [applySelectedSuggestions()], with [onUpdateCategories] the handler
    of the page. *)
Definition applySelectedSuggestions (selectedSuggestions : gset string)
    (suggestions : list Suggestion) (ui : Index.UI) (st : Backend)
  : Index.Outcome :=
  match selectedUpdates selectedSuggestions suggestions with
  | [] => Index.unchanged ui st
  | (_ :: _) as updates => Index.handleBulkCategoryUpdate updates ui st
  end.

End BulkCategorizeDialog.

(** ** Vocabulary for the statements about sharing *)

Module Sharing.

(** The row [handleShare] hands to the insert. *)
Definition share_row (shareToken new_id : string) (now : Z) (userId : string)
    (document : Index.Document) (shareSettings : Index.ShareSettings) : Share.t :=
  {| Share.id := new_id;
     Share.user_id := userId;
     Share.document_path :=
       (if JS.truthy (Index.path document)
        then default EmptyString (Index.path document)
        else userId +:+ "/" +:+ Index.name document);
     Share.share_token := shareToken;
     Share.is_public := Index.isPublic shareSettings;
     Share.expires_at := Index.expiresAt now (Index.expiresIn shareSettings);
     Share.password_hash := Index.passwordHash shareSettings;
     Share.allow_download := Index.allowDownload shareSettings;
     Share.access_count := 0 |}.

(** Neither the token nor the row id is in use. *)
Definition fresh_share (shareToken new_id : string) (st : Backend) : Prop :=
  forall r, In r (document_shares st) ->
            Share.id r <> new_id /\ Share.share_token r <> shareToken.

End Sharing.

(** ** [atob] and the base64url helpers of [hooks/useWebAuthn.ts] *)

Module Base64.

(** The position of a character in the base64 alphabet. *)
Fixpoint index_in (c : ascii) (alphabet : string) (i : N) : option N :=
  match alphabet with
  | EmptyString => None
  | String x r => if Ascii.eqb x c then Some i else index_in c r (i + 1)%N
  end.

Definition index (c : ascii) : option N := index_in c JS.b64_alphabet 0%N.

Fixpoint indices (s : string) : option (list N) :=
  match s with
  | EmptyString => Some []
  | String c r =>
      match index c, indices r with
      | Some i, Some l => Some (i :: l)
      | _, _ => None
      end
  end.

Definition byte (n : N) : ascii := ascii_of_N (n mod 256)%N.

(** The bit buffer of the decoder: 24 bits give three bytes; at the end,
    12 bits give one byte and 18 bits give two, the last bits dropped. *)
Fixpoint decode (l : list N) : string :=
  match l with
  | a :: b :: c :: d :: r =>
      let n := (((a * 64 + b) * 64 + c) * 64 + d)%N in
      String (byte (n / 65536))
        (String (byte (n / 256)) (String (byte n) (decode r)))
  | [a; b; c] =>
      let n := (((a * 64 + b) * 64 + c) / 4)%N in
      String (byte (n / 256)) (String (byte n) EmptyString)
  | [a; b] =>
      let n := ((a * 64 + b) / 16)%N in
      String (byte n) EmptyString
  | _ => EmptyString
  end.

(** ASCII whitespace: TAB, LF, FF, CR, SPACE. *)
Definition is_ascii_whitespace (c : ascii) : bool :=
  let n := nat_of_ascii c in
  (Nat.eqb n 9 || Nat.eqb n 10 || Nat.eqb n 12 || Nat.eqb n 13
   || Nat.eqb n 32)%bool.

Fixpoint remove_whitespace (s : string) : string :=
  match s with
  | EmptyString => EmptyString
  | String c r =>
      if is_ascii_whitespace c then remove_whitespace r
      else String c (remove_whitespace r)
  end.

(** Whether [s] is one or two [=]. *)
Definition is_padding (s : string) : bool :=
  (String.eqb s "=" || String.eqb s "==")%bool.

(** Remove one or two [=] at the end. *)
Fixpoint strip_padding (s : string) : string :=
  match s with
  | EmptyString => EmptyString
  | String c r => if is_padding s then EmptyString else String c (strip_padding r)
  end.

(** [atob(data)], the forgiving base64 decoding of the platform; [None]
    where it throws. *)
Definition atob (data : string) : option string :=
  let d1 := remove_whitespace data in
  let d2 := if Nat.eqb (String.length d1 mod 4) 0 then strip_padding d1 else d1 in
  if Nat.eqb (String.length d2 mod 4) 1 then None
  else option_map decode (indices d2).

End Base64.

Module WebAuthn.

(** [s.replace(/=+$/, '')] *)
Fixpoint strip_trailing_equals (s : string) : string :=
  match s with
  | EmptyString => EmptyString
  | String c r =>
      if (Ascii.eqb c "=" && JS.all_chars (fun x => Ascii.eqb x "=") r)%bool
      then EmptyString
      else String c (strip_trailing_equals r)
  end.

Definition replace_char (from to : ascii) : string -> string :=
  JS.map_chars (fun c => if Ascii.eqb c from then to else c).

(** ['='.repeat(n)] *)
Fixpoint repeat_equals (n : nat) : string :=
  match n with
  | O => EmptyString
  | S k => String "=" (repeat_equals k)
  end.

(** [toBase64Url(buf)]; the bytes of the buffer are the code units of
    [buf]. *)
Definition toBase64Url (buf : string) : string :=
  strip_trailing_equals
    (replace_char "/" "_" (replace_char "+" "-" (JS.btoa buf))).

(** [fromBase64Url(base64)]; [None] where [atob] throws. *)
Definition fromBase64Url (base64 : string) : option string :=
  let pad := repeat_equals ((4 - String.length base64 mod 4) mod 4) in
  let b64 := replace_char "_" "/" (replace_char "-" "+" (base64 +:+ pad)) in
  Base64.atob b64.

End WebAuthn.

(** Vocabulary for the statements about [btoa]: the 6-bit values it
    writes, their rendering in the alphabet, and the padding. *)
Module Base64Spec.

Fixpoint sextets (s : string) : list N :=
  match s with
  | EmptyString => []
  | String a EmptyString =>
      let x := N_of_ascii a in
      [x / 4; (x mod 4) * 16]%N
  | String a (String b EmptyString) =>
      let x := N_of_ascii a in
      let y := N_of_ascii b in
      [x / 4; (x mod 4) * 16 + y / 16; (y mod 16) * 4]%N
  | String a (String b (String c r)) =>
      let x := N_of_ascii a in
      let y := N_of_ascii b in
      let z := N_of_ascii c in
      ([x / 4; (x mod 4) * 16 + y / 16; (y mod 16) * 4 + z / 64; z mod 64]
         ++ sextets r)%N
  end.

Fixpoint padding (s : string) : string :=
  match s with
  | EmptyString => EmptyString
  | String _ EmptyString => "=="
  | String _ (String _ EmptyString) => "="
  | String _ (String _ (String _ r)) => padding r
  end.

Fixpoint render (l : list N) : string :=
  match l with
  | [] => EmptyString
  | n :: r => String (JS.b64 n) (render r)
  end.

(** The characters of the base64url form: [+] and [/] replaced. *)
Definition url_char (c : ascii) : ascii :=
  let c1 := if Ascii.eqb c "+" then "-"%char else c in
  if Ascii.eqb c1 "/" then "_"%char else c1.

Definition std_char (c : ascii) : ascii :=
  let c1 := if Ascii.eqb c "-" then "+"%char else c in
  if Ascii.eqb c1 "_" then "/"%char else c1.

End Base64Spec.

(** Linear arithmetic with division and remainder by constants. *)
Ltac div_lia := zify; Z.to_euclidean_division_equations; lia.

(** * Properties *)

#[local] Arguments String.append !s1 s2 : simpl nomatch.
#[local] Set Warnings "-inexact-float".

(** ** Strings *)

Example split_ex :
  JS.split "_" "17_education_Resume_2024.pdf"
  = ["17"; "education"; "Resume"; "2024.pdf"]
  /\ JS.split "_" "" = [""]
  /\ JS.split "_" "a_" = ["a"; ""].
Proof. vm_compute. auto. Qed.

Example btoa_ex :
  JS.btoa "secret" = "c2VjcmV0" /\ JS.btoa "ab" = "YWI=" /\ JS.btoa "a" = "YQ==".
Proof. vm_compute. auto. Qed.

Example toLowerCase_ex :
  JS.toLowerCase "Bank_STATEMENT.Pdf" = "bank_statement.pdf".
Proof. vm_compute. reflexivity. Qed.

Example strip_word_extension_ex :
  JS.strip_word_extension "a.b.c_d" = "a.b"
  /\ JS.strip_word_extension "a.b-c" = "a.b-c"
  /\ JS.strip_word_extension "a." = "a.".
Proof. vm_compute. auto. Qed.

Example includes_ex :
  JS.includes "abcde" "cd" = true
  /\ JS.includes "abcde" "ce" = false
  /\ JS.includes "" "" = true.
Proof. vm_compute. auto. Qed.

Lemma append_assoc (a b c : string) : (a +:+ b) +:+ c = a +:+ (b +:+ c).
Proof. induction a as [|x a IH]; simpl; [reflexivity | now rewrite IH]. Qed.

Lemma all_chars_app (p : ascii -> bool) (a b : string) :
  JS.all_chars p (a +:+ b) = (JS.all_chars p a && JS.all_chars p b)%bool.
Proof.
  induction a as [|x a IH]; simpl; [reflexivity|].
  now rewrite IH, andb_assoc.
Qed.

Lemma all_chars_impl (p q : ascii -> bool) (s : string) :
  (forall c, p c = true -> q c = true) ->
  JS.all_chars p s = true -> JS.all_chars q s = true.
Proof.
  intros Hpq. induction s as [|x s IH]; simpl; [reflexivity|].
  intros [Hx Hs]%andb_true_iff. rewrite (Hpq _ Hx). now apply IH.
Qed.

Lemma all_chars_map (p : ascii -> bool) (f : ascii -> ascii) (s : string) :
  (forall c, p (f c) = true) -> JS.all_chars p (JS.map_chars f s) = true.
Proof.
  intros Hf. induction s as [|x s IH]; simpl; [reflexivity|].
  now rewrite Hf, IH.
Qed.

Lemma map_chars_map_chars (f g : ascii -> ascii) (s : string) :
  JS.map_chars f (JS.map_chars g s) = JS.map_chars (fun c => f (g c)) s.
Proof. induction s as [|x s IH]; simpl; [reflexivity | now rewrite IH]. Qed.

Lemma map_chars_ext (f g : ascii -> ascii) (s : string) :
  (forall c, f c = g c) -> JS.map_chars f s = JS.map_chars g s.
Proof.
  intros E. induction s as [|x s IH]; simpl; [reflexivity | now rewrite E, IH].
Qed.

(** [split] never returns the empty array. *)
Lemma split_nonempty (sep : ascii) (s : string) : JS.split sep s <> [].
Proof.
  destruct s as [|c r]; simpl; [discriminate|].
  destruct (Ascii.eqb c sep); [discriminate|].
  destruct (JS.split sep r); discriminate.
Qed.

(** A string without the separator is the first segment of whatever
    follows it. *)
Lemma split_app_sep (sep : ascii) (a b : string) :
  JS.lacks sep a = true ->
  JS.split sep (a +:+ String sep b) = a :: JS.split sep b.
Proof.
  unfold JS.lacks. induction a as [|x a IH]; simpl.
  - intros _. now rewrite Ascii.eqb_refl.
  - intros [Hx Ha]%andb_true_iff. apply negb_true_iff in Hx.
    rewrite Hx, (IH Ha). reflexivity.
Qed.

Lemma split_lacks (sep : ascii) (a : string) :
  JS.lacks sep a = true -> JS.split sep a = [a].
Proof.
  unfold JS.lacks. induction a as [|x a IH]; simpl; [reflexivity|].
  intros [Hx Ha]%andb_true_iff. apply negb_true_iff in Hx.
  now rewrite Hx, (IH Ha).
Qed.

(** Every segment of a [split] is free of the separator. *)
Lemma split_segments_lack (sep : ascii) (s x : string) :
  In x (JS.split sep s) -> JS.lacks sep x = true.
Proof.
  unfold JS.lacks. revert x. induction s as [|c r IH]; simpl; intros x Hx.
  - destruct Hx as [<-|[]]. reflexivity.
  - destruct (Ascii.eqb c sep) eqn:E.
    + destruct Hx as [<-|Hx]; [reflexivity | now apply IH].
    + destruct (JS.split sep r) as [|h t] eqn:Er.
      * destruct Hx as [<-|[]]. simpl. now rewrite E.
      * destruct Hx as [<-|Hx].
        -- simpl. rewrite E. simpl. apply IH. now left.
        -- apply IH. now right.
Qed.

(** [parts.join(sep)] undoes [s.split(sep)]. *)
Lemma join_split (sep : ascii) (s : string) :
  JS.join (String sep EmptyString) (JS.split sep s) = s.
Proof.
  induction s as [|c r IH]; simpl; [reflexivity|].
  destruct (Ascii.eqb c sep) eqn:E.
  - apply Ascii.eqb_eq in E. subst c.
    pose proof (split_nonempty sep r) as Hne.
    destruct (JS.split sep r) as [|h t]; [contradiction|].
    simpl. f_equal. exact IH.
  - pose proof (split_nonempty sep r) as Hne.
    destruct (JS.split sep r) as [|h t]; [contradiction|].
    destruct t as [|h' t']; simpl in *; now rewrite <- IH.
Qed.

(** A single segment means that the string had no separator. *)
Lemma split_singleton (sep : ascii) (s f : string) :
  JS.split sep s = [f] -> s = f /\ JS.lacks sep f = true.
Proof.
  intros E. split.
  - rewrite <- (join_split sep s), E. reflexivity.
  - apply (split_segments_lack sep s). rewrite E. now left.
Qed.

Lemma includes_sep_lacks (sep : ascii) (s : string) :
  JS.lacks sep s = true -> JS.includes s (String sep EmptyString) = false.
Proof.
  unfold JS.lacks. induction s as [|c r IH]; simpl; [reflexivity|].
  intros [Hc Hr]%andb_true_iff. apply negb_true_iff in Hc.
  rewrite (IH Hr), orb_false_r.
  destruct (ascii_dec sep c) as [->|Hne].
  - now rewrite Ascii.eqb_refl in Hc.
  - reflexivity.
Qed.

(** The regular expression [\.C+$] removes the extension of [a.e] when [a]
    has no dot and [e] is a non-empty run of [C]. *)
Lemma strip_dot_suffix_app (cls : ascii -> bool) (a e : string) :
  JS.lacks "." a = true -> JS.nonempty e = true -> JS.all_chars cls e = true ->
  JS.strip_dot_suffix cls (a +:+ String "." e) = a.
Proof.
  unfold JS.lacks. intros Ha He Hc. induction a as [|x a IH]; simpl.
  - now rewrite He, Hc.
  - simpl in Ha. apply andb_true_iff in Ha as [Hx Ha].
    apply negb_true_iff in Hx. rewrite Hx. simpl. now rewrite (IH Ha).
Qed.

Lemma digit_not_underscore (c : ascii) :
  JS.is_digit c = true -> Ascii.eqb c "_" = false.
Proof.
  intros H. destruct (Ascii.eqb c "_") eqn:E; [|reflexivity].
  apply Ascii.eqb_eq in E. subst c. discriminate H.
Qed.

Lemma alnum_not_underscore (c : ascii) :
  JS.is_alnum c = true -> Ascii.eqb c "_" = false.
Proof.
  intros H. destruct (Ascii.eqb c "_") eqn:E; [|reflexivity].
  apply Ascii.eqb_eq in E. subst c. discriminate H.
Qed.

Lemma alnum_not_dot (c : ascii) :
  JS.is_alnum c = true -> Ascii.eqb c "." = false.
Proof.
  intros H. destruct (Ascii.eqb c ".") eqn:E; [|reflexivity].
  apply Ascii.eqb_eq in E. subst c. discriminate H.
Qed.

(** The decimal rendering of a number consists of digits. *)
Lemma string_of_uint_digits (d : Decimal.uint) :
  JS.all_chars JS.is_digit (NilEmpty.string_of_uint d) = true.
Proof. induction d; simpl; auto. Qed.

Lemma of_N_lacks_underscore (n : N) : JS.lacks "_" (JS.of_N n) = true.
Proof.
  unfold JS.lacks, JS.of_N.
  apply (all_chars_impl JS.is_digit); [|apply string_of_uint_digits].
  intros c Hc. now rewrite digit_not_underscore.
Qed.

Lemma sanitize_lacks_dot (s : string) : JS.lacks "." (JS.sanitize s) = true.
Proof.
  unfold JS.lacks, JS.sanitize. apply all_chars_map. intros c.
  destruct (JS.is_alnum c) eqn:E; [|reflexivity].
  now rewrite alnum_not_dot.
Qed.

(** What is left of a name once it has been sanitised for the path and
    its underscores have been turned into spaces for display. *)
Lemma underscores_to_spaces_sanitize (s : string) :
  JS.underscores_to_spaces (JS.sanitize s)
  = JS.map_chars (fun c => if JS.is_alnum c then c else " "%char) s.
Proof.
  unfold JS.underscores_to_spaces, JS.sanitize.
  rewrite map_chars_map_chars. apply map_chars_ext. intros c.
  destruct (JS.is_alnum c) eqn:E; [|reflexivity].
  now rewrite alnum_not_underscore.
Qed.


Lemma lacks_app (c : ascii) (a b : string) :
  JS.lacks c (a +:+ b) = (JS.lacks c a && JS.lacks c b)%bool.
Proof. apply all_chars_app. Qed.

Lemma prefix_app (sub a b : string) :
  String.prefix sub a = true -> String.prefix sub (a +:+ b) = true.
Proof.
  revert a. induction sub as [|c sub IH]; intros a.
  - intros _. destruct (a +:+ b); reflexivity.
  - destruct a as [|x a]; [discriminate|]. simpl.
    destruct (ascii_dec c x); [apply IH | discriminate].
Qed.

Lemma includes_cons (x : ascii) (a sub : string) :
  JS.includes (String x a) sub
  = (String.prefix sub (String x a) || JS.includes a sub)%bool.
Proof. reflexivity. Qed.

Lemma includes_app_l (a b sub : string) :
  JS.includes a sub = true -> JS.includes (a +:+ b) sub = true.
Proof.
  induction a as [|x a IH].
  - simpl. rewrite orb_false_r. intros H. destruct sub; [|discriminate].
    destruct b; reflexivity.
  - change (String x a +:+ b) with (String x (a +:+ b)).
    rewrite !includes_cons. intros [H|H]%orb_true_iff.
    + change (String x (a +:+ b)) with (String x a +:+ b).
      now rewrite (prefix_app _ _ b H).
    + rewrite (IH H). apply orb_true_r.
Qed.

Lemma includes_app_r (a b sub : string) :
  JS.includes b sub = true -> JS.includes (a +:+ b) sub = true.
Proof.
  intros H. induction a as [|x a IH]; [exact H|].
  change (String x a +:+ b) with (String x (a +:+ b)).
  rewrite includes_cons, IH. apply orb_true_r.
Qed.

Lemma includes_false_lacks (sep : ascii) (s : string) :
  JS.includes s (String sep EmptyString) = false -> JS.lacks sep s = true.
Proof.
  unfold JS.lacks. induction s as [|c r IH]; simpl; [reflexivity|].
  intros [Hp Hr]%orb_false_iff.
  rewrite (IH Hr), andb_true_r.
  destruct (ascii_dec sep c) as [->|Hne].
  - destruct r; discriminate Hp.
  - apply negb_true_iff, Ascii.eqb_neq. congruence.
Qed.

Lemma last_In {A : Type} (l : list A) (d : A) : l <> [] -> In (List.last l d) l.
Proof.
  induction l as [|x l IH]; [contradiction|]. intros _.
  destruct l as [|y l]; [now left|].
  right. apply IH. discriminate.
Qed.

(** The last segment of a path that ends in [/b], for [b] without slash. *)
Lemma pop_split_app (sep : ascii) (a b : string) :
  JS.lacks sep b = true ->
  JS.pop (JS.split sep (a +:+ String sep b)) = b.
Proof.
  intros Hb. unfold JS.pop. induction a as [|c a IH].
  - simpl. rewrite Ascii.eqb_refl, (split_lacks sep b Hb). reflexivity.
  - change (String c a +:+ String sep b) with (String c (a +:+ String sep b)).
    cbn [JS.split]. destruct (Ascii.eqb c sep).
    + pose proof (split_nonempty sep (a +:+ String sep b)) as Hne.
      destruct (JS.split sep (a +:+ String sep b)) as [|h t]; [contradiction|].
      exact IH.
    + destruct (JS.split sep (a +:+ String sep b)) as [|h t] eqn:Es.
      * now destruct (split_nonempty sep (a +:+ String sep b)).
      * destruct t as [|h' t'].
        -- apply split_singleton in Es as [Heq Hl]. exfalso.
           rewrite <- Heq, lacks_app in Hl.
           apply andb_true_iff in Hl as [_ Hl].
           unfold JS.lacks in Hl. simpl in Hl.
           now rewrite Ascii.eqb_refl in Hl.
        -- exact IH.
Qed.

(** ** The object store *)

Lemma firstn_incl {A : Type} (n : nat) (l : list A) (x : A) :
  In x (firstn n l) -> In x l.
Proof.
  revert l. induction n as [|n IH]; intros [|y l]; simpl; try tauto.
  intros [->|H]; [now left | right; now apply IH].
Qed.

Lemma strip_prefix_app (p s rest : string) :
  Storage.strip_prefix p s = Some rest -> s = p +:+ rest.
Proof.
  revert s. induction p as [|a p IH]; simpl; intros s H.
  - now inversion H.
  - destruct s as [|b s]; [discriminate|].
    destruct (Ascii.eqb a b) eqn:E; [|discriminate].
    apply Ascii.eqb_eq in E. subst b. now rewrite (IH _ H).
Qed.

Lemma strip_prefix_complete (p rest : string) :
  Storage.strip_prefix p (p +:+ rest) = Some rest.
Proof.
  induction p as [|a p IH]; simpl; [reflexivity|].
  now rewrite Ascii.eqb_refl.
Qed.

Lemma In_entries (dir : string) (objs : list Storage.StoredObject)
    (f : Storage.FileObject) :
  In f (Storage.entries dir objs) <->
  exists o, In o objs /\ Storage.entry_of dir o = Some f.
Proof.
  induction objs as [|o r IH]; simpl.
  - split; [intros [] | intros (o & [] & _)].
  - destruct (Storage.entry_of dir o) as [e|] eqn:E.
    + simpl. rewrite IH. split.
      * intros [<-|(o' & Ho' & Ef)]; [exists o; auto | exists o'; auto].
      * intros (o' & [<-|Ho'] & Ef).
        -- left. congruence.
        -- right. exists o'. auto.
    + rewrite IH. split.
      * intros (o' & Ho' & Ef). exists o'. auto.
      * intros (o' & [<-|Ho'] & Ef); [congruence|]. exists o'. auto.
Qed.

(** A listed file is an object of the store that lies directly in the
    listed folder; its name has no slash. *)
Lemma entry_of_file (dir : string) (o : Storage.StoredObject)
    (f : Storage.FileObject) (n : Z) :
  Storage.entry_of dir o = Some f -> Storage.metadata f = Some n ->
  Storage.key o = dir +:+ "/" +:+ Storage.name f
  /\ Storage.bytes o = n
  /\ JS.lacks "/" (Storage.name f) = true.
Proof.
  unfold Storage.entry_of. intros H Hm.
  destruct (Storage.strip_prefix (dir +:+ "/") (Storage.key o)) as [rest|] eqn:Ep;
    [|discriminate].
  apply strip_prefix_app in Ep.
  destruct (JS.split "/" rest) as [|x [|y t]] eqn:Es; [discriminate| |].
  - inversion H; subst f; clear H. simpl in *. inversion Hm; subst n.
    apply split_singleton in Es as [-> Hl].
    rewrite Ep, append_assoc. auto.
  - inversion H; subst f. discriminate Hm.
Qed.

Lemma listed_file (dir : string) (limit : nat)
    (objs : list Storage.StoredObject) (f : Storage.FileObject) (n : Z) :
  In f (Client.data_or_empty (Storage.list_ dir limit objs)) ->
  Storage.metadata f = Some n ->
  exists o, In o objs
            /\ Storage.key o = dir +:+ "/" +:+ Storage.name f
            /\ Storage.bytes o = n
            /\ JS.lacks "/" (Storage.name f) = true.
Proof.
  simpl. intros Hin Hm.
  apply firstn_incl, nodup_In, In_entries in Hin as (o & Ho & Ef).
  exists o. split; [exact Ho|]. now apply entry_of_file.
Qed.

Lemma has_false_iff (path : string) (objs : list Storage.StoredObject) :
  Storage.has path objs = false <->
  forall o, In o objs -> Storage.key o <> path.
Proof.
  unfold Storage.has. rewrite <- not_true_iff_false, existsb_exists. split.
  - intros H o Ho K. apply H. exists o. split; [exact Ho|].
    now apply String.eqb_eq.
  - intros H (o & Ho & K). apply String.eqb_eq in K. now apply (H o Ho).
Qed.

(** The entry that the object at [{dir}/{name}] contributes to the
    listing of [dir], when [name] has no slash. *)
Lemma entry_of_child (dir name : string) (size : Z) :
  JS.lacks "/" name = true ->
  Storage.entry_of dir {| Storage.key := dir +:+ "/" +:+ name;
                          Storage.bytes := size |}
  = Some {| Storage.name := name; Storage.metadata := Some size |}.
Proof.
  intros Hl. unfold Storage.entry_of. cbn [Storage.key Storage.bytes].
  replace (dir +:+ "/" +:+ name) with ((dir +:+ "/") +:+ name)
    by apply append_assoc.
  rewrite strip_prefix_complete.
  now rewrite (split_lacks "/" name Hl).
Qed.

(** ** The listing of the active documents *)

Lemma In_allData (regularData privateData : list Storage.FileObject)
    (o : Client.TaggedObject) :
  In o (Client.allData regularData privateData) <->
  (Client.isPrivate o = false /\ In (Client.obj o) regularData)
  \/ (Client.isPrivate o = true /\ In (Client.obj o) privateData).
Proof.
  unfold Client.allData. rewrite in_app_iff, !in_map_iff.
  destruct o as [f p]; simpl. split.
  - intros [(x & E & Hx)|(x & E & Hx)]; inversion E; subst; auto.
  - intros [[-> Hf]|[-> Hf]]; [left|right]; exists f; auto.
Qed.

Lemma marked_iff (userId name : string) (st : Backend) :
  Client.marked userId name st <->
  In name (map Marker.document_name
             (List.filter (Db.owned userId) (deleted_documents st))).
Proof.
  unfold Client.marked. rewrite in_map_iff. split.
  - intros (m & Hm & Hu & Hn). exists m. split; [exact Hn|].
    apply filter_In. split; [exact Hm|].
    unfold Db.owned. now apply String.eqb_eq.
  - intros (m & Hn & [Hm Hu]%filter_In). exists m.
    unfold Db.owned in Hu. apply String.eqb_eq in Hu. auto.
Qed.

(** The filter keeps an object exactly when it passes the three checks on
    the object and no marker of the user names it. *)
Lemma keep_iff (userId : string) (st : Backend) (o : Client.TaggedObject) :
  Client.keep
    (list_to_set (map Marker.document_name
                    (List.filter (Db.owned userId) (deleted_documents st)))) o
  = true
  <-> Client.present o = true /\ ~ Client.marked userId (Client.obj_name o) st.
Proof.
  unfold Client.keep, Client.present. rewrite marked_iff.
  rewrite (andb_true_iff _ (negb _)), negb_true_iff, bool_decide_eq_false.
  rewrite elem_of_list_to_set, list_elem_of_In. reflexivity.
Qed.

Lemma listUserDocuments_data (userId : string) (st : Backend) :
  Client.listUserDocuments userId st
  = Data (map (Client.toListed userId)
            (List.filter
               (Client.keep
                  (list_to_set
                     (map Marker.document_name
                        (List.filter (Db.owned userId) (deleted_documents st)))))
               (Client.listed_objects userId st))).
Proof. reflexivity. Qed.

Lemma In_listUserDocuments (userId : string) (st : Backend)
    (docs : list Listed.t) (d : Listed.t) :
  Client.listUserDocuments userId st = Data docs ->
  (In d docs <->
   exists o, In o (Client.listed_objects userId st)
             /\ Client.present o = true
             /\ ~ Client.marked userId (Client.obj_name o) st
             /\ d = Client.toListed userId o).
Proof.
  rewrite listUserDocuments_data. intros E. inversion E; subst docs; clear E.
  rewrite in_map_iff. split.
  - intros (o & <- & [Ho Hk]%filter_In).
    apply keep_iff in Hk as [Hp Hm]. exists o. auto.
  - intros (o & Ho & Hp & Hm & ->). exists o. split; [reflexivity|].
    apply filter_In. split; [exact Ho|]. apply keep_iff. auto.
Qed.

(** The statements below are about answered queries.  When the marker
    query fails, the source logs the error and goes on without markers:
    every object that passes the checks on the object is listed. *)
Lemma listUserDocuments_on_marker_error (userId e : string)
    (regularData privateData : list Storage.FileObject) :
  Client.listUserDocuments_on userId (Data regularData) (Data privateData)
    (Failure e)
  = Data (map (Client.toListed userId)
            (List.filter Client.present
               (Client.allData regularData privateData))).
Proof.
  unfold Client.listUserDocuments_on. f_equal. f_equal.
  apply filter_ext. intros o. unfold Client.keep, Client.present.
  simpl. rewrite bool_decide_eq_false_2 by set_solver.
  now rewrite andb_true_r.
Qed.

(** A listed object with a size is an object of the store, at the key the
    source calls [fullPath]. *)
Lemma listed_object_stored (userId : string) (st : Backend)
    (o : Client.TaggedObject) :
  In o (Client.listed_objects userId st) -> (0 <? Client.obj_size o) = true ->
  JS.lacks "/" (Client.obj_name o) = true
  /\ exists so, In so (objects st)
                /\ Storage.key so = Client.fullPath userId o
                /\ Storage.bytes so = Client.obj_size o.
Proof.
  unfold Client.listed_objects. intros Hin Hs.
  unfold Client.obj_size in *. unfold Client.fullPath, Client.obj_name.
  destruct (Storage.metadata (Client.obj o)) as [n|] eqn:Em; [|discriminate].
  apply In_allData in Hin as [[Hp Hf]|[Hp Hf]]; rewrite Hp;
    destruct (listed_file _ _ _ _ _ Hf Em) as (so & Hso & Hk & Hb & Hl);
    (split; [exact Hl|]); exists so; (split; [exact Hso|]); split; auto.
  rewrite Hk. now rewrite append_assoc.
Qed.

(** ** Trash *)

Lemma insert_desc_perm (m : Marker.t) (rows : list Marker.t) :
  Permutation (Db.insert_desc m rows) (m :: rows).
Proof.
  induction rows as [|x r IH]; simpl; [reflexivity|].
  destruct (Marker.deleted_at x <? Marker.deleted_at m); [reflexivity|].
  rewrite IH. apply perm_swap.
Qed.

Lemma order_desc_perm (rows : list Marker.t) :
  Permutation (Db.order_desc rows) rows.
Proof.
  induction rows as [|x r IH]; simpl; [reflexivity|].
  rewrite insert_desc_perm. now constructor.
Qed.

Lemma listUserTrash_data (userId : string) (st : Backend) :
  Client.listUserTrash userId st
  = Data (map (Client.trashItem userId)
            (Db.order_desc
               (List.filter (Db.owned userId) (deleted_documents st)))).
Proof. reflexivity. Qed.

(** Every entry of the trash listing has size zero. *)
Lemma listUserTrash_sizes (userId : string) (st : Backend)
    (trash : list TrashItem.t) (t : TrashItem.t) :
  Client.listUserTrash userId st = Data trash -> In t trash ->
  TrashItem.size t = 0.
Proof.
  rewrite listUserTrash_data. intros E. inversion E; subst trash; clear E.
  intros (m & <- & _)%in_map_iff. reflexivity.
Qed.

Lemma mem_In (p : string) (paths : list string) :
  Storage.mem p paths = true <-> In p paths.
Proof.
  unfold Storage.mem. rewrite existsb_exists. split.
  - intros (x & Hx & E). apply String.eqb_eq in E. now subst.
  - intros H. exists p. split; [exact H | apply String.eqb_refl].
Qed.

Lemma In_remove (paths : list string) (objs : list Storage.StoredObject)
    (so : Storage.StoredObject) :
  In so (Storage.remove paths objs) <->
  In so objs /\ ~ In (Storage.key so) paths.
Proof.
  unfold Storage.remove. rewrite filter_In, negb_true_iff.
  rewrite <- mem_In, not_true_iff_false. reflexivity.
Qed.

(** The paths [purgeOldTrash] hands to the store, for any trash listing. *)
Lemma In_toDelete (now days : Z) (trash : list TrashItem.t) (p : string) :
  In p (Client.toDelete now days trash) <->
  exists t, In t trash /\ TrashItem.path t = p
            /\ 0 < TrashItem.size t
            /\ TrashItem.deletedAt t < now - days * 24 * 60 * 60 * 1000.
Proof.
  unfold Client.toDelete. rewrite in_map_iff. split.
  - intros (t & Hp & [Ht Hc]%filter_In).
    apply andb_true_iff in Hc as [Hs Hd].
    exists t. repeat split; auto; lia.
  - intros (t & Ht & Hp & Hs & Hd). exists t. split; [exact Hp|].
    apply filter_In. split; [exact Ht|].
    apply andb_true_iff. split; lia.
Qed.

(** C8: [purgeOldTrash] removes from the store exactly the objects whose
    key is the path of a trash entry with a non-zero size and a deletion
    time before the threshold; since [listUserTrash] gives every entry the
    size zero, no entry qualifies and the purge leaves the store as it
    was. *)
Theorem C8_purge_skips_unsized_markers :
  forall (now : Z) (userId : string) (days : Z) (st : Backend),
    exists (trash : list TrashItem.t) (st' : Backend),
      Client.listUserTrash userId st = Data trash
      /\ Client.purgeOldTrash now userId days st = Data st'
      /\ (forall so, In so (objects st') <->
            In so (objects st)
            /\ ~ exists t, In t trash
                           /\ TrashItem.path t = Storage.key so
                           /\ 0 < TrashItem.size t
                           /\ TrashItem.deletedAt t
                              < now - days * 24 * 60 * 60 * 1000)
      /\ (forall t, In t trash -> TrashItem.size t = 0)
      /\ Client.toDelete now days trash = []
      /\ st' = st.
Proof.
  intros now userId days st.
  destruct (Client.listUserTrash userId st) as [trash|e] eqn:El;
    [|rewrite listUserTrash_data in El; discriminate].
  assert (Hz : forall t, In t trash -> TrashItem.size t = 0).
  { intros t. now apply (listUserTrash_sizes userId st). }
  assert (Hnone : Client.toDelete now days trash = []).
  { destruct (Client.toDelete now days trash) as [|p r] eqn:E; [reflexivity|].
    assert (Hp : In p (Client.toDelete now days trash)) by (rewrite E; now left).
    apply In_toDelete in Hp as (t & Ht & _ & Hs & _).
    rewrite (Hz t Ht) in Hs. lia. }
  exists trash, st. unfold Client.purgeOldTrash. rewrite El, Hnone.
  repeat split; auto.
  - intros (t & Ht & _ & Hs & _). rewrite (Hz t Ht) in Hs. lia.
  - tauto.
Qed.

(** A text that is the printed form of a [uuid] reads as itself. *)
Lemma is_uuid_in (s : string) : Db.is_uuid s = true -> Db.uuid_in s = Some s.
Proof.
  unfold Db.is_uuid. destruct (Db.uuid_in s) as [u|]; [|discriminate].
  intros E. apply String.eqb_eq in E. now subst u.
Qed.

Lemma restoreFromTrash_data (userId documentId u : string) (st : Backend) :
  Db.uuid_in documentId = Some u ->
  Client.restoreFromTrash userId documentId st
  = Data (with_deleted
            (List.filter (fun m => negb (Db.is_row u userId m))
               (deleted_documents st)) st).
Proof.
  intros E. unfold Client.restoreFromTrash, Db.delete_deleted. now rewrite E.
Qed.

Lemma restoreFromTrash_inv (userId documentId : string) (st st' : Backend) :
  Client.restoreFromTrash userId documentId st = Data st' ->
  exists u,
    Db.uuid_in documentId = Some u
    /\ st' = with_deleted
               (List.filter (fun m => negb (Db.is_row u userId m))
                  (deleted_documents st)) st.
Proof.
  unfold Client.restoreFromTrash, Db.delete_deleted.
  destruct (Db.uuid_in documentId) as [u|]; [|discriminate].
  intros H. inversion H. eauto.
Qed.


(** ** Markers of reachable backends *)

Lemma moveToTrash_appends (new_id : string) (now : Z) (userId path : string)
    (st st' : Backend) :
  Client.moveToTrash new_id now userId path st = Data st' ->
  exists m,
    st' = with_deleted (deleted_documents st ++ [m]) st
    /\ Marker.id m = new_id
    /\ Marker.user_id m = userId
    /\ Marker.document_path m = path
    /\ Client.written_by_moveToTrash m
    /\ (forall x, In x (deleted_documents st) -> Marker.id x <> new_id).
Proof.
  unfold Client.moveToTrash, Db.insert_deleted. cbn [Marker.id].
  destruct (Db.is_uuid new_id) eqn:Eu; [|discriminate]. cbn [negb].
  destruct (existsb _ (deleted_documents st)) eqn:E; [discriminate|].
  intros H. inversion H; subst st'; clear H.
  eexists. repeat split; [exact Eu|].
  intros x Hx Hid.
  assert (Hc : existsb
                 (Db.conflicts
                    {| Marker.id := new_id; Marker.user_id := userId;
                       Marker.document_path := path;
                       Marker.document_name := Client.filename_of path;
                       Marker.deleted_at := now |})
                 (deleted_documents st) = true).
  { apply existsb_exists. exists x. split; [exact Hx|].
    unfold Db.conflicts. simpl. rewrite Hid, String.eqb_refl. reflexivity. }
  congruence.
Qed.

Lemma deletePermanent_deleted (storageError : option string)
    (userId documentId : string) (st st' : Backend) :
  Client.deletePermanent storageError userId documentId st = Data st' ->
  exists u,
    Db.uuid_in documentId = Some u
    /\ deleted_documents st'
       = List.filter (fun m => negb (Db.is_row u userId m))
           (deleted_documents st).
Proof.
  unfold Client.deletePermanent, Db.select_deleted_single, Db.delete_deleted.
  destruct (Db.uuid_in documentId) as [u|]; [|discriminate].
  destruct (List.filter (Db.is_row u userId) (deleted_documents st))
    as [|m [|m' l]]; try discriminate.
  destruct storageError; intros H; inversion H; eauto.
Qed.

Lemma purgeOldTrash_deleted (now : Z) (userId : string) (days : Z)
    (st st' : Backend) :
  Client.purgeOldTrash now userId days st = Data st' ->
  deleted_documents st' = deleted_documents st.
Proof.
  unfold Client.purgeOldTrash.
  destruct (Client.listUserTrash userId st); [|discriminate].
  destruct (Client.toDelete now days data); intros H; now inversion H.
Qed.

Lemma loadDocument_deleted (viewer : option string) (r : Share.t)
    (p : SharedDocument.Page) (st : Backend) :
  deleted_documents (snd (SharedDocument.loadDocument viewer r p st))
  = deleted_documents st.
Proof.
  unfold SharedDocument.loadDocument, Db.update_access_count.
  destruct (Storage.createSignedUrl _ _);
    [destruct (negb _); reflexivity|].
  destruct (SharedDocument.firstSignedUrl _ _); [|reflexivity].
  destruct (negb _); reflexivity.
Qed.

Lemma resolve_deleted (viewer : option string) (now : Z) (r : Share.t)
    (p : SharedDocument.Page) (st : Backend) :
  deleted_documents (snd (SharedDocument.resolve viewer now r p st))
  = deleted_documents st.
Proof.
  unfold SharedDocument.resolve.
  destruct (negb (Share.is_public r)); [reflexivity|].
  destruct (SharedDocument.hasExpired now r); [reflexivity|].
  destruct (JS.truthy (Share.password_hash r)); [reflexivity|].
  apply loadDocument_deleted.
Qed.

(** Which client call, if any, [handleDelete] made on the backend. *)
Lemma handleDelete_backend (confirmed : bool) (new_id : string) (now : Z)
    (storageError : option string) (user : option string) (id0 : string)
    (ui : Index.UI) (st : Backend) :
  let st' := Index.backend_of
               (Index.handleDelete confirmed new_id now storageError user id0
                  ui st) in
  st' = st
  \/ (exists userId documentId,
        Client.deletePermanent storageError userId documentId st = Data st')
  \/ (exists userId path,
        Client.moveToTrash new_id now userId path st = Data st').
Proof.
  unfold Index.handleDelete.
  destruct user as [userId|]; [|now left].
  destruct (match Index.find_doc id0 (Index.documents ui) with
            | Some d => Some d
            | None => Index.find_doc id0 (Index.trashDocs ui)
            end) as [found|]; [|now left].
  destruct (String.eqb (Index.category found) "private").
  - destruct confirmed; simpl; [|now left].
    destruct (Client.deletePermanent storageError userId id0 st) eqn:E; simpl;
      [|now left].
    right. left. eauto.
  - destruct (String.eqb (Index.selectedCategory ui) "trash").
    + destruct confirmed; simpl; [|now left].
      destruct (Index.find_doc id0 (Index.trashDocs ui)) as [t|]; [|now left].
      destruct (Client.deletePermanent storageError userId (Index.id t) st)
        eqn:E; simpl;
        [|now left].
      destruct (Index.loadDocuments userId ui data); simpl; right; left; eauto.
    + destruct (Index.find_doc id0 (Index.documents ui)) as [d|]; [|now left].
      destruct (Index.path d) as [p|]; [|now left].
      destruct (Client.moveToTrash new_id now userId p st) eqn:E; simpl;
        [|now left].
      destruct (Index.loadDocuments userId ui data); simpl; right; right; eauto.
Qed.

Lemma loadSharedDocument_deleted (viewer : option string) (db_now now : Z)
    (token : string) (p : SharedDocument.Page) (st : Backend) :
  deleted_documents
    (snd (SharedDocument.loadSharedDocument viewer db_now now token p st))
  = deleted_documents st.
Proof.
  unfold SharedDocument.loadSharedDocument, SharedDocument.loadSharedDocument_on.
  destruct (Db.select_share_single viewer db_now token st) as [r|].
  - destruct (SharedDocument.resolve viewer now r _ st) as [p1 st1] eqn:E.
    simpl. replace st1 with (snd (SharedDocument.resolve viewer now r
                                   (SharedDocument.setLoading true p) st))
      by now rewrite E.
    apply resolve_deleted.
  - destruct (Db.select_shares viewer db_now token st) as [[|r l]|]; simpl;
      try reflexivity.
    destruct (SharedDocument.resolve viewer now r _ st) as [p1 st1] eqn:E.
    simpl. replace st1 with (snd (SharedDocument.resolve viewer now r
                                   (SharedDocument.setLoading true p) st))
      by now rewrite E.
    apply resolve_deleted.
Qed.

Lemma verifyPassword_deleted (viewer : option string) (password : string)
    (p : SharedDocument.Page) (st : Backend) :
  deleted_documents
    (snd (fst (SharedDocument.verifyPassword viewer password p st)))
  = deleted_documents st.
Proof.
  unfold SharedDocument.verifyPassword.
  destruct (SharedDocument.shareData p) as [r|]; [|reflexivity].
  destruct (negb (JS.nonempty password)); [reflexivity|].
  destruct (Share.password_hash r) as [h|]; [|reflexivity].
  destruct (String.eqb (JS.btoa password) h); [|reflexivity].
  destruct (SharedDocument.loadDocument viewer r _ st) as [p1 st1] eqn:E.
  simpl. replace st1 with (snd (SharedDocument.loadDocument viewer r
                                 (SharedDocument.setPasswordRequired false p) st))
    by now rewrite E.
  apply loadDocument_deleted.
Qed.

Lemma handleRename_deleted (uploadError deleteError : option string)
    (user : option string) (document : Index.Document) (newName : string)
    (ui : Index.UI) (st : Backend) :
  deleted_documents
    (Index.backend_of
       (Index.handleRename uploadError deleteError user document newName ui st))
  = deleted_documents st.
Proof.
  unfold Index.handleRename.
  destruct user; [|reflexivity].
  destruct (Storage.download _ _); [|reflexivity].
  destruct uploadError; reflexivity.
Qed.

(** Which client call, if any, [handleRestore] made on the backend. *)
Lemma handleRestore_backend (user : option string) (id0 : string)
    (ui : Index.UI) (st : Backend) :
  let st' := Index.backend_of (Index.handleRestore user id0 ui st) in
  st' = st
  \/ exists userId documentId,
       Client.restoreFromTrash userId documentId st = Data st'.
Proof.
  unfold Index.handleRestore.
  destruct user as [userId|]; [|now left].
  destruct (Index.find_doc id0 (Index.trashDocs ui)) as [doc|]; [|now left].
  destruct (Client.restoreFromTrash userId (Index.id doc) st) eqn:E;
    [|now left].
  destruct (Index.loadDocuments userId _ data); simpl; right; eauto.
Qed.

Lemma step_markers_written (st st' : Backend) :
  step st st' -> markers_written st -> markers_written st'.
Proof.
  unfold markers_written.
  assert (Hfilter : forall f st1,
             (forall m, In m (deleted_documents st) ->
                        Client.written_by_moveToTrash m) ->
             deleted_documents st1 = List.filter f (deleted_documents st) ->
             forall m, In m (deleted_documents st1) ->
                       Client.written_by_moveToTrash m).
  { intros f st1 Hw E m Hm. rewrite E in Hm.
    apply filter_In in Hm as [Hm _]. now apply Hw. }
  assert (Htrash : forall new_id now userId path st1,
             (forall m, In m (deleted_documents st) ->
                        Client.written_by_moveToTrash m) ->
             Client.moveToTrash new_id now userId path st = Data st1 ->
             forall m, In m (deleted_documents st1) ->
                       Client.written_by_moveToTrash m).
  { intros new_id now userId path st1 Hw E m Hm.
    apply moveToTrash_appends in E as (x & -> & _ & _ & _ & Hx & _).
    simpl in Hm. apply in_app_iff in Hm as [Hm|[<-|[]]]; auto. }
  assert (Hrestore : forall userId documentId st1,
             (forall m, In m (deleted_documents st) ->
                        Client.written_by_moveToTrash m) ->
             Client.restoreFromTrash userId documentId st = Data st1 ->
             forall m, In m (deleted_documents st1) ->
                       Client.written_by_moveToTrash m).
  { intros userId documentId st1 Hw E.
    apply restoreFromTrash_inv in E as (u & _ & ->).
    eapply Hfilter; [exact Hw | reflexivity]. }
  assert (Hdelete : forall storageError userId documentId st1,
             (forall m, In m (deleted_documents st) ->
                        Client.written_by_moveToTrash m) ->
             Client.deletePermanent storageError userId documentId st = Data st1 ->
             forall m, In m (deleted_documents st1) ->
                       Client.written_by_moveToTrash m).
  { intros storageError userId documentId st1 Hw E.
    apply deletePermanent_deleted in E as (u & _ & E).
    eapply Hfilter; [exact Hw | exact E]. }
  intros Hs Hw. inversion Hs; subst; clear Hs.
  - unfold Client.uploadDocument in H.
    destruct (Storage.upload _ _ _); [|discriminate].
    inversion H; subst. exact Hw.
  - eapply Htrash; eauto.
  - eapply Hrestore; eauto.
  - eapply Hdelete; eauto.
  - apply purgeOldTrash_deleted in H. now rewrite H.
  - destruct (handleDelete_backend confirmed new_id now storageError user id0
                ui st) as [->|[(u & d & E)|(u & p & E)]].
    + exact Hw.
    + eapply Hdelete; eauto.
    + eapply Htrash; eauto.
  - destruct (handleRestore_backend user id0 ui st) as [->|(u & d & E)].
    + exact Hw.
    + eapply Hrestore; eauto.
  - rewrite handleRename_deleted. exact Hw.
  - unfold Index.handleShare.
    destruct user; [|exact Hw].
    destruct (String.eqb (Index.category document) "private"); [exact Hw|].
    unfold Db.insert_share.
    destruct (existsb _ (document_shares st)); exact Hw.
  - rewrite loadSharedDocument_deleted. exact Hw.
  - rewrite verifyPassword_deleted. exact Hw.
Qed.

(** Every marker of a reachable backend was written by [moveToTrash]: its
    [document_name] is the filename of its [document_path]. *)
Lemma reachable_markers_written (st : Backend) :
  reachable st -> markers_written st.
Proof.
  induction 1 as [objs shares | st st' _ IH Hs].
  - intros m [].
  - now apply (step_markers_written st st').
Qed.

Lemma filename_of_full_path (dir name : string) :
  JS.lacks "/" name = true ->
  Client.filename_of (dir +:+ "/" +:+ name) = name.
Proof.
  intros Hl. unfold Client.filename_of.
  replace (JS.includes (dir +:+ "/" +:+ name) "/") with true.
  - change ("/" +:+ name) with (String "/" name). now apply pop_split_app.
  - symmetry. apply includes_app_r.
    change ("/" +:+ name) with (String "/" name).
    rewrite includes_cons. destruct name; reflexivity.
Qed.

(** ** Markers and the two listings *)

Lemma filename_of_bare (name : string) :
  JS.lacks "/" name = true -> Client.filename_of name = name.
Proof.
  intros Hl. unfold Client.filename_of.
  now rewrite (includes_sep_lacks "/" name Hl).
Qed.

Lemma length_nodup_le {A : Type} (dec : forall x y : A, {x = y} + {x <> y})
    (l : list A) :
  (length (nodup dec l) <= length l)%nat.
Proof.
  induction l as [|x l IH]; simpl; [lia|].
  destruct (in_dec dec x l); simpl; lia.
Qed.

(** An object that lies directly in a folder of at most 100 entries is
    in the listing of the folder. *)
Lemma stored_file_listed (dir name : string) (size : Z)
    (objs : list Storage.StoredObject) :
  In {| Storage.key := dir +:+ "/" +:+ name; Storage.bytes := size |} objs ->
  JS.lacks "/" name = true ->
  (length (Storage.entries dir objs) <= 100)%nat ->
  In {| Storage.name := name; Storage.metadata := Some size |}
    (Client.data_or_empty (Storage.list_ dir 100 objs)).
Proof.
  intros Hin Hl Hlen. unfold Storage.list_, Client.data_or_empty.
  rewrite firstn_all2.
  - apply nodup_In, In_entries. eexists. split; [exact Hin|].
    now apply entry_of_child.
  - pose proof (length_nodup_le Storage.FileObject_eq_dec
                  (Storage.entries dir objs)). lia.
Qed.

(** C1: on every backend the application reaches, let a marker of the
    user stand for the document called [name]: its path is [name], as
    the page passes it, or ends in [/name], as the upload returns it.
    Then the active listing has no entry for [name], and the trash
    listing, which has one entry per marker row of the user, has the
    entry of this row.  [restoreFromTrash] on the id of the row succeeds,
    removes the row and leaves the object store untouched; after it the
    object stored at [{userId}/{name}] is in the active listing again,
    with its name and size, when it is an object the listing shows at all
    (a name with a dot and without [_trash_], a size, a folder within the
    limit of 100 entries) and no other marker of the user names it. *)
Theorem C1_marker_decides_active_or_trashed :
  forall (userId name : string) (st : Backend) (m : Marker.t),
    reachable st ->
    In m (deleted_documents st) ->
    Marker.user_id m = userId ->
    JS.lacks "/" name = true ->
    (Marker.document_path m = name
     \/ exists dir, Marker.document_path m = dir +:+ "/" +:+ name) ->
    (exists docs,
        Client.listUserDocuments userId st = Data docs
        /\ forall d, In d docs -> Listed.path d <> name)
    /\ (exists trash,
          Client.listUserTrash userId st = Data trash
          /\ (exists t, In t trash
                        /\ TrashItem.id t = Marker.id m
                        /\ TrashItem.path t = Marker.document_path m)
          /\ Permutation (map TrashItem.id trash)
               (map Marker.id
                  (List.filter (Db.owned userId) (deleted_documents st))))
    /\ (exists st',
          Client.restoreFromTrash userId (Marker.id m) st = Data st'
          /\ objects st' = objects st
          /\ ~ In m (deleted_documents st')
          /\ forall size,
               In {| Storage.key := userId +:+ "/" +:+ name;
                     Storage.bytes := size |} (objects st) ->
               JS.includes name "." = true ->
               0 < size ->
               JS.includes name "_trash_" = false ->
               (length (Storage.entries userId (objects st)) <= 100)%nat ->
               (forall m', In m' (deleted_documents st) ->
                           Marker.user_id m' = userId ->
                           Marker.document_name m' = name -> m' = m) ->
               exists docs',
                 Client.listUserDocuments userId st' = Data docs'
                 /\ exists d, In d docs'
                              /\ Listed.path d = name
                              /\ Listed.size d = size).
Proof.
  intros userId name st m Hr Hm Hu Hl Hp.
  destruct (reachable_markers_written st Hr m Hm) as [Hw Hid].
  assert (Hn : Marker.document_name m = name).
  { rewrite Hw. destruct Hp as [->|[dir ->]].
    - now apply filename_of_bare.
    - now apply filename_of_full_path. }
  split; [|split].
  - eexists. split; [apply listUserDocuments_data|].
    intros d Hd E.
    apply (In_listUserDocuments _ _ _ _ (listUserDocuments_data userId st)) in Hd
      as (o & _ & _ & Hnm & ->).
    apply Hnm. exists m. simpl in E. rewrite E. auto.
  - eexists. split; [apply listUserTrash_data|]. split.
    + exists (Client.trashItem userId m). split; [|split; reflexivity].
      apply in_map. rewrite order_desc_perm.
      apply filter_In. split; [exact Hm|].
      unfold Db.owned. now apply String.eqb_eq.
    + rewrite map_map. simpl. apply Permutation_map, order_desc_perm.
  - eexists. split; [apply restoreFromTrash_data, is_uuid_in, Hid|].
    split; [reflexivity|].
    assert (Hgone : ~ In m (List.filter
                              (fun x => negb (Db.is_row (Marker.id m) userId x))
                              (deleted_documents st))).
    { intros [_ Hf]%filter_In. apply negb_true_iff in Hf.
      unfold Db.is_row, Db.owned in Hf.
      now rewrite String.eqb_refl, Hu, String.eqb_refl in Hf. }
    split; [exact Hgone|].
    intros size Hin Hdot Hsize Htrash Hlen Honly.
    eexists. split; [apply listUserDocuments_data|].
    set (o := Client.tag false
                {| Storage.name := name; Storage.metadata := Some size |}).
    exists (Client.toListed userId o). split; [|split; reflexivity].
    apply in_map, filter_In. split.
    + unfold Client.listed_objects. apply In_allData. left.
      split; [reflexivity|].
      cbn [objects with_deleted].
      now apply stored_file_listed.
    + apply keep_iff. split.
      * unfold Client.present, o, Client.obj_name, Client.obj_size. simpl.
        rewrite Hdot, Htrash. simpl. rewrite andb_true_r. lia.
      * intros (m' & Hm' & Hu' & Hn'). cbn [deleted_documents with_deleted] in Hm'.
        assert (m' = m); [|subst m'; now apply Hgone].
        apply Honly; [|exact Hu' | exact Hn'].
        now apply filter_In in Hm'.
Qed.

Lemma C1_witness :
  (exists docs,
      Client.listUserDocuments Demo.alice Demo.trashed = Data docs
      /\ forall d, In d docs -> Listed.path d <> Demo.resume)
  /\ (exists trash,
        Client.listUserTrash Demo.alice Demo.trashed = Data trash
        /\ (exists t, In t trash
                      /\ TrashItem.id t = Marker.id Demo.resume_marker
                      /\ TrashItem.path t = Demo.resume)
        /\ Permutation (map TrashItem.id trash)
             (map Marker.id
                (List.filter (Db.owned Demo.alice) [Demo.resume_marker])))
  /\ (exists st',
        Client.restoreFromTrash Demo.alice (Marker.id Demo.resume_marker)
          Demo.trashed = Data st'
        /\ objects st' = Demo.store
        /\ ~ In Demo.resume_marker (deleted_documents st')
        /\ exists docs',
             Client.listUserDocuments Demo.alice st' = Data docs'
             /\ exists d, In d docs'
                          /\ Listed.path d = Demo.resume
                          /\ Listed.size d = 2048).
Proof.
  destruct (C1_marker_decides_active_or_trashed Demo.alice Demo.resume
              Demo.trashed Demo.resume_marker)
    as (Hactive & Htrash & st' & Hrestore & Hobjects & Hgone & Hlisted).
  - apply (reachable_step Demo.backend).
    + apply reachable_start.
    + apply (step_moveToTrash (Marker.id Demo.resume_marker) 1700000100000
               Demo.alice Demo.resume).
      vm_compute. reflexivity.
  - simpl. auto.
  - reflexivity.
  - vm_compute. reflexivity.
  - left. reflexivity.
  - split; [exact Hactive|]. split; [exact Htrash|].
    exists st'. split; [exact Hrestore|]. split; [exact Hobjects|].
    split; [exact Hgone|].
    apply (Hlisted 2048).
    + simpl. right. left. reflexivity.
    + vm_compute. reflexivity.
    + lia.
    + vm_compute. reflexivity.
    + vm_compute. lia.
    + intros m' [<-|[]] _ _. reflexivity.
Defined.

(** Trashing a document and restoring the marker just written gives the
    backend back as it was, and with it the listing. *)
Lemma trash_then_restore (new_id : string) (now : Z) (userId path : string)
    (st st1 : Backend) :
  Client.moveToTrash new_id now userId path st = Data st1 ->
  Client.restoreFromTrash userId new_id st1 = Data st.
Proof.
  intros E. apply moveToTrash_appends in E as (m & -> & Hi & Hu & _ & Hw & Hf).
  destruct Hw as [_ Hw]. rewrite Hi in Hw.
  rewrite (restoreFromTrash_data _ _ new_id) by now apply is_uuid_in.
  f_equal. simpl.
  rewrite List.filter_app. simpl.
  unfold Db.is_row at 2, Db.owned. rewrite Hi, Hu, !String.eqb_refl. simpl.
  rewrite app_nil_r.
  replace (List.filter (fun m0 => negb (Db.is_row new_id userId m0))
             (deleted_documents st)) with (deleted_documents st).
  - now destruct st.
  - symmetry. apply forallb_filter_id. apply forallb_forall. intros x Hx.
    unfold Db.is_row. apply Hf in Hx. apply String.eqb_neq in Hx.
    now rewrite Hx.
Qed.

(** The scenario of the specification on the demonstration store: the
    regular document is deleted, then restored. *)
Example delete_then_restore :
  let out :=
    Index.handleDelete true (Marker.id Demo.resume_marker) 1700000100000
      None (Some Demo.alice) Demo.resume Demo.ui Demo.backend in
  Index.backend_of out = Demo.trashed
  /\ Client.listUserDocuments Demo.alice Demo.trashed
     = Data [Client.toListed Demo.alice Demo.private_object]
  /\ option_map (map TrashItem.path)
       (match Client.listUserTrash Demo.alice Demo.trashed with
        | Data t => Some t
        | Failure _ => None
        end) = Some [Demo.resume]
  /\ Client.restoreFromTrash Demo.alice (Marker.id Demo.resume_marker)
       Demo.trashed = Data Demo.backend
  /\ Client.listUserDocuments Demo.alice Demo.backend
     = Data [Client.toListed Demo.alice Demo.regular_object;
             Client.toListed Demo.alice Demo.private_object].
Proof. vm_compute. repeat split; reflexivity. Qed.

(** The page itself restores through [handleRestore], which passes the id
    it gave the trash entry, ["trash-"] followed by the display name, and
    not the id of the marker row: the text is no [uuid], the query fails
    and the marker stays. *)
Example handleRestore_passes_entry_id :
  let ui := {| Index.documents := [Demo.private_document];
               Index.trashDocs := [Demo.trashed_document];
               Index.selectedCategory := "trash" |} in
  let out := Index.handleRestore (Some Demo.alice) "trash-Resume 2024" ui
               Demo.trashed in
  Index.loadDocuments Demo.alice ui Demo.trashed = Data ui
  /\ Index.id Demo.trashed_document = "trash-Resume 2024"
  /\ Db.uuid_in "trash-Resume 2024" = None
  /\ Index.toast_of out = Some "Restore failed"
  /\ Index.backend_of out = Demo.trashed
  /\ Index.ui_of out = ui.
Proof. vm_compute. repeat split; reflexivity. Qed.

(** ** What the listing reports: path and category *)


Lemma fullPath_not_bare (userId : string) (o : Client.TaggedObject) :
  JS.lacks "/" (Client.obj_name o) = true ->
  Client.fullPath userId o <> Client.obj_name o.
Proof.
  intros Hl E. rewrite <- E in Hl. unfold Client.fullPath in Hl.
  destruct (Client.isPrivate o); rewrite lacks_app in Hl;
    apply andb_true_iff in Hl as [_ Hl]; discriminate Hl.
Qed.

(** C10: every entry of [listUserDocuments] carries as [path] the bare
    name of a listed object: it has no slash, the object itself is stored
    under [{userId}/] or, for a private document, [{userId}/private/]
    followed by that name, and so the entry's [path] is never the key of
    the object it stands for.  That bare name is what the page keeps as
    the id and the path of the document, and so what [moveToTrash] and
    [handleShare] receive. *)
Theorem C10_listed_path_is_bare_filename :
  forall (userId : string) (st : Backend) (docs : list Listed.t) (d : Listed.t),
    Client.listUserDocuments userId st = Data docs ->
    In d docs ->
    exists (o : Client.TaggedObject) (so : Storage.StoredObject),
      In o (Client.listed_objects userId st)
      /\ d = Client.toListed userId o
      /\ Listed.path d = Client.obj_name o
      /\ JS.lacks "/" (Listed.path d) = true
      /\ In so (objects st)
      /\ Storage.key so
         = (if Client.isPrivate o
            then userId +:+ "/private/" +:+ Listed.path d
            else userId +:+ "/" +:+ Listed.path d)
      /\ Storage.key so <> Listed.path d
      /\ Index.id (Index.ofListed d) = Listed.path d
      /\ Index.path (Index.ofListed d) = Some (Listed.path d).
Proof.
  intros userId st docs d Hl Hd.
  apply (In_listUserDocuments _ _ _ _ Hl) in Hd as (o & Ho & Hp & _ & ->).
  assert (Hs : (0 <? Client.obj_size o) = true).
  { unfold Client.present in Hp.
    apply andb_true_iff in Hp as [Hp _]. now apply andb_true_iff in Hp as [_ Hp]. }
  destruct (listed_object_stored _ _ _ Ho Hs) as (Hlack & so & Hso & Hk & _).
  exists o, so. simpl. repeat split; auto.
  rewrite Hk. now apply fullPath_not_bare.
Qed.

Lemma C10_witness :
  exists (o : Client.TaggedObject) (so : Storage.StoredObject),
    In o (Client.listed_objects Demo.alice Demo.backend)
    /\ Client.toListed Demo.alice Demo.private_object = Client.toListed Demo.alice o
    /\ Demo.passport = Client.obj_name o
    /\ JS.lacks "/" Demo.passport = true
    /\ In so Demo.store
    /\ Storage.key so
       = (if Client.isPrivate o
          then Demo.alice +:+ "/private/" +:+ Demo.passport
          else Demo.alice +:+ "/" +:+ Demo.passport)
    /\ Storage.key so <> Demo.passport
    /\ Index.id (Index.ofListed (Client.toListed Demo.alice Demo.private_object))
       = Demo.passport
    /\ Index.path (Index.ofListed (Client.toListed Demo.alice Demo.private_object))
       = Some Demo.passport.
Proof.
  apply (C10_listed_path_is_bare_filename Demo.alice Demo.backend
           [Client.toListed Demo.alice Demo.regular_object;
            Client.toListed Demo.alice Demo.private_object]
           (Client.toListed Demo.alice Demo.private_object)).
  - vm_compute. reflexivity.
  - simpl. auto.
Defined.

(** C2: an object of the private listing that passes the filter is
    reported with category "private", whatever its filename encodes, and
    [handleShare] on a document of category "private" throws before it
    writes anything: the backend it leaves is the backend it found, and
    for a signed-in user the error is the refusal to share private
    documents. *)
Theorem C2_private_category_and_share_refused :
  forall (userId : string) (st : Backend) (docs : list Listed.t)
         (o : Client.TaggedObject)
         (shareToken new_id baseUrl : string) (now : Z) (user : option string)
         (document : Index.Document) (shareSettings : Index.ShareSettings)
         (st0 : Backend),
    Client.listUserDocuments userId st = Data docs ->
    In o (Client.listed_objects userId st) ->
    Client.isPrivate o = true ->
    Client.present o = true ->
    ~ Client.marked userId (Client.obj_name o) st ->
    Index.category document = "private" ->
    (In (Client.toListed userId o) docs
     /\ Listed.category (Client.toListed userId o) = "private"
     /\ forall d, In d docs ->
          (exists o', In o' (Client.listed_objects userId st)
                      /\ Client.isPrivate o' = true
                      /\ d = Client.toListed userId o') ->
          Listed.category d = "private")
    /\ (exists message,
          Index.handleShare shareToken new_id baseUrl now user document
            shareSettings st0 = (Failure message, st0))
    /\ (forall u, user = Some u ->
          Index.handleShare shareToken new_id baseUrl now user document
            shareSettings st0
          = (Failure "Private documents cannot be shared", st0)).
Proof.
  intros userId st docs o shareToken new_id baseUrl now user document
    shareSettings st0 Hl Ho Hp Hpres Hm Hc.
  split; [|split].
  - split; [|split].
    + apply (In_listUserDocuments _ _ _ _ Hl). exists o. auto.
    + unfold Client.toListed. simpl. now rewrite Hp.
    + intros d _ (o' & _ & Hp' & ->). simpl. now rewrite Hp'.
  - unfold Index.handleShare. destruct user as [u|]; [|eauto].
    rewrite Hc. simpl. eauto.
  - intros u ->. unfold Index.handleShare. rewrite Hc. reflexivity.
Qed.

Lemma C2_witness :
  (In (Client.toListed Demo.alice Demo.private_object)
      [Client.toListed Demo.alice Demo.regular_object;
       Client.toListed Demo.alice Demo.private_object]
   /\ Listed.category (Client.toListed Demo.alice Demo.private_object) = "private"
   /\ forall d,
        In d [Client.toListed Demo.alice Demo.regular_object;
              Client.toListed Demo.alice Demo.private_object] ->
        (exists o', In o' (Client.listed_objects Demo.alice Demo.backend)
                    /\ Client.isPrivate o' = true
                    /\ d = Client.toListed Demo.alice o') ->
        Listed.category d = "private")
  /\ (exists message,
        Index.handleShare "tok-1" "row-1" "https://digi-locker.vercel.app"
          1700000200000 (Some Demo.alice) Demo.private_document
          (Demo.settings 24 None) Demo.backend = (Failure message, Demo.backend))
  /\ (forall u, Some Demo.alice = Some u ->
        Index.handleShare "tok-1" "row-1" "https://digi-locker.vercel.app"
          1700000200000 (Some Demo.alice) Demo.private_document
          (Demo.settings 24 None) Demo.backend
        = (Failure "Private documents cannot be shared", Demo.backend)).
Proof.
  apply (C2_private_category_and_share_refused Demo.alice Demo.backend
           [Client.toListed Demo.alice Demo.regular_object;
            Client.toListed Demo.alice Demo.private_object]
           Demo.private_object).
  - vm_compute. reflexivity.
  - vm_compute. auto.
  - reflexivity.
  - vm_compute. reflexivity.
  - intros (m & [] & _).
  - reflexivity.
Defined.

(** A share of a listed document stores the bare filename as
    [document_path]; resolution finds no object at that key and reaches
    the document through the variant [{user_id}/{filename}]. *)
Example shared_listed_path_resolves_by_fallback :
  let r := Demo.share true None None in
  Share.document_path r = Listed.path (Client.toListed Demo.alice Demo.regular_object)
  /\ Storage.createSignedUrl (Share.document_path r) Demo.store
     = Failure "Object not found"
  /\ SharedDocument.documentUrl
       (fst (SharedDocument.loadSharedDocument None 2000 2000 "tok-1"
               SharedDocument.initial (Demo.shared r)))
     = "/storage/v1/object/sign/documents/3d6f7a10-8c2b-4e59-a1d7-5b90c4e2f681/1700000000000_education_Resume_2024.pdf".
Proof. vm_compute. repeat split; reflexivity. Qed.

(** ** The path encoding *)

Lemma objectName_includes_dot (now : N) (file : Client.File)
    (name category : string) :
  JS.includes (Client.objectName now file name category) "." = true.
Proof.
  unfold Client.objectName.
  do 5 apply includes_app_r. simpl.
  destruct (Client.fileExt file); reflexivity.
Qed.

Lemma objectName_lacks_slash (now : N) (file : Client.File)
    (name category : string) :
  JS.lacks "/" category = true ->
  JS.lacks "/" (Client.fileExt file) = true ->
  JS.lacks "/" (Client.objectName now file name category) = true.
Proof.
  intros Hc He. unfold Client.objectName.
  rewrite !lacks_app, Hc, He.
  replace (JS.lacks "/" (JS.of_N now)) with true.
  - replace (JS.lacks "/" (JS.sanitize name)) with true; [reflexivity|].
    symmetry. unfold JS.lacks, JS.sanitize. apply all_chars_map. intros c.
    destruct (JS.is_alnum c) eqn:E; [|reflexivity].
    destruct (Ascii.eqb c "/") eqn:K; [|reflexivity].
    apply Ascii.eqb_eq in K. subst c. discriminate E.
  - symmetry. unfold JS.lacks, JS.of_N.
    apply (all_chars_impl JS.is_digit); [|apply string_of_uint_digits].
    intros c Hd. destruct (Ascii.eqb c "/") eqn:K; [|reflexivity].
    apply Ascii.eqb_eq in K. subst c. discriminate Hd.
Qed.

Lemma list_after_upload (dir name : string) (size : Z)
    (objs : list Storage.StoredObject) :
  JS.lacks "/" name = true ->
  Storage.has (dir +:+ "/" +:+ name) objs = false ->
  exists rest,
    Client.data_or_empty
      (Storage.list_ dir 100
         ({| Storage.key := dir +:+ "/" +:+ name; Storage.bytes := size |} :: objs))
    = {| Storage.name := name; Storage.metadata := Some size |} :: rest.
Proof.
  intros Hl Hh. unfold Storage.list_, Client.data_or_empty.
  cbn [Storage.entries]. rewrite (entry_of_child dir name size Hl).
  cbn [nodup]. destruct (in_dec Storage.FileObject_eq_dec _ _) as [Hin|Hn].
  - exfalso. apply In_entries in Hin as (o & Ho & Ef).
    apply (entry_of_file dir o _ size) in Ef as (Hk & _ & _); [|reflexivity].
    simpl in Hk. apply (proj1 (has_false_iff _ _) Hh o Ho Hk).
  - eexists. reflexivity.
Qed.

(** What a successful [uploadDocument] did: nothing was stored at the
    path, and the object is now the newest of the store. *)
Lemma uploadDocument_inv (now : N) (userId : string) (file : Client.File)
    (name category : string) (isPrivate : bool) (st st' : Backend)
    (up : Client.Uploaded) :
  Client.uploadDocument now userId file name category isPrivate st
  = Data (up, st') ->
  let p := Client.filePath userId now file name category isPrivate in
  Storage.has p (objects st) = false
  /\ up = {| Client.publicUrl := Storage.getPublicUrl p; Client.path := p |}
  /\ st' = with_objects
             ({| Storage.key := p; Storage.bytes := Client.file_size file |}
                :: objects st) st.
Proof.
  intros E p. unfold Client.uploadDocument in E. cbv zeta in E. fold p in E.
  unfold Storage.upload in E.
  destruct (Storage.has p (objects st)); [discriminate|].
  inversion E. auto.
Qed.

(** The listing after an upload: the new object is listed, and first
    when it is not private. *)
Lemma stored_upload_listed (now : N) (userId : string) (file : Client.File)
    (name category : string) (isPrivate : bool) (st : Backend) :
  let p := Client.filePath userId now file name category isPrivate in
  let st' := with_objects
               ({| Storage.key := p; Storage.bytes := Client.file_size file |}
                  :: objects st) st in
  let entry :=
    Client.toListed userId
      (Client.tag isPrivate
         {| Storage.name := Client.objectName now file name category;
            Storage.metadata := Some (Client.file_size file) |}) in
  Storage.has p (objects st) = false ->
  0 < Client.file_size file ->
  JS.lacks "/" category = true ->
  JS.lacks "/" (Client.fileExt file) = true ->
  JS.includes (Client.objectName now file name category) "_trash_" = false ->
  ~ Client.marked userId (Client.objectName now file name category) st ->
  exists docs,
    Client.listUserDocuments userId st' = Data docs
    /\ In entry docs
    /\ (isPrivate = false -> exists rest, docs = entry :: rest).
Proof.
  intros p st' entry Eh Hs Hc He Ht Hm. subst p st'.
  pose proof (objectName_lacks_slash now file name _ Hc He) as Hl.
  set (o := Client.tag isPrivate
              {| Storage.name := Client.objectName now file name category;
                 Storage.metadata := Some (Client.file_size file) |}).
  assert (Hkeep : Client.present o = true
                  /\ ~ Client.marked userId (Client.obj_name o)
                       (with_objects
                          ({| Storage.key := Client.filePath userId now file name
                                               category isPrivate;
                              Storage.bytes := Client.file_size file |}
                             :: objects st) st)).
  { split.
    - unfold Client.present, o, Client.obj_name, Client.obj_size. simpl.
      rewrite objectName_includes_dot, Ht. simpl.
      rewrite andb_true_r. lia.
    - exact Hm. }
  eexists. split; [apply listUserDocuments_data|].
  fold (Client.toListed userId o). subst entry. fold o.
  assert (Hhead : forall dir,
             Client.filePath userId now file name category isPrivate
             = dir +:+ "/" +:+ Client.objectName now file name category ->
             exists rest,
               Client.data_or_empty
                 (Storage.list_ dir 100
                    ({| Storage.key := Client.filePath userId now file name
                                         category isPrivate;
                        Storage.bytes := Client.file_size file |} :: objects st))
               = {| Storage.name := Client.objectName now file name category;
                    Storage.metadata := Some (Client.file_size file) |} :: rest).
  { intros dir Hd. rewrite Hd. apply list_after_upload; [exact Hl|].
    now rewrite <- Hd. }
  split.
  - apply in_map, filter_In. split; [|now apply keep_iff].
    unfold Client.listed_objects. apply In_allData. unfold o.
    cbn [Client.isPrivate Client.obj Client.tag objects with_objects].
    destruct isPrivate.
    + right. split; [reflexivity|].
      destruct (Hhead (userId +:+ "/private") eq_refl) as [rest ->]. now left.
    + left. split; [reflexivity|].
      destruct (Hhead userId eq_refl) as [rest ->]. now left.
  - intros ->. unfold Client.listed_objects.
    destruct (Hhead userId eq_refl) as [rest Hr].
    cbn [objects with_objects]. rewrite Hr. unfold Client.allData.
    cbn [map app List.filter].
    match goal with
    | |- context [if ?b then _ else _] => replace b with true
    end.
    + cbn [map]. eexists. reflexivity.
    + symmetry. apply keep_iff. exact Hkeep.
Qed.

Lemma split_objectName (now : N) (file : Client.File) (name category : string) :
  JS.lacks "_" category = true ->
  JS.split "_" (Client.objectName now file name category)
  = JS.of_N now :: category
      :: JS.split "_" (JS.sanitize name +:+ "." +:+ Client.fileExt file).
Proof.
  intros Hc. unfold Client.objectName.
  change ("_" +:+ category +:+ "_" +:+ JS.sanitize name +:+ "." +:+ Client.fileExt file)
    with (String "_" (category +:+ String "_"
                        (JS.sanitize name +:+ "." +:+ Client.fileExt file))).
  rewrite (split_app_sep "_" (JS.of_N now)) by apply of_N_lacks_underscore.
  now rewrite (split_app_sep "_" category) by exact Hc.
Qed.

Lemma split_length (sep : ascii) (s : string) : (1 <= length (JS.split sep s))%nat.
Proof.
  pose proof (split_nonempty sep s). destruct (JS.split sep s); [contradiction|].
  simpl. lia.
Qed.

Lemma parsedCategory_objectName (now : N) (file : Client.File)
    (name category : string) :
  JS.lacks "_" category = true ->
  Client.parsedCategory (Client.objectName now file name category) = category.
Proof.
  intros Hc. unfold Client.parsedCategory. rewrite (split_objectName _ _ _ _ Hc).
  pose proof (split_length "_" (JS.sanitize name +:+ "." +:+ Client.fileExt file)).
  destruct (JS.split "_" _); [simpl in *; lia | reflexivity].
Qed.

Lemma parsedDisplayName_objectName (now : N) (file : Client.File)
    (name category : string) :
  JS.lacks "_" category = true ->
  JS.nonempty (Client.fileExt file) = true ->
  JS.all_chars JS.is_word (Client.fileExt file) = true ->
  Client.parsedDisplayName (Client.objectName now file name category)
  = JS.map_chars (fun c => if JS.is_alnum c then c else " "%char) name.
Proof.
  intros Hc He Hw. unfold Client.parsedDisplayName.
  rewrite (split_objectName _ _ _ _ Hc).
  pose proof (split_length "_" (JS.sanitize name +:+ "." +:+ Client.fileExt file)) as Hl.
  replace (Nat.leb 3 (length (JS.of_N now :: category
             :: JS.split "_" (JS.sanitize name +:+ "." +:+ Client.fileExt file))))
    with true by (symmetry; apply Nat.leb_le; cbn [length]; lia).
  change (skipn 2 (JS.of_N now :: category
             :: JS.split "_" (JS.sanitize name +:+ "." +:+ Client.fileExt file)))
    with (JS.split "_" (JS.sanitize name +:+ "." +:+ Client.fileExt file)).
  rewrite join_split. unfold JS.strip_word_extension.
  change ("." +:+ Client.fileExt file) with (String "." (Client.fileExt file)).
  rewrite strip_dot_suffix_app; auto using sanitize_lacks_dot.
  apply underscores_to_spaces_sanitize.
Qed.

Lemma word_lacks_slash (s : string) :
  JS.all_chars JS.is_word s = true -> JS.lacks "/" s = true.
Proof.
  intros H. unfold JS.lacks. apply (all_chars_impl JS.is_word); [|exact H].
  intros c Hc. destruct (Ascii.eqb c "/") eqn:K; [|reflexivity].
  apply Ascii.eqb_eq in K. subst c. discriminate Hc.
Qed.

(** C5, as the code has it: a successful upload of a document that is not
    private, with display name [n] and category [c], stores the file at
    [{userId}/{timestamp}_{c}_{sanitized(n)}.{ext}] and returns that
    path.  When the file is not empty, [c] has neither underscore nor
    slash, the extension of the file is a non-empty run of word
    characters, the stored name does not contain [_trash_] and no marker
    of the user names it, [listUserDocuments] then has the document as
    its first entry: with the stored name as path, the size of the file,
    the category [c] and, as display name, [n] with every character
    outside [a-zA-Z0-9] rendered as a space.  A filename of fewer than
    three segments parses to "other" and is displayed as it is. *)
Theorem C5_path_encoding_round_trip :
  forall (now : N) (userId : string) (file : Client.File)
         (name category : string) (st st' : Backend) (up : Client.Uploaded),
    Client.uploadDocument now userId file name category false st
    = Data (up, st') ->
    let stored := Client.objectName now file name category in
    (Client.path up
     = userId +:+ "/" +:+ JS.of_N now +:+ "_" +:+ category +:+ "_"
         +:+ JS.sanitize name +:+ "." +:+ Client.fileExt file
     /\ Client.path up = userId +:+ "/" +:+ stored
     /\ Storage.has (Client.path up) (objects st) = false
     /\ objects st'
        = {| Storage.key := Client.path up;
             Storage.bytes := Client.file_size file |} :: objects st
     /\ deleted_documents st' = deleted_documents st)
    /\ (0 < Client.file_size file ->
        JS.lacks "_" category = true ->
        JS.lacks "/" category = true ->
        JS.nonempty (Client.fileExt file) = true ->
        JS.all_chars JS.is_word (Client.fileExt file) = true ->
        JS.includes stored "_trash_" = false ->
        ~ Client.marked userId stored st ->
        exists entry rest,
          Client.listUserDocuments userId st' = Data (entry :: rest)
          /\ Listed.path entry = stored
          /\ Listed.size entry = Client.file_size file
          /\ Listed.category entry = category
          /\ Listed.name entry
             = JS.map_chars (fun c => if JS.is_alnum c then c else " "%char) name)
    /\ forall (other : string) (size' : option Z),
         (length (JS.split "_" other) < 3)%nat ->
         Listed.category
           (Client.toListed userId
              (Client.tag false {| Storage.name := other; Storage.metadata := size' |}))
         = "other"
         /\ Listed.name
              (Client.toListed userId
                 (Client.tag false {| Storage.name := other; Storage.metadata := size' |}))
            = other.
Proof.
  intros now userId file name category st st' up E stored.
  apply uploadDocument_inv in E as (Hh & -> & ->).
  split; [|split].
  - cbn [Client.path objects deleted_documents with_objects].
    repeat split; try reflexivity. exact Hh.
  - intros Hs Hu Hc He Hw Ht Hm.
    destruct (stored_upload_listed now userId file name category false st
                Hh Hs Hc (word_lacks_slash _ Hw) Ht Hm)
      as (docs & Hl & _ & Hfirst).
    destruct (Hfirst eq_refl) as [rest ->].
    eexists. exists rest. split; [exact Hl|].
    split; [reflexivity|]. split; [reflexivity|]. split.
    + now apply parsedCategory_objectName.
    + now apply parsedDisplayName_objectName.
  - intros other size' Hlen. split.
    + unfold Client.toListed, Client.parsedCategory, Client.obj_name.
      cbn [Client.obj Client.tag Storage.name Client.isPrivate Listed.category].
      replace (Nat.leb 3 (length (JS.split "_" other))) with false; [reflexivity|].
      symmetry. apply Nat.leb_gt. assumption.
    + unfold Client.toListed, Client.parsedDisplayName, Client.obj_name.
      cbn [Client.obj Client.tag Storage.name Listed.name].
      replace (Nat.leb 3 (length (JS.split "_" other))) with false; [reflexivity|].
      symmetry. apply Nat.leb_gt. assumption.
Qed.

(** The scenario of the specification: "Resume_2024.pdf" is uploaded with
    the category "education" into an empty store; the listing then has
    one entry. *)
Lemma C5_witness :
  exists up st',
    Client.uploadDocument 1700000000000 Demo.alice Demo.resume_file
      (UploadDialog.defaultName Demo.resume_file) "education" false Demo.empty
    = Data (up, st')
    /\ Client.path up = "3d6f7a10-8c2b-4e59-a1d7-5b90c4e2f681/1700000000000_education_Resume_2024.pdf"
    /\ objects st'
       = [ {| Storage.key := "3d6f7a10-8c2b-4e59-a1d7-5b90c4e2f681/1700000000000_education_Resume_2024.pdf";
              Storage.bytes := 2048 |} ]
    /\ exists entry,
         Client.listUserDocuments Demo.alice st' = Data [entry]
         /\ Listed.path entry = "1700000000000_education_Resume_2024.pdf"
         /\ Listed.size entry = 2048
         /\ Listed.category entry = "education"
         /\ Listed.name entry = "Resume 2024".
Proof.
  destruct (Client.uploadDocument 1700000000000 Demo.alice Demo.resume_file
              (UploadDialog.defaultName Demo.resume_file) "education" false
              Demo.empty) as [[up st']|] eqn:E; [|discriminate E].
  exists up, st'. split; [reflexivity|].
  destruct (C5_path_encoding_round_trip 1700000000000 Demo.alice
              Demo.resume_file (UploadDialog.defaultName Demo.resume_file)
              "education" Demo.empty st' up E)
    as ((Hpath & _ & _ & Hobjs & _) & Hlist & _).
  split; [rewrite Hpath; vm_compute; reflexivity|].
  split; [rewrite Hobjs, Hpath; vm_compute; reflexivity|].
  destruct Hlist as (entry & rest & Hl & Hp & Hsz & Hcat & Hname).
  - vm_compute. reflexivity.
  - vm_compute. reflexivity.
  - vm_compute. reflexivity.
  - vm_compute. reflexivity.
  - vm_compute. reflexivity.
  - vm_compute. reflexivity.
  - intros (m & [] & _).
  - exists entry.
    assert (Hrest : rest = []).
    { inversion E; subst st'. vm_compute in Hl. now inversion Hl. }
    subst rest. split; [exact Hl|].
    split; [rewrite Hp; vm_compute; reflexivity|].
    split; [exact Hsz|]. split; [exact Hcat|].
    rewrite Hname. vm_compute. reflexivity.
Defined.

(** C5 as stated fails, each time shown by an upload into the empty
    store and the listing after it: an extension with a character
    outside [\w] stays in the display name; a character of the name that
    is neither a letter, a digit nor an underscore comes back as a space;
    a category with an underscore comes back cut at the underscore.  And
    an upload that succeeds is not listed at all when the file is empty,
    when the sanitised name contains [_trash_], or when the category has
    a slash, which puts the object into a folder of its own. *)
Lemma C5_counterexample :
  let listing file name category :=
    match Client.uploadDocument 1700000000000 Demo.alice file name category
            false Demo.empty with
    | Data (_, st') =>
        match Client.listUserDocuments Demo.alice st' with
        | Data docs => map (fun d => (Listed.name d, Listed.category d)) docs
        | Failure _ => []
        end
    | Failure _ => []
    end in
  let listed file name category :=
    match Client.uploadDocument 1700000000000 Demo.alice file name category
            false Demo.empty with
    | Data (_, st') => Client.listUserDocuments Demo.alice st'
    | Failure e => Failure e
    end in
  listing {| Client.file_name := "matrix.c++"; Client.file_size := 2048 |}
    "matrix" "education" = [("matrix.c++", "education")]
  /\ "matrix.c++" <> "matrix"
  /\ listing {| Client.file_name := "Tax-2024.pdf"; Client.file_size := 2048 |}
       "Tax-2024" "financial" = [("Tax 2024", "financial")]
  /\ "Tax 2024" <> "Tax-2024"
  /\ listing {| Client.file_name := "lease.pdf"; Client.file_size := 2048 |}
       "lease" "legal_notices" = [("notices lease", "legal")]
  /\ "legal" <> "legal_notices"
  /\ listed {| Client.file_name := "empty.pdf"; Client.file_size := 0 |}
       "empty" "other" = Data []
  /\ listed {| Client.file_name := "list.pdf"; Client.file_size := 2048 |}
       "my trash list" "other" = Data []
  /\ listed {| Client.file_name := "deed.pdf"; Client.file_size := 2048 |}
       "deed" "legal/property" = Data [].
Proof. vm_compute. repeat split; try reflexivity; discriminate. Qed.

(** The scenario of the specification, end to end: one upload into an
    empty store, then the listing. *)
Example upload_then_list :
  match Client.uploadDocument 1700000000000 Demo.alice Demo.resume_file
          (UploadDialog.defaultName Demo.resume_file)
          (UploadDialog.uploadCategory "education" false) false Demo.empty with
  | Failure _ => False
  | Data (up, st) =>
      Client.path up = "3d6f7a10-8c2b-4e59-a1d7-5b90c4e2f681/1700000000000_education_Resume_2024.pdf"
      /\ Client.listUserDocuments Demo.alice st
         = Data [ {| Listed.name := "Resume 2024";
                     Listed.path := "1700000000000_education_Resume_2024.pdf";
                     Listed.publicUrl :=
                       "/storage/v1/object/public/documents/3d6f7a10-8c2b-4e59-a1d7-5b90c4e2f681/1700000000000_education_Resume_2024.pdf";
                     Listed.size := 2048;
                     Listed.category := "education" |} ]
  end.
Proof. vm_compute. auto. Qed.

(** ** Share resolution *)

(** [loadDocument] either reports the missing file and changes nothing
    else, or sets a signed URL and the record. *)
Lemma loadDocument_cases (viewer : option string) (r : Share.t)
    (p : SharedDocument.Page) (st : Backend) :
  SharedDocument.loadDocument viewer r p st
    = (SharedDocument.setError SharedDocument.file_not_found p, st)
  \/ exists u, u <> EmptyString
       /\ SharedDocument.loadDocument viewer r p st
          = (SharedDocument.setShareData r (SharedDocument.setDocumentUrl u p),
             match Db.update_access_count viewer (Share.id r)
                     (Share.access_count r + 1) st with
             | Data st1 => st1
             | Failure _ => st
             end).
Proof.
  unfold SharedDocument.loadDocument.
  assert (Hsigned : forall path u,
             Storage.createSignedUrl path (objects st) = Data u ->
             u <> EmptyString).
  { unfold Storage.createSignedUrl. intros path u.
    destruct (Storage.has path (objects st)); [|discriminate].
    intros E. inversion E. discriminate. }
  assert (Hfirst : forall paths u,
             SharedDocument.firstSignedUrl paths (objects st) = Some u ->
             u <> EmptyString).
  { induction paths as [|a l IH]; simpl; [discriminate|]. intros u.
    destruct (Storage.createSignedUrl a (objects st)) as [v|] eqn:E.
    - intros H. inversion H; subst. eapply Hsigned; eauto.
    - apply IH. }
  destruct (Storage.createSignedUrl (Share.document_path r) (objects st))
    as [u|] eqn:E.
  - right. exists u. split; [eapply Hsigned; eauto | reflexivity].
  - destruct (SharedDocument.firstSignedUrl _ _) as [u|] eqn:F.
    + right. exists u. split; [eapply Hfirst; eauto | reflexivity].
    + now left.
Qed.

(** With the record at hand, [loadSharedDocument] runs the checks of
    [resolve] on it, whichever of the two attempts delivered it. *)
Lemma loadSharedDocument_found (viewer : option string) (db_now now : Z)
    (token : string) (p : SharedDocument.Page) (st : Backend) (r : Share.t)
    (rest : list Share.t) :
  Db.select_shares viewer db_now token st = Data (r :: rest) ->
  SharedDocument.loadSharedDocument viewer db_now now token p st
  = (SharedDocument.setLoading false
       (fst (SharedDocument.resolve viewer now r
               (SharedDocument.setLoading true p) st)),
     snd (SharedDocument.resolve viewer now r
            (SharedDocument.setLoading true p) st)).
Proof.
  unfold Db.select_shares. intros E. inversion E as [E']; clear E.
  unfold SharedDocument.loadSharedDocument, SharedDocument.loadSharedDocument_on,
    Db.select_share_single, Db.select_shares.
  rewrite E'.
  destruct rest as [|r' rest'];
    destruct (SharedDocument.resolve viewer now r
                (SharedDocument.setLoading true p) st);
    reflexivity.
Qed.


Lemma hasExpired_null (now : Z) (r : Share.t) :
  Share.expires_at r = None -> SharedDocument.hasExpired now r = false.
Proof. unfold SharedDocument.hasExpired. now intros ->. Qed.

(** [resolve] reports the expiry only for a record that has expired. *)
Lemma resolve_error_expired (viewer : option string) (now : Z) (r : Share.t)
    (p : SharedDocument.Page) (st : Backend) :
  SharedDocument.error p <> SharedDocument.expired ->
  SharedDocument.error (fst (SharedDocument.resolve viewer now r p st))
    = SharedDocument.expired ->
  SharedDocument.hasExpired now r = true.
Proof.
  unfold SharedDocument.resolve. intros Hp.
  destruct (Share.is_public r); simpl; [|discriminate].
  destruct (SharedDocument.hasExpired now r); [reflexivity|].
  destruct (JS.truthy (Share.password_hash r)); simpl; [contradiction|].
  destruct (loadDocument_cases viewer r p st) as [->|(u & _ & ->)]; simpl;
    [discriminate | contradiction].
Qed.




Lemma truthy_nonempty (h : string) :
  h <> EmptyString -> JS.truthy (Some h) = true.
Proof. destruct h; [contradiction | reflexivity]. Qed.

Lemma nonempty_true (s : string) : JS.nonempty s = true <-> s <> EmptyString.
Proof. destruct s; simpl; split; congruence. Qed.

Lemma btoa_nonempty (s : string) : s <> EmptyString -> JS.btoa s <> EmptyString.
Proof.
  destruct s as [|a [|b [|c r]]]; [contradiction | discriminate..].
Qed.

(** The hash [handleShare] stores is [null] or the encoding of a password
    that is not empty, which is not empty itself. *)
Lemma passwordHash_nonempty (shareSettings : Index.ShareSettings) (h : string) :
  Index.passwordHash shareSettings = Some h ->
  h <> EmptyString
  /\ exists password,
       Index.password shareSettings = Some password
       /\ password <> EmptyString
       /\ h = JS.btoa password.
Proof.
  unfold Index.passwordHash.
  destruct (Index.requiresPassword shareSettings); [|discriminate].
  destruct (Index.password shareSettings) as [pw|]; [|discriminate].
  simpl. destruct (JS.nonempty pw) eqn:E; [|discriminate].
  intros H. inversion H; subst h. apply nonempty_true in E.
  split; [now apply btoa_nonempty | eauto].
Qed.

(** C4: take a public record that has not expired and whose
    [password_hash] is not [null], the hash being one that [handleShare]
    stores.  Resolution stops with the password prompt, the record kept,
    no document URL and the backend untouched.  From there
    [verifyPassword] changes nothing unless [btoa] of the candidate is the
    stored hash; a document URL appears only for a candidate with that
    encoding, and it does appear for one when the stored path denotes an
    object of the store. *)
Theorem C4_password_gate :
  forall (viewer : option string) (db_now now : Z) (token : string)
         (st : Backend) (r : Share.t) (rest : list Share.t)
         (shareSettings : Index.ShareSettings) (h : string),
    Db.select_shares viewer db_now token st = Data (r :: rest) ->
    Share.is_public r = true ->
    (forall e, Share.expires_at r = Some e -> now <= e) ->
    Share.password_hash r = Index.passwordHash shareSettings ->
    Share.password_hash r = Some h ->
    let p1 := fst (SharedDocument.loadSharedDocument viewer db_now now token
                     SharedDocument.initial st) in
    snd (SharedDocument.loadSharedDocument viewer db_now now token
           SharedDocument.initial st) = st
    /\ SharedDocument.documentUrl p1 = EmptyString
    /\ SharedDocument.passwordRequired p1 = true
    /\ SharedDocument.shareData p1 = Some r
    /\ SharedDocument.error p1 = EmptyString
    /\ forall (candidate : string) (st2 : Backend),
         let out := SharedDocument.verifyPassword viewer candidate p1 st2 in
         (JS.btoa candidate <> h -> fst (fst out) = p1 /\ snd (fst out) = st2)
         /\ (SharedDocument.documentUrl (fst (fst out)) <> EmptyString ->
             candidate <> EmptyString /\ JS.btoa candidate = h)
         /\ (JS.btoa candidate = h ->
             Storage.has (Share.document_path r) (objects st2) = true ->
             SharedDocument.documentUrl (fst (fst out)) <> EmptyString
             /\ SharedDocument.passwordRequired (fst (fst out)) = false).
Proof.
  intros viewer db_now now token st r rest shareSettings h Hsel Hpub Hexp
    Hwritten Hh p1. subst p1.
  rewrite Hh in Hwritten. symmetry in Hwritten.
  apply passwordHash_nonempty in Hwritten as (Hne & pw & _ & Hpw & Hhpw).
  rewrite (loadSharedDocument_found _ _ _ _ _ _ _ _ Hsel).
  assert (Hnot : SharedDocument.hasExpired now r = false).
  { unfold SharedDocument.hasExpired.
    destruct (Share.expires_at r) as [e|]; [|reflexivity].
    specialize (Hexp e eq_refl). lia. }
  unfold SharedDocument.resolve.
  rewrite Hpub, Hnot, Hh, (truthy_nonempty h Hne). simpl.
  repeat split; auto.
  - unfold SharedDocument.verifyPassword in *. simpl in *. rewrite Hh in *.
    destruct (JS.nonempty candidate); simpl in *; [|reflexivity].
    destruct (String.eqb (JS.btoa candidate) h) eqn:E; [|reflexivity].
    apply String.eqb_eq in E. contradiction.
  - unfold SharedDocument.verifyPassword in *. simpl in *. rewrite Hh in *.
    destruct (JS.nonempty candidate); simpl in *; [|reflexivity].
    destruct (String.eqb (JS.btoa candidate) h) eqn:E; [|reflexivity].
    apply String.eqb_eq in E. contradiction.
  - unfold SharedDocument.verifyPassword in H. simpl in H. rewrite Hh in H.
    destruct candidate; [simpl in H; contradiction | discriminate].
  - unfold SharedDocument.verifyPassword in H. simpl in H. rewrite Hh in H.
    destruct (JS.nonempty candidate); simpl in H; [|contradiction].
    destruct (String.eqb (JS.btoa candidate) h) eqn:E;
      [now apply String.eqb_eq in E | simpl in H; contradiction].
  - assert (Hc : JS.nonempty candidate = true).
    { apply nonempty_true. intros ->. apply Hne. now rewrite <- H. }
    unfold SharedDocument.verifyPassword. simpl. rewrite Hh, Hc. simpl.
    rewrite H, String.eqb_refl.
    unfold SharedDocument.loadDocument, Storage.createSignedUrl.
    rewrite H0. simpl. discriminate.
  - assert (Hc : JS.nonempty candidate = true).
    { apply nonempty_true. intros ->. apply Hne. now rewrite <- H. }
    unfold SharedDocument.verifyPassword. simpl. rewrite Hh, Hc. simpl.
    rewrite H, String.eqb_refl.
    unfold SharedDocument.loadDocument, Storage.createSignedUrl.
    rewrite H0. reflexivity.
Qed.

(** A visitor who is not signed in opens a share that [handleShare] wrote
    with the password "secret". *)
Lemma C4_witness :
  let r := Demo.share true None (Some (JS.btoa "secret")) in
  let p1 := fst (SharedDocument.loadSharedDocument None 2000 2000 "tok-1"
                   SharedDocument.initial (Demo.shared r)) in
  snd (SharedDocument.loadSharedDocument None 2000 2000 "tok-1"
         SharedDocument.initial (Demo.shared r)) = Demo.shared r
  /\ SharedDocument.documentUrl p1 = EmptyString
  /\ SharedDocument.passwordRequired p1 = true
  /\ SharedDocument.shareData p1 = Some r
  /\ SharedDocument.error p1 = EmptyString
  /\ forall (candidate : string) (st2 : Backend),
       let out := SharedDocument.verifyPassword None candidate p1 st2 in
       (JS.btoa candidate <> JS.btoa "secret" ->
        fst (fst out) = p1 /\ snd (fst out) = st2)
       /\ (SharedDocument.documentUrl (fst (fst out)) <> EmptyString ->
           candidate <> EmptyString /\ JS.btoa candidate = JS.btoa "secret")
       /\ (JS.btoa candidate = JS.btoa "secret" ->
           Storage.has (Share.document_path r) (objects st2) = true ->
           SharedDocument.documentUrl (fst (fst out)) <> EmptyString
           /\ SharedDocument.passwordRequired (fst (fst out)) = false).
Proof.
  intros r.
  apply (C4_password_gate None 2000 2000 "tok-1" (Demo.shared r) r []
           (Demo.settings 0 (Some "secret")) (JS.btoa "secret")).
  - reflexivity.
  - reflexivity.
  - intros e H. discriminate H.
  - reflexivity.
  - reflexivity.
Defined.

(** The gate is the truthiness test [if (shareInfo.password_hash)]: a
    row with the empty string as its hash, which [handleShare] never
    writes, would be resolved without a prompt. *)
Example empty_hash_is_no_gate :
  let r := Demo.share true None (Some EmptyString) in
  let p1 := fst (SharedDocument.loadSharedDocument None 2000 2000 "tok-1"
                   SharedDocument.initial (Demo.shared r)) in
  SharedDocument.passwordRequired p1 = false
  /\ SharedDocument.documentUrl p1
     = "/storage/v1/object/sign/documents/3d6f7a10-8c2b-4e59-a1d7-5b90c4e2f681/1700000000000_education_Resume_2024.pdf"
  /\ forall shareSettings, Index.passwordHash shareSettings <> Some EmptyString.
Proof.
  split; [vm_compute; reflexivity|]. split; [vm_compute; reflexivity|].
  intros shareSettings H. apply passwordHash_nonempty in H as [H _].
  now apply H.
Qed.

Lemma existsb_false {A : Type} (f : A -> bool) (l : list A) :
  (forall x, In x l -> f x = false) -> existsb f l = false.
Proof.
  intros H. induction l as [|x l IH]; simpl; [reflexivity|].
  rewrite (H x (or_introl eq_refl)), IH; [reflexivity|].
  intros y Hy. apply H. now right.
Qed.

(** C6: for a signed-in user and a document that is not private,
    [handleShare] with [expiresIn = 0] and a fresh token and row id returns
    the link and appends one row, whose [expires_at] is [null]; a record
    with [expires_at] [null] has not expired at any time, share resolution
    never ends in the expired state for it, and [getExpirationText] shows
    it as never expiring. *)
Theorem C6_no_expiry_round_trip :
  forall (shareToken new_id baseUrl : string) (now : Z) (userId : string)
         (document : Index.Document) (shareSettings : Index.ShareSettings)
         (st : Backend),
    Index.category document <> "private" ->
    Index.expiresIn shareSettings = 0 ->
    (forall r, In r (document_shares st) ->
               Share.id r <> new_id /\ Share.share_token r <> shareToken) ->
    (exists row st',
        Index.handleShare shareToken new_id baseUrl now (Some userId) document
          shareSettings st
        = (Data (baseUrl +:+ "/shared/" +:+ shareToken), st')
        /\ document_shares st' = document_shares st ++ [row]
        /\ Share.share_token row = shareToken
        /\ Share.expires_at row = None)
    /\ (forall (r : Share.t) (later : Z), Share.expires_at r = None ->
          SharedDocument.hasExpired later r = false
          /\ (forall viewer db_now token p st2 rest,
                Db.select_shares viewer db_now token st2 = Data (r :: rest) ->
                SharedDocument.error p <> SharedDocument.expired ->
                SharedDocument.error
                  (fst (SharedDocument.loadSharedDocument viewer db_now later
                          token p st2))
                <> SharedDocument.expired)
          /\ (forall p, SharedDocument.shareData p = Some r ->
                SharedDocument.getExpirationText later p = "Never expires")).
Proof.
  intros shareToken new_id baseUrl now userId document shareSettings st
    Hcat Hzero Hfresh.
  split.
  - unfold Index.handleShare.
    destruct (String.eqb (Index.category document) "private") eqn:Ec;
      [apply String.eqb_eq in Ec; contradiction|].
    unfold Index.expiresAt. rewrite Hzero. simpl (0 <? 0). cbv iota.
    unfold Db.insert_share. rewrite existsb_false.
    + eexists. eexists. split; [reflexivity|]. simpl. auto.
    + intros r Hr. destruct (Hfresh r Hr) as [Hi Ht].
      unfold Db.share_conflicts. simpl.
      apply String.eqb_neq in Hi, Ht. now rewrite Hi, Ht.
  - intros r later Hnull. split; [now apply hasExpired_null|]. split.
    + intros viewer db_now token p st2 rest Hsel Hp He.
      rewrite (loadSharedDocument_found _ _ _ _ _ _ _ _ Hsel) in He. simpl in He.
      apply resolve_error_expired in He; [|exact Hp].
      now rewrite (hasExpired_null later r Hnull) in He.
    + intros p Hp. unfold SharedDocument.getExpirationText.
      now rewrite Hp, Hnull.
Qed.

Lemma C6_witness :
  (exists row st',
      Index.handleShare "tok-1" "row-1" "https://digi-locker.vercel.app"
        1700000200000 (Some Demo.alice) Demo.regular_document
        (Demo.settings 0 None) Demo.backend
      = (Data ("https://digi-locker.vercel.app" +:+ "/shared/" +:+ "tok-1"), st')
      /\ document_shares st' = document_shares Demo.backend ++ [row]
      /\ Share.share_token row = "tok-1"
      /\ Share.expires_at row = None)
  /\ (forall (r : Share.t) (later : Z), Share.expires_at r = None ->
        SharedDocument.hasExpired later r = false
        /\ (forall viewer db_now token p st2 rest,
              Db.select_shares viewer db_now token st2 = Data (r :: rest) ->
              SharedDocument.error p <> SharedDocument.expired ->
              SharedDocument.error
                (fst (SharedDocument.loadSharedDocument viewer db_now later
                        token p st2))
              <> SharedDocument.expired)
        /\ (forall p, SharedDocument.shareData p = Some r ->
              SharedDocument.getExpirationText later p = "Never expires")).
Proof.
  apply (C6_no_expiry_round_trip "tok-1" "row-1" "https://digi-locker.vercel.app"
           1700000200000 Demo.alice Demo.regular_document
           (Demo.settings 0 None) Demo.backend).
  - vm_compute. discriminate.
  - reflexivity.
  - simpl. intros r [].
Defined.

(** ** Deleting a private document *)

Lemma filter_none {A : Type} (f : A -> bool) (l : list A) :
  (forall x, In x l -> f x = false) -> List.filter f l = [].
Proof.
  intros H. induction l as [|x l IH]; simpl; [reflexivity|].
  rewrite (H x (or_introl eq_refl)). apply IH. intros y Hy. apply H. now right.
Qed.

(** [deletePermanent] fails unless [documentId] reads as the id of a
    marker row of the user. *)
Lemma deletePermanent_needs_row (storageError : option string)
    (userId documentId : string) (st : Backend) :
  (forall u m, Db.uuid_in documentId = Some u ->
               In m (deleted_documents st) -> Marker.user_id m = userId ->
               Marker.id m <> u) ->
  exists e, Client.deletePermanent storageError userId documentId st = Failure e.
Proof.
  intros H. unfold Client.deletePermanent, Db.select_deleted_single.
  destruct (Db.uuid_in documentId) as [u|]; [|eauto].
  rewrite filter_none; [eauto|].
  intros m Hm. unfold Db.is_row, Db.owned.
  destruct (String.eqb (Marker.user_id m) userId) eqn:Eu;
    [|now rewrite andb_false_r].
  apply String.eqb_eq in Eu. specialize (H u m eq_refl Hm Eu).
  apply String.eqb_neq in H. now rewrite H.
Qed.

(** The private branch of [handleDelete] hands the id of the document to
    [deletePermanent]; when no marker row has that id, nothing is deleted. *)
Lemma handleDelete_private_without_row (new_id : string) (now : Z)
    (storageError : option string) (userId id0 : string) (ui : Index.UI)
    (st : Backend) (found : Index.Document) :
  Index.find_doc id0 (Index.documents ui) = Some found ->
  Index.category found = "private" ->
  (forall u m, Db.uuid_in id0 = Some u ->
               In m (deleted_documents st) -> Marker.user_id m = userId ->
               Marker.id m <> u) ->
  Index.handleDelete true new_id now storageError (Some userId) id0 ui st
  = Index.failed ui st.
Proof.
  intros Hf Hc Hrow. unfold Index.handleDelete. rewrite Hf, Hc. simpl.
  destruct (deletePermanent_needs_row storageError userId id0 st Hrow) as [e ->].
  reflexivity.
Qed.


(** The name [moveToTrash] records has no slash. *)
Lemma filename_of_lacks_slash (path : string) :
  JS.lacks "/" (Client.filename_of path) = true.
Proof.
  unfold Client.filename_of.
  destruct (JS.includes path "/") eqn:E.
  - apply (split_segments_lack "/" path). apply last_In, split_nonempty.
  - now apply includes_false_lacks.
Qed.

Lemma append_inj_r (a b c : string) : a +:+ b = a +:+ c -> b = c.
Proof.
  induction a as [|x a IH]; simpl; [auto|].
  intros H. inversion H. auto.
Qed.

(** Whatever marker row it is given, [deletePermanent] removes the object
    [{userId}/{document_name}]: an object under [{userId}/private/] stays. *)
Lemma deletePermanent_spares_private (storageError : option string)
    (userId documentId : string)
    (st st' : Backend) (so : Storage.StoredObject) (n : string) :
  (forall m, In m (deleted_documents st) -> Client.written_by_moveToTrash m) ->
  Client.deletePermanent storageError userId documentId st = Data st' ->
  In so (objects st) ->
  Storage.key so = userId +:+ "/private/" +:+ n ->
  In so (objects st').
Proof.
  intros Hw.
  unfold Client.deletePermanent, Db.select_deleted_single, Db.delete_deleted.
  destruct (Db.uuid_in documentId) as [u|]; [|discriminate].
  destruct (List.filter (Db.is_row u userId) (deleted_documents st))
    as [|m [|m' l]] eqn:Ef; try discriminate.
  destruct storageError as [e|];
    intros E Hso Hk; inversion E; subst st'; clear E; simpl; [exact Hso|].
  apply In_remove. split; [exact Hso|].
  intros [Hin|[]]. rewrite Hk in Hin.
  apply append_inj_r in Hin.
  assert (Hm : In m (deleted_documents st)).
  { assert (Hm : In m (List.filter (Db.is_row u userId)
                          (deleted_documents st))) by (rewrite Ef; now left).
    now apply filter_In in Hm. }
  pose proof (filename_of_lacks_slash (Marker.document_path m)) as Hl.
  rewrite <- (proj1 (Hw m Hm)) in Hl.
  change ("/" +:+ Marker.document_name m) with (String "/" (Marker.document_name m)) in Hin.
  change ("/private/" +:+ n) with (String "/" ("private/" +:+ n)) in Hin.
  inversion Hin as [Hn]. rewrite Hn in Hl.
  unfold JS.lacks in Hl. simpl in Hl. discriminate Hl.
Qed.

(** So no way through the private branch of [handleDelete] removes the
    object of a private document. *)
Lemma handleDelete_private_spares_object (confirmed : bool) (new_id : string)
    (now : Z) (storageError : option string) (userId id0 : string)
    (ui : Index.UI) (st : Backend)
    (found : Index.Document) (so : Storage.StoredObject) (n : string) :
  reachable st ->
  Index.find_doc id0 (Index.documents ui) = Some found ->
  Index.category found = "private" ->
  In so (objects st) ->
  Storage.key so = userId +:+ "/private/" +:+ n ->
  In so (objects (Index.backend_of
                    (Index.handleDelete confirmed new_id now storageError
                       (Some userId) id0 ui st))).
Proof.
  intros Hr Hf Hc Hso Hk.
  pose proof (reachable_markers_written st Hr) as Hw.
  unfold Index.handleDelete. rewrite Hf, Hc. simpl.
  destruct confirmed; simpl; [|exact Hso].
  destruct (Client.deletePermanent storageError userId id0 st) as [st'|e] eqn:E;
    simpl; [|exact Hso].
  eapply deletePermanent_spares_private; eauto.
Qed.

(** C7 at the failing input: one private document, listed and shown in
    the component state, an empty [deleted_documents].  [handleDelete],
    confirmed, ends with the toast "Delete failed" and the backend it
    found, whatever the storage service would answer to a removal: the
    object is still stored and the document is still listed as active. *)
Theorem C7_private_delete_fails :
  forall storageError : option string,
  let out :=
    Index.handleDelete true "6f1c0d1e-0000-4000-8000-000000000002"
      1700000300000 storageError (Some Demo.alice) Demo.passport Demo.ui
      Demo.backend in
  Index.loadDocuments Demo.alice
    {| Index.documents := []; Index.trashDocs := [];
       Index.selectedCategory := "all" |} Demo.backend = Data Demo.ui
  /\ Index.find_doc Demo.passport (Index.documents Demo.ui)
     = Some Demo.private_document
  /\ Index.category Demo.private_document = "private"
  /\ Index.toast_of out = Some "Delete failed"
  /\ Index.backend_of out = Demo.backend
  /\ Storage.has "3d6f7a10-8c2b-4e59-a1d7-5b90c4e2f681/private/1700000000500_financial_Passport.pdf"
       (objects (Index.backend_of out)) = true
  /\ Client.listUserDocuments Demo.alice (Index.backend_of out)
     = Data [Client.toListed Demo.alice Demo.regular_object;
             Client.toListed Demo.alice Demo.private_object]
  /\ Client.listUserTrash Demo.alice (Index.backend_of out) = Data [].
Proof. intros storageError. vm_compute. repeat split; reflexivity. Qed.

(** ** Categorisation *)

Lemma fallback_category (fileName : string) :
  In (Gemini.category (Gemini.fallbackCategorization fileName)) Gemini.categories.
Proof.
  unfold Gemini.fallbackCategorization, Gemini.categories.
  repeat match goal with
         | |- context [if ?b then _ else _] => destruct b
         end; simpl; auto 10.
Qed.

Lemma fallback_confidence (fileName : string) :
  Gemini.confidence (Gemini.fallbackCategorization fileName) = Some 0.7%float
  \/ Gemini.confidence (Gemini.fallbackCategorization fileName) = Some 0.5%float.
Proof.
  unfold Gemini.fallbackCategorization.
  repeat match goal with
         | |- context [if ?b then _ else _] => destruct b
         end; simpl; auto.
Qed.




(** The six categories are none of the inherited property names. *)
Lemma categories_not_inherited (key : string) :
  In key Gemini.categories -> Gemini.mem key Gemini.inherited = false.
Proof.
  intros [<-|[<-|[<-|[<-|[<-|[<-|[]]]]]]]; reflexivity.
Qed.




(** * Further properties *)

(** ** Further properties of the trash operations *)

Lemma insert_deleted_fails_iff (row : Marker.t) (st : Backend) :
  (exists e, Db.insert_deleted row st = Failure e) <->
  Db.is_uuid (Marker.id row) = false
  \/ exists m, In m (deleted_documents st)
               /\ (Marker.id m = Marker.id row
                   \/ (Marker.user_id m = Marker.user_id row
                       /\ Marker.document_path m = Marker.document_path row)).
Proof.
  unfold Db.insert_deleted.
  destruct (Db.is_uuid (Marker.id row)); cbn [negb];
    [|split; [now left | eauto]].
  destruct (existsb (Db.conflicts row) (deleted_documents st)) eqn:E.
  - split; [intros _ | eauto]. right.
    apply existsb_exists in E as (m & Hm & Hc). exists m. split; [exact Hm|].
    unfold Db.conflicts in Hc. apply orb_true_iff in Hc as [Hc|Hc].
    + left. now apply String.eqb_eq.
    + right. apply andb_true_iff in Hc as [H1 H2].
      split; now apply String.eqb_eq.
  - split; [intros [e H]; discriminate|].
    intros [H|(m & Hm & Hc)]; [discriminate|].
    assert (existsb (Db.conflicts row) (deleted_documents st) = true); [|congruence].
    apply existsb_exists. exists m. split; [exact Hm|].
    unfold Db.conflicts. destruct Hc as [->|[-> ->]];
      rewrite !String.eqb_refl; [reflexivity | apply orb_true_r].
Qed.

(** X1: [moveToTrash] fails exactly when a marker with the new id or a
    marker of the same user for the same path is already there, or when
    the id given for the new row is not the text of a [uuid], which the
    database never generates; so a second [moveToTrash] of a path that
    was trashed fails, whatever id and time the database would give the
    new row. *)
Theorem moveToTrash_rejects_duplicates :
  forall (new_id : string) (now : Z) (userId path : string) (st : Backend),
    ((exists e, Client.moveToTrash new_id now userId path st = Failure e) <->
     Db.is_uuid new_id = false
     \/ exists m, In m (deleted_documents st)
                  /\ (Marker.id m = new_id
                      \/ (Marker.user_id m = userId
                          /\ Marker.document_path m = path)))
    /\ forall st1 new_id' now',
         Client.moveToTrash new_id now userId path st = Data st1 ->
         exists e, Client.moveToTrash new_id' now' userId path st1 = Failure e.
Proof.
  intros new_id now userId path st. split.
  - unfold Client.moveToTrash. now rewrite insert_deleted_fails_iff.
  - intros st1 new_id' now' E.
    apply moveToTrash_appends in E as (m & -> & _ & Hu & Hp & _ & _).
    unfold Client.moveToTrash. apply insert_deleted_fails_iff. right.
    exists m. simpl. split; [apply in_app_iff; right; now left | auto].
Qed.

(** X2: trashing a document and then restoring the row just written gives
    back the backend as it was, markers, objects and shares, and with it
    both listings. *)
Theorem trash_restore_round_trip :
  forall (new_id : string) (now : Z) (userId path : string)
         (st st1 : Backend),
    Client.moveToTrash new_id now userId path st = Data st1 ->
    Client.restoreFromTrash userId new_id st1 = Data st
    /\ (forall st2, Client.restoreFromTrash userId new_id st1 = Data st2 ->
          Client.listUserDocuments userId st2 = Client.listUserDocuments userId st
          /\ Client.listUserTrash userId st2 = Client.listUserTrash userId st).
Proof.
  intros new_id now userId path st st1 E.
  pose proof (trash_then_restore _ _ _ _ _ _ E) as R.
  split; [exact R|]. intros st2 R2. rewrite R in R2.
  inversion R2. auto.
Qed.

Lemma trash_restore_round_trip_witness :
  Client.restoreFromTrash Demo.alice (Marker.id Demo.resume_marker) Demo.trashed
  = Data Demo.backend.
Proof.
  apply (proj1 (trash_restore_round_trip (Marker.id Demo.resume_marker)
                  1700000100000 Demo.alice Demo.resume Demo.backend
                  Demo.trashed eq_refl)).
Defined.

Lemma filter_filter_same {A : Type} (f : A -> bool) (l : list A) :
  List.filter f (List.filter f l) = List.filter f l.
Proof.
  induction l as [|x l IH]; simpl; [reflexivity|].
  destruct (f x) eqn:E; simpl; [rewrite E; now f_equal | exact IH].
Qed.

Lemma is_row_iff (documentId userId : string) (m : Marker.t) :
  Db.is_row documentId userId m = true
  <-> Marker.id m = documentId /\ Marker.user_id m = userId.
Proof.
  unfold Db.is_row, Db.owned.
  now rewrite andb_true_iff, !String.eqb_eq.
Qed.

(** The id the page gives a trash entry is no [uuid]. *)
Lemma trash_entry_id_no_uuid (name : string) :
  Db.uuid_in ("trash-" +:+ name) = None.
Proof. reflexivity. Qed.

(** X3: [restoreFromTrash] fails when the id it is given is not the text
    of a [uuid], as the id of every trash entry of the page is, so that
    [handleRestore] on such an entry ends in "Restore failed" with the
    backend as it was.  For a [uuid] it succeeds and removes exactly the
    markers that carry the id and belong to the given user: markers of
    other users and markers with other ids stay, objects and shares are
    untouched, and restoring a second time changes nothing. *)
Theorem restoreFromTrash_is_scoped :
  forall (userId documentId : string) (st : Backend),
    (Db.uuid_in documentId = None ->
     exists e, Client.restoreFromTrash userId documentId st = Failure e)
    /\ (forall u, Db.uuid_in documentId = Some u ->
          exists st',
            Client.restoreFromTrash userId documentId st = Data st'
            /\ objects st' = objects st
            /\ document_shares st' = document_shares st
            /\ (forall m, In m (deleted_documents st') <->
                  In m (deleted_documents st)
                  /\ ~ (Marker.id m = u /\ Marker.user_id m = userId))
            /\ Client.restoreFromTrash userId documentId st' = Data st')
    /\ (forall (t : TrashItem.t) (ui : Index.UI),
          Index.find_doc (Index.id (Index.ofTrashItem t)) (Index.trashDocs ui)
          = Some (Index.ofTrashItem t) ->
          Index.handleRestore (Some userId) (Index.id (Index.ofTrashItem t))
            ui st
          = {| Index.ui_of := ui; Index.backend_of := st;
               Index.toast_of := Some "Restore failed" |}).
Proof.
  intros userId documentId st. split; [|split].
  - intros E. unfold Client.restoreFromTrash, Db.delete_deleted. rewrite E.
    eauto.
  - intros u E. eexists.
    split; [exact (restoreFromTrash_data userId documentId u st E)|]. simpl.
    split; [reflexivity|]. split; [reflexivity|]. split.
    + intros m. rewrite filter_In, negb_true_iff, <- not_true_iff_false.
      now rewrite is_row_iff.
    + rewrite (restoreFromTrash_data _ _ u) by exact E.
      unfold with_deleted. simpl. now rewrite filter_filter_same.
  - intros t ui Hf. unfold Index.handleRestore. rewrite Hf.
    unfold Client.restoreFromTrash, Db.delete_deleted.
    cbn [Index.id Index.ofTrashItem].
    now rewrite trash_entry_id_no_uuid.
Qed.

Lemma restoreFromTrash_is_scoped_witness :
  (exists st',
      Client.restoreFromTrash Demo.alice (Marker.id Demo.resume_marker)
        Demo.trashed = Data st'
      /\ deleted_documents st' = [])
  /\ Index.toast_of
       (Index.handleRestore (Some Demo.alice) (Index.id Demo.trashed_document)
          {| Index.documents := []; Index.trashDocs := [Demo.trashed_document];
             Index.selectedCategory := "trash" |} Demo.trashed)
     = Some "Restore failed".
Proof.
  destruct (restoreFromTrash_is_scoped Demo.alice (Marker.id Demo.resume_marker)
              Demo.trashed) as (_ & Hok & _).
  destruct (Hok (Marker.id Demo.resume_marker) eq_refl)
    as (st' & Hr & _ & _ & _ & _).
  split.
  - exists st'. split; [exact Hr|].
    vm_compute in Hr. inversion Hr. reflexivity.
  - destruct (restoreFromTrash_is_scoped Demo.alice "" Demo.trashed)
      as (_ & _ & Hpage).
    assert (Hfind : Index.find_doc
                      (Index.id (Index.ofTrashItem
                                   (Client.trashItem Demo.alice Demo.resume_marker)))
                      (Index.trashDocs
                         {| Index.documents := [];
                            Index.trashDocs := [Demo.trashed_document];
                            Index.selectedCategory := "trash" |})
                    = Some (Index.ofTrashItem
                              (Client.trashItem Demo.alice Demo.resume_marker)))
      by (vm_compute; reflexivity).
    exact (f_equal Index.toast_of (Hpage _ _ Hfind)).
Defined.

(** [deletePermanent] succeeds exactly when [documentId] reads as a
    [uuid] and one marker row carries that id and belongs to the user. *)
Lemma deletePermanent_succeeds_iff (storageError : option string)
    (userId documentId : string) (st : Backend) :
  (exists st', Client.deletePermanent storageError userId documentId st
               = Data st') <->
  exists u m,
    Db.uuid_in documentId = Some u
    /\ List.filter (Db.is_row u userId) (deleted_documents st) = [m].
Proof.
  unfold Client.deletePermanent, Db.select_deleted_single, Db.delete_deleted.
  destruct (Db.uuid_in documentId) as [u|].
  - destruct (List.filter (Db.is_row u userId) (deleted_documents st))
      as [|m [|m' l]] eqn:Ef; simpl; split;
      try (intros [x H]; discriminate);
      try (intros (u' & m0 & Hu & H); inversion Hu; subst u';
           rewrite Ef in H; discriminate).
    + intros _. eauto.
    + intros _. destruct storageError; eauto.
  - split; [intros [x H]; discriminate | intros (u & m & H & _); discriminate].
Qed.

(** X4: when [deletePermanent] succeeds, the id it was given reads as a
    [uuid] and a marker row of the user had it; afterwards the rows with
    that id and user are gone, every other row is still there and the
    shares are untouched.  The object [{userId}/{document_name}] is gone
    and every other object is still there when the storage service
    carried the removal out; where it did not, the store is as it was,
    and [deletePermanent] succeeds all the same. *)
Theorem deletePermanent_effect :
  forall (storageError : option string) (userId documentId : string)
         (st st' : Backend),
    Client.deletePermanent storageError userId documentId st = Data st' ->
    exists u m,
      Db.uuid_in documentId = Some u
      /\ In m (deleted_documents st)
      /\ Marker.id m = u
      /\ Marker.user_id m = userId
      /\ (forall x, In x (deleted_documents st') <->
            In x (deleted_documents st)
            /\ ~ (Marker.id x = u /\ Marker.user_id x = userId))
      /\ (storageError = None ->
          forall so, In so (objects st') <->
            In so (objects st)
            /\ Storage.key so <> userId +:+ "/" +:+ Marker.document_name m)
      /\ (storageError <> None -> objects st' = objects st)
      /\ document_shares st' = document_shares st.
Proof.
  intros storageError userId documentId st st' E.
  unfold Client.deletePermanent, Db.select_deleted_single, Db.delete_deleted in E.
  destruct (Db.uuid_in documentId) as [u|]; [|discriminate].
  destruct (List.filter (Db.is_row u userId) (deleted_documents st))
    as [|m [|m' l]] eqn:Ef; try discriminate.
  assert (Hm : In m (List.filter (Db.is_row u userId)
                       (deleted_documents st))) by (rewrite Ef; now left).
  apply filter_In in Hm as [Hm Hr]. apply is_row_iff in Hr as [Hi Hu].
  assert (Hrows : forall x,
             In x (List.filter (fun m0 => negb (Db.is_row u userId m0))
                     (deleted_documents st)) <->
             In x (deleted_documents st)
             /\ ~ (Marker.id x = u /\ Marker.user_id x = userId)).
  { intros x. rewrite filter_In, negb_true_iff, <- not_true_iff_false.
    now rewrite is_row_iff. }
  exists u, m. split; [reflexivity|].
  split; [exact Hm|]. split; [exact Hi|]. split; [exact Hu|].
  destruct storageError as [e|]; inversion E; subst st'; clear E; simpl.
  - split; [exact Hrows|]. split; [discriminate|].
    split; [reflexivity | reflexivity].
  - split; [exact Hrows|]. split; [|split; [congruence | reflexivity]].
    intros _ so. rewrite In_remove. simpl. split.
    + intros [Hso Hn]. split; [exact Hso|]. intros K. apply Hn. now left.
    + intros [Hso Hk]. split; [exact Hso|]. intros [K|[]]. now apply Hk.
Qed.

Lemma deletePermanent_effect_witness :
  (exists st',
      Client.deletePermanent None Demo.alice (Marker.id Demo.resume_marker)
        Demo.trashed = Data st'
      /\ (forall so, In so (objects st') <->
            In so Demo.store
            /\ Storage.key so <> Demo.alice +:+ "/" +:+ Demo.resume))
  /\ (exists st',
        Client.deletePermanent (Some "403") Demo.alice
          (Marker.id Demo.resume_marker) Demo.trashed = Data st'
        /\ objects st' = Demo.store).
Proof.
  split.
  - eexists. split; [reflexivity|].
    destruct (deletePermanent_effect None Demo.alice
                (Marker.id Demo.resume_marker) Demo.trashed _ eq_refl)
      as (u & m & _ & Hm & _ & _ & _ & Hgone & _).
    destruct Hm as [<-|[]]. exact (Hgone eq_refl).
  - eexists. split; [reflexivity|].
    destruct (deletePermanent_effect (Some "403") Demo.alice
                (Marker.id Demo.resume_marker) Demo.trashed _ eq_refl)
      as (u & m & _ & _ & _ & _ & _ & _ & Hkept & _).
    apply Hkept. discriminate.
Defined.

(** The whole way of a regular document through the trash: the marker
    written by [moveToTrash] is the one row [deletePermanent] then finds. *)
Lemma filter_is_row_fresh (new_id userId : string) (rows : list Marker.t)
    (m : Marker.t) :
  (forall x, In x rows -> Marker.id x <> new_id) ->
  Marker.id m = new_id -> Marker.user_id m = userId ->
  List.filter (Db.is_row new_id userId) (rows ++ [m]) = [m].
Proof.
  intros Hf Hi Hu. rewrite List.filter_app. simpl.
  replace (Db.is_row new_id userId m) with true
    by (symmetry; now apply is_row_iff).
  rewrite filter_none; [reflexivity|].
  intros x Hx. apply not_true_iff_false. rewrite is_row_iff.
  intros [K _]. now apply (Hf x Hx).
Qed.

(** X5: a document that was moved to the trash can always be deleted for
    good with the id of its marker: [deletePermanent] succeeds and the
    marker table is what it was before the document was trashed.  When
    the storage service carries the removal out, the store has lost
    exactly the objects at [{userId}/{filename}], so that nothing is
    stored under that key any more; when it does not, the store is as it
    was, the marker is gone all the same, and the object is no longer
    hidden from the listing. *)
Theorem trash_then_deletePermanent :
  forall (storageError : option string) (new_id : string) (now : Z)
         (userId path : string) (st st1 : Backend),
    Client.moveToTrash new_id now userId path st = Data st1 ->
    exists st2,
      Client.deletePermanent storageError userId new_id st1 = Data st2
      /\ deleted_documents st2 = deleted_documents st
      /\ document_shares st2 = document_shares st
      /\ (storageError = None ->
          objects st2
          = Storage.remove [userId +:+ "/" +:+ Client.filename_of path]
              (objects st)
          /\ Storage.has (userId +:+ "/" +:+ Client.filename_of path)
               (objects st2) = false)
      /\ (storageError <> None -> st2 = st).
Proof.
  intros storageError new_id now userId path st st1 E.
  apply moveToTrash_appends in E as (m & -> & Hi & Hu & Hp & [Hw Hid] & Hf).
  rewrite Hi in Hid.
  unfold Client.deletePermanent, Db.select_deleted_single, Db.delete_deleted.
  rewrite (is_uuid_in _ Hid). simpl.
  rewrite (filter_is_row_fresh _ _ _ _ Hf Hi Hu).
  assert (Hrows : List.filter (fun m0 => negb (Db.is_row new_id userId m0))
                    (deleted_documents st ++ [m]) = deleted_documents st).
  { rewrite List.filter_app. simpl.
    replace (Db.is_row new_id userId m) with true
      by (symmetry; now apply is_row_iff).
    simpl. rewrite app_nil_r. apply forallb_filter_id, forallb_forall.
    intros x Hx. apply negb_true_iff, not_true_iff_false.
    rewrite is_row_iff. intros [K _]. now apply (Hf x Hx). }
  destruct storageError as [e|]; eexists; (split; [reflexivity|]); simpl;
    rewrite Hrows; (split; [reflexivity|]); (split; [reflexivity|]).
  - split; [discriminate|]. intros _. now destruct st.
  - split; [|congruence]. intros _. rewrite Hw, Hp. split; [reflexivity|].
    unfold Storage.has. apply not_true_iff_false. intros K.
    apply existsb_exists in K as (so & Hso & Hk).
    apply In_remove in Hso as [_ Hso]. apply Hso. left.
    apply String.eqb_eq in Hk. now rewrite Hk.
Qed.

Lemma trash_then_deletePermanent_witness :
  (exists st2,
      Client.deletePermanent None Demo.alice (Marker.id Demo.resume_marker)
        Demo.trashed = Data st2
      /\ deleted_documents st2 = []
      /\ Storage.has (Demo.alice +:+ "/" +:+ Client.filename_of Demo.resume)
           (objects st2) = false)
  /\ Client.deletePermanent (Some "403") Demo.alice
       (Marker.id Demo.resume_marker) Demo.trashed = Data Demo.backend.
Proof.
  split.
  - destruct (trash_then_deletePermanent None (Marker.id Demo.resume_marker)
                1700000100000 Demo.alice Demo.resume Demo.backend Demo.trashed
                eq_refl) as (st2 & Hd & Hm & _ & Hgone & _).
    exists st2. split; [exact Hd|]. split; [exact Hm|].
    apply (proj2 (Hgone eq_refl)).
  - destruct (trash_then_deletePermanent (Some "403")
                (Marker.id Demo.resume_marker)
                1700000100000 Demo.alice Demo.resume Demo.backend Demo.trashed
                eq_refl) as (st2 & Hd & _ & _ & _ & Hkept).
    rewrite Hd. f_equal. apply Hkept. discriminate.
Defined.

(** ** The display name in the trash *)

Lemma pop_split_lacks (sep : ascii) (s : string) :
  JS.lacks sep (JS.pop (JS.split sep s)) = true.
Proof.
  apply (split_segments_lack sep s). apply last_In, split_nonempty.
Qed.

Lemma lacks_dot_class (e : string) :
  JS.lacks "." e = true ->
  JS.all_chars (fun c => negb (Ascii.eqb c ".")) e = true.
Proof. intros H. exact H. Qed.

(** X6: the trash listing shows an uploaded document under the name it
    was uploaded with, every character outside [a-zA-Z0-9] rendered as a
    space, whenever the category has no underscore and the file has a
    non-empty extension; where the extension consists of word characters,
    this is the name the active listing showed. *)
Theorem trash_display_name_round_trip :
  forall (now : N) (userId : string) (file : Client.File)
         (name category : string) (m : Marker.t),
    Marker.document_name m = Client.objectName now file name category ->
    JS.lacks "_" category = true ->
    JS.nonempty (Client.fileExt file) = true ->
    TrashItem.name (Client.trashItem userId m)
    = JS.map_chars (fun c => if JS.is_alnum c then c else " "%char) name
    /\ (JS.all_chars JS.is_word (Client.fileExt file) = true ->
        TrashItem.name (Client.trashItem userId m)
        = Client.parsedDisplayName (Marker.document_name m)).
Proof.
  intros now userId file name category m Hn Hc He.
  assert (Hname : Client.trashDisplayName
                    (Client.objectName now file name category)
                  = JS.map_chars (fun c => if JS.is_alnum c then c else " "%char) name).
  { unfold Client.trashDisplayName. rewrite (split_objectName _ _ _ _ Hc).
    pose proof (split_length "_" (JS.sanitize name +:+ "." +:+ Client.fileExt file)) as Hl.
    replace (Nat.leb 3 (length (JS.of_N now :: category
               :: JS.split "_" (JS.sanitize name +:+ "." +:+ Client.fileExt file))))
      with true by (symmetry; apply Nat.leb_le; cbn [length]; lia).
    change (skipn 2 (JS.of_N now :: category
               :: JS.split "_" (JS.sanitize name +:+ "." +:+ Client.fileExt file)))
      with (JS.split "_" (JS.sanitize name +:+ "." +:+ Client.fileExt file)).
    rewrite join_split. unfold JS.strip_extension.
    change ("." +:+ Client.fileExt file) with (String "." (Client.fileExt file)).
    rewrite strip_dot_suffix_app; auto using sanitize_lacks_dot.
    - apply underscores_to_spaces_sanitize.
    - apply lacks_dot_class. unfold Client.fileExt. apply pop_split_lacks. }
  simpl. rewrite Hn. split; [exact Hname|].
  intros Hw. rewrite Hname. symmetry.
  now apply parsedDisplayName_objectName.
Qed.

Lemma trash_display_name_round_trip_witness :
  TrashItem.name (Client.trashItem Demo.alice Demo.resume_marker)
  = "Resume 2024".
Proof.
  refine (eq_trans
            (proj1 (trash_display_name_round_trip 1700000000000 Demo.alice
                      Demo.resume_file "Resume_2024" "education"
                      Demo.resume_marker _ _ _)) _).
  - vm_compute. reflexivity.
  - vm_compute. reflexivity.
  - vm_compute. reflexivity.
  - vm_compute. reflexivity.
Defined.

(** ** Upload and the listing *)


(** X7: after a successful upload of a non-empty file whose category and
    extension have no slash and whose stored name does not contain
    [_trash_], the document is in the listing, provided no marker of the
    user names it: with the stored name as path, the size of the file,
    and the category "private" if it was uploaded as private; a document
    that is not private is the first entry. *)
Theorem upload_then_listed :
  forall (now : N) (userId : string) (file : Client.File)
         (name category : string) (isPrivate : bool)
         (st st' : Backend) (up : Client.Uploaded),
    Client.uploadDocument now userId file name category isPrivate st
    = Data (up, st') ->
    0 < Client.file_size file ->
    JS.lacks "/" category = true ->
    JS.lacks "/" (Client.fileExt file) = true ->
    JS.includes (Client.objectName now file name category) "_trash_" = false ->
    ~ Client.marked userId (Client.objectName now file name category) st ->
    let entry :=
      Client.toListed userId
        (Client.tag isPrivate
           {| Storage.name := Client.objectName now file name category;
              Storage.metadata := Some (Client.file_size file) |}) in
    exists docs,
      Client.listUserDocuments userId st' = Data docs
      /\ In entry docs
      /\ Listed.path entry = Client.objectName now file name category
      /\ Listed.size entry = Client.file_size file
      /\ (isPrivate = true -> Listed.category entry = "private")
      /\ (isPrivate = false -> exists rest, docs = entry :: rest).
Proof.
  intros now userId file name category isPrivate st st' up E Hs Hc He Ht Hm entry.
  apply uploadDocument_inv in E as (Hh & _ & ->).
  destruct (stored_upload_listed now userId file name category isPrivate st
              Hh Hs Hc He Ht Hm) as (docs & Hl & Hin & Hfirst).
  exists docs. split; [exact Hl|]. split; [exact Hin|].
  split; [reflexivity|]. split; [reflexivity|]. split; [|exact Hfirst].
  intros ->. reflexivity.
Qed.

Lemma upload_then_listed_witness :
  exists docs,
    Client.listUserDocuments Demo.alice
      (with_objects
         [ {| Storage.key := "3d6f7a10-8c2b-4e59-a1d7-5b90c4e2f681/1700000000000_education_Resume_2024.pdf";
              Storage.bytes := 2048 |} ] Demo.empty) = Data docs
    /\ In (Client.toListed Demo.alice Demo.regular_object) docs.
Proof.
  destruct (upload_then_listed 1700000000000 Demo.alice Demo.resume_file
              "Resume_2024" "education" false Demo.empty
              (with_objects
                 [ {| Storage.key := "3d6f7a10-8c2b-4e59-a1d7-5b90c4e2f681/1700000000000_education_Resume_2024.pdf";
                      Storage.bytes := 2048 |} ] Demo.empty)
              {| Client.publicUrl :=
                   Storage.getPublicUrl
                     "3d6f7a10-8c2b-4e59-a1d7-5b90c4e2f681/1700000000000_education_Resume_2024.pdf";
                 Client.path := "3d6f7a10-8c2b-4e59-a1d7-5b90c4e2f681/1700000000000_education_Resume_2024.pdf" |})
    as (docs & Hl & Hin & _).
  - vm_compute. reflexivity.
  - vm_compute. reflexivity.
  - vm_compute. reflexivity.
  - vm_compute. reflexivity.
  - vm_compute. reflexivity.
  - intros (m & [] & _).
  - exists docs. split; [exact Hl | exact Hin].
Defined.

(** X8: the listing drops every object whose name contains [_trash_].
    So a document whose name, once sanitised, contains that run, such as
    one called "my trash list", is stored by the upload but is never
    listed, whatever else the store and the tables hold. *)
Theorem trash_word_hides_document :
  forall (now : N) (userId : string) (file : Client.File)
         (name category : string) (st : Backend) (docs : list Listed.t)
         (d : Listed.t),
    JS.includes (JS.sanitize name) "_trash_" = true ->
    Client.listUserDocuments userId st = Data docs ->
    In d docs ->
    JS.includes (Listed.path d) "_trash_" = false
    /\ Listed.path d <> Client.objectName now file name category.
Proof.
  intros now userId file name category st docs d Hn Hl Hd.
  apply (In_listUserDocuments _ _ _ _ Hl) in Hd as (o & _ & Hp & _ & ->).
  unfold Client.present in Hp. apply andb_true_iff in Hp as [_ Hp].
  apply negb_true_iff in Hp. simpl. split; [exact Hp|].
  intros E. rewrite E in Hp.
  assert (K : JS.includes (Client.objectName now file name category) "_trash_"
              = true); [|congruence].
  unfold Client.objectName. do 4 apply includes_app_r.
  now apply includes_app_l.
Qed.

Lemma trash_word_hides_document_witness :
  match Client.uploadDocument 1700000000000 Demo.alice
          {| Client.file_name := "list.pdf"; Client.file_size := 10 |}
          "my trash list" "other" false Demo.empty with
  | Failure _ => False
  | Data (up, st) =>
      Storage.has "3d6f7a10-8c2b-4e59-a1d7-5b90c4e2f681/1700000000000_other_my_trash_list.pdf" (objects st)
      = true
      /\ forall docs d,
           Client.listUserDocuments Demo.alice st = Data docs -> In d docs ->
           JS.includes (Listed.path d) "_trash_" = false
           /\ Listed.path d
              <> Client.objectName 1700000000000
                   {| Client.file_name := "list.pdf"; Client.file_size := 10 |}
                   "my trash list" "other"
  end.
Proof.
  vm_compute Client.uploadDocument. split; [vm_compute; reflexivity|].
  intros docs d Hl Hd.
  eapply (trash_word_hides_document 1700000000000 Demo.alice
            {| Client.file_name := "list.pdf"; Client.file_size := 10 |}
            "my trash list" "other");
    [vm_compute; reflexivity | exact Hl | exact Hd].
Defined.


(** X9: [moveToTrash] takes the full storage path as well as the bare
    file name.  Given the path [uploadDocument] returned, it records the
    bare file name: the next listing has no entry for the document, and
    the trash listing has an entry for it whose path is the full path. *)
Theorem uploaded_then_trashed_by_full_path :
  forall (now : N) (userId : string) (file : Client.File)
         (name category : string) (st st1 st2 : Backend)
         (up : Client.Uploaded) (new_id : string) (at_ : Z),
    JS.lacks "/" category = true ->
    JS.lacks "/" (Client.fileExt file) = true ->
    Client.uploadDocument now userId file name category false st
    = Data (up, st1) ->
    Client.moveToTrash new_id at_ userId (Client.path up) st1 = Data st2 ->
    Client.path up
    = userId +:+ "/" +:+ Client.objectName now file name category
    /\ (forall docs d,
          Client.listUserDocuments userId st2 = Data docs -> In d docs ->
          Listed.path d <> Client.objectName now file name category)
    /\ exists trash t,
         Client.listUserTrash userId st2 = Data trash
         /\ In t trash
         /\ TrashItem.id t = new_id
         /\ TrashItem.path t = Client.path up.
Proof.
  intros now userId file name category st st1 st2 up new_id at_ Hc He Eu Et.
  pose proof (objectName_lacks_slash now file name _ Hc He) as Hl.
  unfold Client.uploadDocument in Eu.
  destruct (Storage.upload _ _ (objects st)) as [objs|]; [|discriminate].
  inversion Eu; subst up st1; clear Eu. cbn [Client.path] in *.
  apply moveToTrash_appends in Et as (m & -> & Hi & Hu & Hp & [Hw _] & _).
  split; [reflexivity|]. split.
  - intros docs d Hd Hin E.
    apply (In_listUserDocuments _ _ _ _ Hd) in Hin as (o & _ & _ & Hn & ->).
    apply Hn. exists m. split; [simpl; apply in_app_iff; right; now left|].
    split; [exact Hu|]. rewrite Hw, Hp. simpl in E. rewrite E.
    unfold Client.filePath. now apply filename_of_full_path.
  - eexists. exists (Client.trashItem userId m).
    split; [apply listUserTrash_data|]. split; [|split].
    + apply in_map. rewrite order_desc_perm. apply filter_In. split.
      * simpl. apply in_app_iff. right. now left.
      * unfold Db.owned. now apply String.eqb_eq.
    + exact Hi.
    + exact Hp.
Qed.

Lemma uploaded_then_trashed_by_full_path_witness :
  let up :=
    {| Client.publicUrl :=
         Storage.getPublicUrl "3d6f7a10-8c2b-4e59-a1d7-5b90c4e2f681/1700000000000_education_Resume_2024.pdf";
       Client.path := "3d6f7a10-8c2b-4e59-a1d7-5b90c4e2f681/1700000000000_education_Resume_2024.pdf" |} in
  let st1 :=
    with_objects
      [ {| Storage.key := "3d6f7a10-8c2b-4e59-a1d7-5b90c4e2f681/1700000000000_education_Resume_2024.pdf";
           Storage.bytes := 2048 |} ] Demo.empty in
  let st2 :=
    with_deleted
      [ {| Marker.id := "6f1c0d1e-0000-4000-8000-000000000001";
           Marker.user_id := Demo.alice;
           Marker.document_path := Client.path up;
           Marker.document_name := Demo.resume;
           Marker.deleted_at := 1700000100000 |} ] st1 in
  Client.listUserDocuments Demo.alice st1
  = Data [Client.toListed Demo.alice Demo.regular_object]
  /\ (forall docs d,
        Client.listUserDocuments Demo.alice st2 = Data docs -> In d docs ->
        Listed.path d <> Demo.resume)
  /\ exists trash t,
       Client.listUserTrash Demo.alice st2 = Data trash
       /\ In t trash
       /\ TrashItem.path t = Client.path up.
Proof.
  intros up st1 st2.
  destruct (uploaded_then_trashed_by_full_path 1700000000000 Demo.alice
              Demo.resume_file "Resume_2024" "education" Demo.empty st1 st2 up
              "6f1c0d1e-0000-4000-8000-000000000001" 1700000100000)
    as (_ & Hl & trash & t & Ht & Hin & _ & Hp).
  - vm_compute. reflexivity.
  - vm_compute. reflexivity.
  - vm_compute. reflexivity.
  - vm_compute. reflexivity.
  - split; [vm_compute; reflexivity|]. split; [exact Hl|].
    exists trash, t. auto.
Defined.

(** ** Creating a share and opening it *)

(** With a fresh token and row id, [handleShare] on a document that is
    not private stores [Sharing.share_row], and the token finds exactly
    that row in the sessions that may see it. *)
Lemma handleShare_stores (shareToken new_id baseUrl : string) (now : Z)
    (userId : string) (document : Index.Document)
    (shareSettings : Index.ShareSettings) (st : Backend) :
  Index.category document <> "private" ->
  Sharing.fresh_share shareToken new_id st ->
  let row := Sharing.share_row shareToken new_id now userId document shareSettings in
  let st' := with_shares (document_shares st ++ [row]) st in
  Index.handleShare shareToken new_id baseUrl now (Some userId) document
    shareSettings st
  = (Data (baseUrl +:+ "/shared/" +:+ shareToken), st')
  /\ forall viewer db_now,
       Db.select_shares viewer db_now shareToken st'
       = Data (if Db.visible viewer db_now row then [row] else []).
Proof.
  intros Hc Hf row st'. split.
  - unfold Index.handleShare.
    destruct (String.eqb (Index.category document) "private") eqn:Ec;
      [apply String.eqb_eq in Ec; contradiction|].
    unfold Db.insert_share. fold (Sharing.share_row shareToken new_id now userId
                                    document shareSettings).
    rewrite existsb_false; [reflexivity|].
    intros r Hr. destruct (Hf r Hr) as [Hi Ht].
    unfold Db.share_conflicts. simpl.
    apply String.eqb_neq in Hi, Ht. now rewrite Hi, Ht.
  - intros viewer db_now. unfold Db.select_shares. f_equal. subst st'. simpl.
    rewrite List.filter_app. simpl. unfold Db.has_token at 2. simpl.
    rewrite String.eqb_refl, filter_none.
    + simpl. now destruct (Db.visible viewer db_now row).
    + intros r Hr. destruct (Hf r Hr) as [_ Ht].
      unfold Db.has_token. apply String.eqb_neq in Ht. now rewrite Ht.
Qed.

Lemma resolve_expired_public (viewer : option string) (now : Z) (r : Share.t)
    (p : SharedDocument.Page) (st : Backend) :
  Share.is_public r = true -> SharedDocument.hasExpired now r = true ->
  SharedDocument.resolve viewer now r p st
  = (SharedDocument.setError SharedDocument.expired p, st).
Proof. unfold SharedDocument.resolve. now intros -> ->. Qed.

(** What an unknown token comes to, and a token whose row the session
    may not see. *)
Lemma loadSharedDocument_unknown (viewer : option string) (db_now now : Z)
    (token : string) (p : SharedDocument.Page) (st : Backend) :
  Db.select_shares viewer db_now token st = Data [] ->
  SharedDocument.loadSharedDocument viewer db_now now token p st
  = (SharedDocument.setLoading false
       (SharedDocument.setError SharedDocument.not_found
          (SharedDocument.setLoading true p)), st).
Proof.
  unfold Db.select_shares. intros E. inversion E as [E']; clear E.
  unfold SharedDocument.loadSharedDocument, SharedDocument.loadSharedDocument_on,
    Db.select_share_single, Db.select_shares.
  now rewrite E'.
Qed.


Lemma own_share_iff (viewer : option string) (r : Share.t) :
  Db.own_share viewer r = true <-> viewer = Some (Share.user_id r).
Proof.
  unfold Db.own_share. destruct viewer as [uid|]; [|split; discriminate].
  rewrite String.eqb_eq. split; congruence.
Qed.

(** The page never shows a document where [resolve] is not reached or
    ends in an error. *)
Lemma resolve_error_cases (viewer : option string) (now : Z) (r : Share.t)
    (st : Backend) :
  let p := fst (SharedDocument.resolve viewer now r
                  (SharedDocument.setLoading true SharedDocument.initial) st) in
  Share.is_public r = true ->
  SharedDocument.hasExpired now r = false ->
  SharedDocument.error p <> SharedDocument.expired
  /\ SharedDocument.error p <> SharedDocument.not_found.
Proof.
  intros p Hpub Hexp. subst p. unfold SharedDocument.resolve.
  rewrite Hpub, Hexp. cbn [negb].
  destruct (JS.truthy (Share.password_hash r)); [split; discriminate|].
  destruct (loadDocument_cases viewer r
              (SharedDocument.setLoading true SharedDocument.initial) st)
    as [->|(u & _ & ->)]; split; discriminate.
Qed.

(** The expiry [handleShare] stores is [null] or [now] plus the hours. *)
Lemma expiresAt_cases (now h : Z) :
  Index.expiresAt now h = None
  \/ (0 < h /\ Index.expiresAt now h = Some (now + h * 60 * 60 * 1000)).
Proof.
  unfold Index.expiresAt, JS.date.
  destruct (0 <? h) eqn:E; [|now left].
  destruct (Z.abs _ <=? 8640000000000000); [right; split; [lia | reflexivity]
                                          | now left].
Qed.

(** A public row that [handleShare] wrote is seen by its owner, and by
    every session while the clock of the database is before its expiry;
    the page does not take it for expired up to its expiry. *)
Lemma share_row_open (shareToken new_id : string) (now : Z) (userId : string)
    (document : Index.Document) (shareSettings : Index.ShareSettings)
    (viewer : option string) (db_now t : Z) :
  let row := Sharing.share_row shareToken new_id now userId document
               shareSettings in
  let e := now + Index.expiresIn shareSettings * 60 * 60 * 1000 in
  Index.isPublic shareSettings = true ->
  (0 < Index.expiresIn shareSettings ->
   t <= e /\ (viewer = Some userId \/ db_now < e)) ->
  Db.visible viewer db_now row = true
  /\ SharedDocument.hasExpired t row = false.
Proof.
  intros row e Hpub Ht.
  assert (Hrow : Share.is_public row = true) by exact Hpub.
  assert (He : Share.expires_at row
               = Index.expiresAt now (Index.expiresIn shareSettings))
    by reflexivity.
  unfold Db.visible, Db.public_share, SharedDocument.hasExpired.
  rewrite Hrow, He.
  destruct (expiresAt_cases now (Index.expiresIn shareSettings))
    as [->|[Hpos ->]].
  - split; [apply orb_true_r | reflexivity].
  - destruct (Ht Hpos) as [Hle Hv]. fold e. split; [|lia].
    destruct Hv as [->|Hlt].
    + unfold Db.own_share. change (Share.user_id row) with userId.
      now rewrite String.eqb_refl.
    + apply orb_true_iff. right. simpl. lia.
Qed.

(** X10: take a public share created at a time [now] that is not
    negative, with [expiresIn = h > 0] and an expiry [e], [now] plus [h]
    hours, within the range of [Date].  In the session of its owner the
    link is refused as expired at exactly the browser times later than
    [e].  In another session the row is hidden from the time [e] of the
    database on, and the page ends in "Share link not found"; while the
    row is visible, the page again reports the expiry exactly at the
    browser times later than [e].  No session sees the document once its
    browser time is later than [e]. *)
Theorem share_expires_after_its_hours :
  forall (shareToken new_id baseUrl : string) (now : Z) (userId : string)
         (document : Index.Document) (shareSettings : Index.ShareSettings)
         (st : Backend),
    Index.category document <> "private" ->
    Sharing.fresh_share shareToken new_id st ->
    Index.isPublic shareSettings = true ->
    0 < Index.expiresIn shareSettings ->
    0 <= now ->
    now + Index.expiresIn shareSettings * 60 * 60 * 1000 <= 8640000000000000 ->
    let e := now + Index.expiresIn shareSettings * 60 * 60 * 1000 in
    exists st',
      Index.handleShare shareToken new_id baseUrl now (Some userId) document
        shareSettings st
      = (Data (baseUrl +:+ "/shared/" +:+ shareToken), st')
      /\ forall (viewer : option string) (db_now t : Z),
           let p := fst (SharedDocument.loadSharedDocument viewer db_now t
                           shareToken SharedDocument.initial st') in
           (SharedDocument.error p = SharedDocument.expired
            <-> e < t /\ (viewer = Some userId \/ db_now < e))
           /\ (SharedDocument.error p = SharedDocument.not_found
               <-> viewer <> Some userId /\ e <= db_now)
           /\ (e < t -> SharedDocument.documentUrl p = EmptyString).
Proof.
  intros shareToken new_id baseUrl now userId document shareSettings st
    Hc Hf Hpub Hpos Hnow Hrange e.
  destruct (handleShare_stores shareToken new_id baseUrl now userId document
              shareSettings st Hc Hf) as [Hs Hsel].
  eexists. split; [exact Hs|]. intros viewer db_now t p. subst p.
  set (row := Sharing.share_row shareToken new_id now userId document
                shareSettings) in *.
  assert (He : Share.expires_at row = Some e).
  { unfold row, Sharing.share_row, Index.expiresAt, JS.date. simpl.
    replace (0 <? Index.expiresIn shareSettings) with true by (symmetry; lia).
    fold e. replace (Z.abs e <=? 8640000000000000) with true; [reflexivity|].
    symmetry. apply Z.leb_le. subst e. lia. }
  assert (Hx : SharedDocument.hasExpired t row = true <-> e < t).
  { unfold SharedDocument.hasExpired. rewrite He. lia. }
  assert (Hown : Db.own_share viewer row = true <-> viewer = Some userId).
  { apply own_share_iff. }
  assert (Hp : Db.public_share db_now row = true <-> db_now < e).
  { unfold Db.public_share. rewrite He.
    replace (Share.is_public row) with true by (symmetry; exact Hpub).
    simpl. lia. }
  specialize (Hsel viewer db_now).
  destruct (Db.visible viewer db_now row) eqn:Ev.
  - assert (Hv : viewer = Some userId \/ db_now < e).
    { unfold Db.visible in Ev. apply orb_true_iff in Ev as [Ev|Ev];
        [left; now apply Hown | right; now apply Hp]. }
    rewrite (loadSharedDocument_found _ _ _ _ _ _ _ _ Hsel).
    destruct (SharedDocument.hasExpired t row) eqn:Ex.
    + assert (Hlt : e < t) by now apply Hx.
      rewrite resolve_expired_public; [|exact Hpub | exact Ex]. simpl.
      split; [|split].
      * split; [intros _; auto | reflexivity].
      * split; [discriminate|]. intros [Hn Hle]. destruct Hv; [contradiction|lia].
      * reflexivity.
    + assert (Hge : ~ e < t).
      { intros K. apply Hx in K. congruence. }
      destruct (resolve_error_cases viewer t row
                  (with_shares (document_shares st ++ [row]) st) Hpub Ex)
        as [H1 H2].
      cbn [fst SharedDocument.error SharedDocument.setLoading] in *.
      split; [|split].
      * split; [intros K; now contradiction H1 | intros [K _]; contradiction].
      * split; [intros K; now contradiction H2|].
        intros [Hn Hle]. destruct Hv; [contradiction|lia].
      * intros K. contradiction.
  - assert (Hn : viewer <> Some userId /\ e <= db_now).
    { unfold Db.visible in Ev. apply orb_false_iff in Ev as [E1 E2]. split.
      - intros K. apply Hown in K. congruence.
      - destruct (Z.lt_ge_cases db_now e) as [K|K]; [|exact K].
        apply Hp in K. congruence. }
    rewrite (loadSharedDocument_unknown _ _ _ _ _ _ Hsel). simpl.
    split; [|split].
    + split; [discriminate|]. intros [_ [K|K]]; [now destruct Hn | lia].
    + split; [intros _; exact Hn | reflexivity].
    + reflexivity.
Qed.

Lemma share_expires_after_its_hours_witness :
  exists st',
    Index.handleShare "tok-1" "row-1" "https://digi-locker.vercel.app"
      1700000200000 (Some Demo.alice) Demo.regular_document
      (Demo.settings 24 None) Demo.backend
    = (Data ("https://digi-locker.vercel.app" +:+ "/shared/" +:+ "tok-1"), st')
    /\ forall (viewer : option string) (db_now t : Z),
         let p := fst (SharedDocument.loadSharedDocument viewer db_now t
                         "tok-1" SharedDocument.initial st') in
         (SharedDocument.error p = SharedDocument.expired
          <-> 1700000200000 + 24 * 60 * 60 * 1000 < t
              /\ (viewer = Some Demo.alice
                  \/ db_now < 1700000200000 + 24 * 60 * 60 * 1000))
         /\ (SharedDocument.error p = SharedDocument.not_found
             <-> viewer <> Some Demo.alice
                 /\ 1700000200000 + 24 * 60 * 60 * 1000 <= db_now)
         /\ (1700000200000 + 24 * 60 * 60 * 1000 < t ->
             SharedDocument.documentUrl p = EmptyString).
Proof.
  apply (share_expires_after_its_hours "tok-1" "row-1"
           "https://digi-locker.vercel.app" 1700000200000 Demo.alice
           Demo.regular_document (Demo.settings 24 None) Demo.backend).
  - vm_compute. discriminate.
  - intros r [].
  - reflexivity.
  - reflexivity.
  - lia.
  - vm_compute. discriminate.
Defined.

(** X11: [handleShare] returns a link also when [isPublic] is off, but
    that link never opens.  In the session of the owner resolution ends
    with the refusal of a non-public document; every other session does
    not see the row and ends in "Share link not found".  In either case
    there is no document URL and no record on the page, the backend is
    untouched, and no password does anything afterwards. *)
Theorem non_public_share_never_opens :
  forall (shareToken new_id baseUrl : string) (now : Z) (userId : string)
         (document : Index.Document) (shareSettings : Index.ShareSettings)
         (st : Backend),
    Index.category document <> "private" ->
    Sharing.fresh_share shareToken new_id st ->
    Index.isPublic shareSettings = false ->
    exists st',
      Index.handleShare shareToken new_id baseUrl now (Some userId) document
        shareSettings st
      = (Data (baseUrl +:+ "/shared/" +:+ shareToken), st')
      /\ forall (viewer : option string) (db_now t : Z),
           let p := fst (SharedDocument.loadSharedDocument viewer db_now t
                           shareToken SharedDocument.initial st') in
           (viewer = Some userId ->
            SharedDocument.error p = SharedDocument.not_public)
           /\ (viewer <> Some userId ->
               SharedDocument.error p = SharedDocument.not_found)
           /\ SharedDocument.documentUrl p = EmptyString
           /\ SharedDocument.shareData p = None
           /\ snd (SharedDocument.loadSharedDocument viewer db_now t shareToken
                     SharedDocument.initial st') = st'
           /\ forall viewer2 password st2,
                SharedDocument.verifyPassword viewer2 password p st2
                = (p, st2, None).
Proof.
  intros shareToken new_id baseUrl now userId document shareSettings st
    Hc Hf Hpub.
  destruct (handleShare_stores shareToken new_id baseUrl now userId document
              shareSettings st Hc Hf) as [Hs Hsel].
  eexists. split; [exact Hs|]. intros viewer db_now t p. subst p.
  set (row := Sharing.share_row shareToken new_id now userId document
                shareSettings) in *.
  assert (Hrow : Share.is_public row = false) by exact Hpub.
  assert (Hv : Db.visible viewer db_now row = Db.own_share viewer row).
  { unfold Db.visible, Db.public_share. rewrite Hrow. apply orb_false_r. }
  specialize (Hsel viewer db_now). rewrite Hv in Hsel.
  destruct (Db.own_share viewer row) eqn:Eo.
  - apply own_share_iff in Eo.
    rewrite (loadSharedDocument_found _ _ _ _ _ _ _ _ Hsel).
    unfold SharedDocument.resolve. rewrite Hrow. simpl.
    repeat split. intros K. contradiction.
  - assert (Hn : viewer <> Some userId).
    { intros K. apply (own_share_iff viewer row) in K. congruence. }
    rewrite (loadSharedDocument_unknown _ _ _ _ _ _ Hsel). simpl.
    repeat split. intros K. contradiction.
Qed.

Lemma non_public_share_never_opens_witness :
  exists st',
    Index.handleShare "tok-1" "row-1" "https://digi-locker.vercel.app"
      1700000200000 (Some Demo.alice) Demo.regular_document
      {| Index.isPublic := false; Index.expiresIn := 24;
         Index.requiresPassword := false; Index.password := None;
         Index.allowDownload := true |} Demo.backend
    = (Data ("https://digi-locker.vercel.app" +:+ "/shared/" +:+ "tok-1"), st')
    /\ forall (viewer : option string) (db_now t : Z),
         let p := fst (SharedDocument.loadSharedDocument viewer db_now t
                         "tok-1" SharedDocument.initial st') in
         (viewer = Some Demo.alice ->
          SharedDocument.error p = SharedDocument.not_public)
         /\ (viewer <> Some Demo.alice ->
             SharedDocument.error p = SharedDocument.not_found)
         /\ SharedDocument.documentUrl p = EmptyString
         /\ SharedDocument.shareData p = None
         /\ snd (SharedDocument.loadSharedDocument viewer db_now t "tok-1"
                   SharedDocument.initial st') = st'
         /\ forall viewer2 password st2,
              SharedDocument.verifyPassword viewer2 password p st2
              = (p, st2, None).
Proof.
  apply (non_public_share_never_opens "tok-1" "row-1"
           "https://digi-locker.vercel.app" 1700000200000 Demo.alice
           Demo.regular_document).
  - vm_compute. discriminate.
  - intros r [].
  - reflexivity.
Defined.




(** ** The expiry text *)

Lemma ceil_div_spec (a b : Z) :
  0 < b ->
  (SharedDocument.ceil_div a b - 1) * b < a <= SharedDocument.ceil_div a b * b.
Proof.
  intros Hb. unfold SharedDocument.ceil_div.
  pose proof (Z.div_mod (- a) b ltac:(lia)) as Hd.
  pose proof (Z.mod_pos_bound (- a) b Hb) as Hm.
  nia.
Qed.

(** X13: for a record with an expiry, the text is "Expires soon" exactly
    when the expiry is not in the future; up to 23 hours ahead it names
    the number of hours, rounded up, between 1 and 23; beyond that it
    names the number of days, rounded up. *)
Theorem expiration_text_rounds_up :
  forall (now : Z) (p : SharedDocument.Page) (r : Share.t) (e : Z),
    SharedDocument.shareData p = Some r ->
    Share.expires_at r = Some e ->
    (SharedDocument.getExpirationText now p = "Expires soon" <-> e <= now)
    /\ (0 < e - now <= 23 * 3600000 ->
        exists h, 1 <= h <= 23
                  /\ (h - 1) * 3600000 < e - now <= h * 3600000
                  /\ SharedDocument.getExpirationText now p
                     = "Expires in " +:+ JS.of_N (Z.to_N h) +:+ " hours")
    /\ (23 * 3600000 < e - now ->
        exists d, 1 <= d
                  /\ (d - 1) * (24 * 3600000) < e - now <= d * (24 * 3600000)
                  /\ SharedDocument.getExpirationText now p
                     = "Expires in " +:+ JS.of_N (Z.to_N d) +:+ " days").
Proof.
  intros now p r e Hp He. unfold SharedDocument.getExpirationText.
  rewrite Hp, He. change (1000 * 60 * 60) with 3600000.
  pose proof (ceil_div_spec (e - now) 3600000 ltac:(lia)) as Hh.
  set (h := SharedDocument.ceil_div (e - now) 3600000) in *.
  pose proof (ceil_div_spec h 24 ltac:(lia)) as Hd.
  set (d := SharedDocument.ceil_div h 24) in *.
  split; [|split].
  - destruct (h <? 1) eqn:E1.
    + split; [intros _; lia | reflexivity].
    + split; [|intros; lia].
      destruct (h <? 24); simpl; discriminate.
  - intros Hr. exists h.
    replace (h <? 1) with false by (symmetry; lia).
    replace (h <? 24) with true by (symmetry; lia).
    repeat split; lia || reflexivity.
  - intros Hr. exists d.
    replace (h <? 1) with false by (symmetry; lia).
    replace (h <? 24) with false by (symmetry; lia).
    repeat split; lia || reflexivity.
Qed.

Lemma expiration_text_rounds_up_witness :
  SharedDocument.getExpirationText 1000
    (SharedDocument.setShareData (Demo.share true (Some 1001) None)
       SharedDocument.initial)
  = "Expires in 1 hours".
Proof.
  destruct (expiration_text_rounds_up 1000
              (SharedDocument.setShareData (Demo.share true (Some 1001) None)
                 SharedDocument.initial)
              (Demo.share true (Some 1001) None) 1001 eq_refl eq_refl)
    as (_ & H & _).
  destruct H as (h & Hb & Hr & Ht); [lia|].
  rewrite Ht. replace h with 1 by lia. vm_compute. reflexivity.
Defined.

Example atob_ex :
  Base64.atob "c2VjcmV0" = Some "secret"
  /\ Base64.atob "YWI=" = Some "ab"
  /\ Base64.atob "YWI" = Some "ab"
  /\ Base64.atob " YQ == " = Some "a"
  /\ Base64.atob "YQ=" = None
  /\ Base64.atob "Y" = None
  /\ Base64.atob "YW-I" = None
  /\ Base64.atob EmptyString = Some EmptyString.
Proof. vm_compute. repeat split. Qed.

Example base64url_ex :
  WebAuthn.toBase64Url "a?b>" = "YT9iPg"
  /\ WebAuthn.toBase64Url
       (String (ascii_of_nat 251) (String (ascii_of_nat 255) EmptyString))
     = "-_8"
  /\ WebAuthn.fromBase64Url "-_8"
     = Some (String (ascii_of_nat 251) (String (ascii_of_nat 255) EmptyString)).
Proof. vm_compute. repeat split. Qed.

(** ** Base64 *)

Lemma string_ind3 (P : string -> Prop) :
  P EmptyString ->
  (forall a, P (String a EmptyString)) ->
  (forall a b, P (String a (String b EmptyString))) ->
  (forall a b c r, P r -> P (String a (String b (String c r)))) ->
  forall s, P s.
Proof.
  intros H0 H1 H2 H3.
  assert (H : forall s, P s /\ (forall a, P (String a s))
                        /\ (forall a b, P (String a (String b s)))).
  { induction s as [|c s (IHa & IHb & IHc)]; [auto|].
    split; [apply IHb|]. split; [intros a; apply IHc|].
    intros a b. now apply H3. }
  intros s. apply H.
Qed.

Lemma btoa_render (s : string) :
  JS.btoa s = Base64Spec.render (Base64Spec.sextets s) +:+ Base64Spec.padding s.
Proof.
  induction s as [|a|a b|a b c r IH] using string_ind3; try reflexivity.
  cbn [JS.btoa Base64Spec.sextets Base64Spec.padding Base64Spec.render app].
  now rewrite IH.
Qed.

Lemma b64_forall (P : ascii -> bool) :
  forallb (fun i => P (JS.b64 (N.of_nat i))) (seq 0 64) = true ->
  forall n, (n < 64)%N -> P (JS.b64 n) = true.
Proof.
  intros H n Hn. rewrite forallb_forall in H.
  specialize (H (N.to_nat n)). rewrite N2Nat.id in H. apply H.
  apply in_seq. lia.
Qed.

Lemma index_b64 (n : N) : (n < 64)%N -> Base64.index (JS.b64 n) = Some n.
Proof.
  intros Hn.
  assert (H : forallb (fun i => match Base64.index (JS.b64 (N.of_nat i)) with
                                | Some j => N.eqb j (N.of_nat i)
                                | None => false
                                end) (seq 0 64) = true)
    by (vm_compute; reflexivity).
  rewrite forallb_forall in H. specialize (H (N.to_nat n)).
  rewrite N2Nat.id in H.
  destruct (Base64.index (JS.b64 n)) as [j|].
  - f_equal. apply N.eqb_eq. apply H. apply in_seq. lia.
  - discriminate H. apply in_seq. lia.
Qed.


Lemma N_of_ascii_bound (a : ascii) : (N_of_ascii a < 256)%N.
Proof. apply N_ascii_bounded. Qed.

Lemma byte_of (a : ascii) (n : N) :
  (n mod 256 = N_of_ascii a)%N -> Base64.byte n = a.
Proof. unfold Base64.byte. intros ->. apply ascii_N_embedding. Qed.

Lemma sextets_bounded (s : string) :
  Forall (fun n => (n < 64)%N) (Base64Spec.sextets s).
Proof.
  induction s as [|a|a b|a b c r IH] using string_ind3;
    cbn [Base64Spec.sextets app]; repeat constructor;
    try (pose proof (N_of_ascii_bound a));
    try (pose proof (N_of_ascii_bound b));
    try (pose proof (N_of_ascii_bound c)); try div_lia.
  exact IH.
Qed.

Lemma decode_sextets (s : string) :
  Base64.decode (Base64Spec.sextets s) = s.
Proof.
  induction s as [|a|a b|a b c r IH] using string_ind3.
  - reflexivity.
  - cbn [Base64Spec.sextets Base64.decode]. f_equal.
    apply byte_of. pose proof (N_of_ascii_bound a). div_lia.
  - cbn [Base64Spec.sextets Base64.decode].
    pose proof (N_of_ascii_bound a). pose proof (N_of_ascii_bound b).
    f_equal; [|f_equal]; apply byte_of; div_lia.
  - cbn [Base64Spec.sextets Base64.decode app]. rewrite IH.
    pose proof (N_of_ascii_bound a). pose proof (N_of_ascii_bound b).
    pose proof (N_of_ascii_bound c).
    f_equal; [|f_equal; [|f_equal]]; apply byte_of; div_lia.
Qed.

Lemma b64_plain (n : N) :
  (n < 64)%N ->
  Ascii.eqb (JS.b64 n) "=" = false
  /\ Base64.is_ascii_whitespace (JS.b64 n) = false
  /\ Ascii.eqb (JS.b64 n) "-" = false
  /\ Ascii.eqb (JS.b64 n) "_" = false.
Proof.
  intros Hn.
  pose proof (b64_forall
    (fun c => negb (Ascii.eqb c "=") && negb (Base64.is_ascii_whitespace c)
              && negb (Ascii.eqb c "-") && negb (Ascii.eqb c "_"))%bool
    ltac:(vm_compute; reflexivity) n Hn) as H.
  cbv beta in H.
  repeat (apply andb_true_iff in H as [H ?]).
  repeat split; now apply negb_true_iff.
Qed.

Lemma indices_render (l : list N) :
  Forall (fun n => (n < 64)%N) l ->
  Base64.indices (Base64Spec.render l) = Some l.
Proof.
  induction 1 as [|n l Hn _ IH]; [reflexivity|].
  cbn [Base64Spec.render Base64.indices].
  now rewrite index_b64, IH.
Qed.

Lemma length_render (l : list N) :
  String.length (Base64Spec.render l) = List.length l.
Proof. induction l as [|n l IH]; [reflexivity|]. cbn. now rewrite IH. Qed.

Lemma mod4_step (n : nat) : (S (S (S (S n))) mod 4 = n mod 4)%nat.
Proof.
  replace (S (S (S (S n)))) with (n + 1 * 4)%nat by lia.
  apply Nat.Div0.mod_add.
Qed.

Lemma string_length_app (a b : string) :
  String.length (a +:+ b) = (String.length a + String.length b)%nat.
Proof. induction a as [|c a IH]; [reflexivity|]. cbn. now rewrite IH. Qed.

Lemma length_sextets_mod4 (s : string) :
  (List.length (Base64Spec.sextets s) mod 4)%nat
  = match (String.length s mod 3)%nat with
    | O => O
    | S O => 2%nat
    | _ => 3%nat
    end.
Proof.
  induction s as [|a|a b|a b c r IH] using string_ind3; try reflexivity.
  cbn [Base64Spec.sextets List.length app String.length].
  rewrite mod4_step, IH.
  replace (S (S (S (String.length r)))) with (String.length r + 1 * 3)%nat by lia.
  now rewrite Nat.Div0.mod_add.
Qed.

Lemma length_padding (s : string) :
  String.length (Base64Spec.padding s)
  = match (String.length s mod 3)%nat with
    | O => O
    | S O => 2%nat
    | _ => 1%nat
    end.
Proof.
  induction s as [|a|a b|a b c r IH] using string_ind3; try reflexivity.
  cbn [Base64Spec.padding String.length]. rewrite IH.
  replace (S (S (S (String.length r)))) with (String.length r + 1 * 3)%nat by lia.
  now rewrite Nat.Div0.mod_add.
Qed.

Lemma padding_cases (s : string) :
  Base64Spec.padding s = EmptyString \/ Base64Spec.padding s = "="
  \/ Base64Spec.padding s = "==".
Proof.
  induction s as [|a|a b|a b c r IH] using string_ind3; cbn; auto.
Qed.

Lemma length_btoa_mod4 (s : string) : (String.length (JS.btoa s) mod 4 = 0)%nat.
Proof.
  rewrite btoa_render, string_length_app, length_render, length_padding.
  rewrite <- Nat.Div0.add_mod_idemp_l, length_sextets_mod4.
  pose proof (Nat.mod_upper_bound (String.length s) 3 ltac:(lia)) as Hb.
  destruct (String.length s mod 3)%nat as [|[|[|k]]]; try reflexivity; lia.
Qed.

Lemma remove_whitespace_render (l : list N) (p : string) :
  Forall (fun n => (n < 64)%N) l ->
  Base64.remove_whitespace (Base64Spec.render l +:+ p)
  = Base64Spec.render l +:+ Base64.remove_whitespace p.
Proof.
  induction 1 as [|n l Hn _ IH]; [reflexivity|].
  cbn [Base64Spec.render String.append Base64.remove_whitespace].
  destruct (b64_plain n Hn) as (_ & -> & _). now rewrite IH.
Qed.

Lemma strip_padding_render (l : list N) (p : string) :
  Forall (fun n => (n < 64)%N) l ->
  p = EmptyString \/ p = "=" \/ p = "==" ->
  Base64.strip_padding (Base64Spec.render l +:+ p) = Base64Spec.render l.
Proof.
  intros Hl Hp. induction Hl as [|n l Hn _ IH].
  - destruct Hp as [->|[->| ->]]; reflexivity.
  - cbn [Base64Spec.render String.append Base64.strip_padding].
    destruct (b64_plain n Hn) as (He & _).
    replace (Base64.is_padding _) with false; [now rewrite IH|].
    unfold Base64.is_padding. cbn [String.eqb]. now rewrite He.
Qed.

(** Decoding undoes encoding: [atob(btoa(s))] is [s], for every string
    of one-byte code units. *)
Lemma atob_btoa (s : string) : Base64.atob (JS.btoa s) = Some s.
Proof.
  unfold Base64.atob.
  pose proof (sextets_bounded s) as Hb.
  assert (Hw : Base64.remove_whitespace (JS.btoa s) = JS.btoa s).
  { rewrite btoa_render, remove_whitespace_render by exact Hb.
    f_equal. destruct (padding_cases s) as [->|[->| ->]]; reflexivity. }
  rewrite Hw, length_btoa_mod4. cbn [Nat.eqb].
  rewrite btoa_render, strip_padding_render by (exact Hb || apply padding_cases).
  rewrite length_render.
  replace (Nat.eqb _ 1) with false.
  - rewrite indices_render by exact Hb. cbn [option_map].
    now rewrite decode_sextets.
  - symmetry. apply Nat.eqb_neq. rewrite length_sextets_mod4.
    destruct (String.length s mod 3)%nat as [|[|k]]; discriminate.
Qed.

Lemma btoa_injective (s t : string) : JS.btoa s = JS.btoa t -> s = t.
Proof.
  intros H. apply (f_equal Base64.atob) in H.
  rewrite !atob_btoa in H. now injection H.
Qed.

(** ** The password of a share *)


(** X14: a public share created with a non-empty password asks for it as
    long as it has not expired, in the session of its owner and in every
    session for which the clock of the database is before the expiry,
    and [verifyPassword] grants access for exactly that password: any
    other candidate leaves the page and the backend as they were. *)
Theorem share_opens_with_its_password_only :
  forall (shareToken new_id baseUrl : string) (now : Z) (userId : string)
         (document : Index.Document) (shareSettings : Index.ShareSettings)
         (st : Backend) (pw : string),
    Index.category document <> "private" ->
    Sharing.fresh_share shareToken new_id st ->
    Index.isPublic shareSettings = true ->
    Index.requiresPassword shareSettings = true ->
    Index.password shareSettings = Some pw ->
    pw <> EmptyString ->
    exists st',
      Index.handleShare shareToken new_id baseUrl now (Some userId) document
        shareSettings st
      = (Data (baseUrl +:+ "/shared/" +:+ shareToken), st')
      /\ forall (viewer : option string) (db_now t : Z),
           (0 < Index.expiresIn shareSettings ->
            t <= now + Index.expiresIn shareSettings * 60 * 60 * 1000
            /\ (viewer = Some userId
                \/ db_now < now + Index.expiresIn shareSettings * 60 * 60 * 1000)) ->
           let p := fst (SharedDocument.loadSharedDocument viewer db_now t
                           shareToken SharedDocument.initial st') in
           SharedDocument.passwordRequired p = true
           /\ SharedDocument.documentUrl p = EmptyString
           /\ forall candidate st2,
                let out := SharedDocument.verifyPassword viewer candidate p st2 in
                (snd out = Some "Access Granted" <-> candidate = pw)
                /\ (candidate <> pw -> fst out = (p, st2)).
Proof.
  intros shareToken new_id baseUrl now userId document shareSettings st pw
    Hc Hf Hpub Hreq Hpw Hne.
  destruct (handleShare_stores shareToken new_id baseUrl now userId document
              shareSettings st Hc Hf) as [Hs Hsel].
  eexists. split; [exact Hs|]. intros viewer db_now t Ht p. subst p.
  destruct (share_row_open shareToken new_id now userId document shareSettings
              viewer db_now t Hpub Ht) as [Hv Hx].
  specialize (Hsel viewer db_now). rewrite Hv in Hsel.
  rewrite (loadSharedDocument_found _ _ _ _ _ _ _ _ Hsel).
  set (row := Sharing.share_row shareToken new_id now userId document shareSettings)
    in *.
  assert (Hh : Share.password_hash row = Some (JS.btoa pw)).
  { unfold row, Sharing.share_row, Index.passwordHash. cbn [Share.password_hash].
    rewrite Hreq, Hpw. cbn [andb]. now rewrite truthy_nonempty. }
  unfold SharedDocument.resolve.
  replace (Share.is_public row) with true by (symmetry; exact Hpub).
  rewrite Hx, Hh, (truthy_nonempty _ (btoa_nonempty _ Hne)).
  cbn [negb fst snd SharedDocument.setLoading SharedDocument.setShareData
       SharedDocument.setPasswordRequired SharedDocument.passwordRequired
       SharedDocument.documentUrl SharedDocument.initial].
  split; [reflexivity|]. split; [reflexivity|].
  intros candidate st2.
  unfold SharedDocument.verifyPassword.
  change (SharedDocument.shareData _) with (Some row). cbv iota.
  destruct candidate as [|c cs];
    [cbn; split; [split; [discriminate | intros <-; now contradiction Hne]
                 | reflexivity]|].
  cbn [JS.nonempty negb]. rewrite Hh.
  destruct (String.eqb (JS.btoa (String c cs)) (JS.btoa pw)) eqn:E.
  - apply String.eqb_eq, btoa_injective in E.
    destruct (SharedDocument.loadDocument _ _ _ _) as [p1 st1]. cbn.
    split; [split; [intros _; exact E | reflexivity]|].
    intros Hn. now contradiction Hn.
  - apply String.eqb_neq in E. cbn.
    split; [|reflexivity].
    split; [discriminate|]. intros Heq. contradiction E. now rewrite Heq.
Qed.

Lemma share_opens_with_its_password_only_witness :
  exists st',
    Index.handleShare "tok-1" "row-1" "https://digi-locker.vercel.app"
      1700000200000 (Some Demo.alice) Demo.regular_document
      (Demo.settings 24 (Some "secret")) Demo.backend
    = (Data ("https://digi-locker.vercel.app" +:+ "/shared/" +:+ "tok-1"), st')
    /\ forall (viewer : option string) (db_now t : Z),
         (0 < 24 ->
          t <= 1700000200000 + 24 * 60 * 60 * 1000
          /\ (viewer = Some Demo.alice
              \/ db_now < 1700000200000 + 24 * 60 * 60 * 1000)) ->
         let p := fst (SharedDocument.loadSharedDocument viewer db_now t "tok-1"
                         SharedDocument.initial st') in
         SharedDocument.passwordRequired p = true
         /\ SharedDocument.documentUrl p = EmptyString
         /\ forall candidate st2,
              let out := SharedDocument.verifyPassword viewer candidate p st2 in
              (snd out = Some "Access Granted" <-> candidate = "secret")
              /\ (candidate <> "secret" -> fst out = (p, st2)).
Proof.
  apply (share_opens_with_its_password_only "tok-1" "row-1"
           "https://digi-locker.vercel.app" 1700000200000 Demo.alice
           Demo.regular_document (Demo.settings 24 (Some "secret"))
           Demo.backend "secret").
  - vm_compute. discriminate.
  - intros r [].
  - reflexivity.
  - reflexivity.
  - reflexivity.
  - discriminate.
Defined.

(** ** base64url *)

Lemma map_chars_app (f : ascii -> ascii) (a b : string) :
  JS.map_chars f (a +:+ b) = JS.map_chars f a +:+ JS.map_chars f b.
Proof. induction a as [|c a IH]; [reflexivity|]. cbn. now rewrite IH. Qed.

Lemma length_map_chars (f : ascii -> ascii) (s : string) :
  String.length (JS.map_chars f s) = String.length s.
Proof. induction s as [|c s IH]; [reflexivity|]. cbn. now rewrite IH. Qed.

Lemma padding_repeat (s : string) :
  Base64Spec.padding s
  = WebAuthn.repeat_equals
      ((4 - List.length (Base64Spec.sextets s) mod 4) mod 4).
Proof.
  induction s as [|a|a b|a b c r IH] using string_ind3; try reflexivity.
  cbn [Base64Spec.padding Base64Spec.sextets List.length app].
  now rewrite mod4_step.
Qed.

Lemma strip_trailing_equals_app (u p : string) :
  JS.lacks "=" u = true ->
  JS.all_chars (fun x => Ascii.eqb x "=") p = true ->
  WebAuthn.strip_trailing_equals (u +:+ p) = u.
Proof.
  intros Hu Hp. induction u as [|c u IH].
  - destruct p as [|x p]; [reflexivity|].
    cbn [String.append WebAuthn.strip_trailing_equals].
    cbn [JS.all_chars] in Hp. apply andb_true_iff in Hp as [-> ->]. reflexivity.
  - cbn [String.append WebAuthn.strip_trailing_equals].
    unfold JS.lacks in Hu. cbn [JS.all_chars] in Hu.
    apply andb_true_iff in Hu as [Hc Hu].
    apply negb_true_iff in Hc. rewrite Hc. cbn [andb].
    now rewrite IH.
Qed.

Lemma replace_replace (a b c d : ascii) (s : string) :
  WebAuthn.replace_char c d (WebAuthn.replace_char a b s)
  = JS.map_chars (fun x => let x1 := if Ascii.eqb x a then b else x in
                           if Ascii.eqb x1 c then d else x1) s.
Proof.
  unfold WebAuthn.replace_char.
  induction s as [|x s IH]; [reflexivity|]. cbn. now rewrite IH.
Qed.

Lemma url_render (l : list N) :
  Forall (fun n => (n < 64)%N) l ->
  JS.lacks "=" (JS.map_chars Base64Spec.url_char (Base64Spec.render l)) = true
  /\ JS.map_chars Base64Spec.std_char (JS.map_chars Base64Spec.url_char (Base64Spec.render l))
     = Base64Spec.render l.
Proof.
  induction 1 as [|n l Hn _ [IH1 IH2]]; [split; reflexivity|].
  pose proof (b64_forall
    (fun c => negb (Ascii.eqb (Base64Spec.url_char c) "=")
              && Ascii.eqb (Base64Spec.std_char (Base64Spec.url_char c)) c)%bool
    ltac:(vm_compute; reflexivity) n Hn) as H.
  cbv beta in H. apply andb_true_iff in H as [H1 H2].
  apply Ascii.eqb_eq in H2.
  cbn [Base64Spec.render JS.map_chars]. split.
  - unfold JS.lacks. cbn [JS.all_chars]. rewrite H1. exact IH1.
  - now rewrite H2, IH2.
Qed.

Lemma padding_all_equals (s : string) :
  JS.all_chars (fun x => Ascii.eqb x "=") (Base64Spec.padding s) = true
  /\ JS.map_chars Base64Spec.url_char (Base64Spec.padding s) = Base64Spec.padding s
  /\ JS.map_chars Base64Spec.std_char (Base64Spec.padding s) = Base64Spec.padding s.
Proof. destruct (padding_cases s) as [->|[->| ->]]; repeat split. Qed.

Lemma toBase64Url_render (buf : string) :
  WebAuthn.toBase64Url buf
  = JS.map_chars Base64Spec.url_char (Base64Spec.render (Base64Spec.sextets buf)).
Proof.
  unfold WebAuthn.toBase64Url.
  rewrite replace_replace. fold Base64Spec.url_char.
  change (JS.map_chars _ (JS.btoa buf)) with (JS.map_chars Base64Spec.url_char (JS.btoa buf)).
  rewrite btoa_render, map_chars_app.
  destruct (padding_all_equals buf) as (Hp & -> & _).
  apply strip_trailing_equals_app; [|exact Hp].
  apply url_render, sextets_bounded.
Qed.

Lemma toBase64Url_alphabet (buf : string) :
  JS.all_chars (fun c => (JS.is_alnum c || Ascii.eqb c "-" || Ascii.eqb c "_")%bool)
    (WebAuthn.toBase64Url buf) = true.
Proof.
  rewrite toBase64Url_render.
  pose proof (sextets_bounded buf) as H.
  induction H as [|n l Hn _ IH]; [reflexivity|].
  cbn [Base64Spec.render JS.map_chars JS.all_chars]. rewrite IH.
  rewrite (b64_forall
    (fun c => (JS.is_alnum (Base64Spec.url_char c)
               || Ascii.eqb (Base64Spec.url_char c) "-"
               || Ascii.eqb (Base64Spec.url_char c) "_")%bool)
    ltac:(vm_compute; reflexivity) n Hn).
  reflexivity.
Qed.

(** X15: the credential id that [registerCredential] stores is read back
    by [authenticateUser] as the bytes it was made from: [fromBase64Url]
    undoes [toBase64Url] on every buffer, and [atob] does not throw on
    what [toBase64Url] wrote, which consists of letters, digits, [-]
    and [_] only. *)
Theorem base64url_round_trip :
  forall buf : string,
    WebAuthn.fromBase64Url (WebAuthn.toBase64Url buf) = Some buf
    /\ JS.all_chars
         (fun c => (JS.is_alnum c || Ascii.eqb c "-" || Ascii.eqb c "_")%bool)
         (WebAuthn.toBase64Url buf) = true.
Proof.
  intros buf. split; [|apply toBase64Url_alphabet].
  rewrite toBase64Url_render. unfold WebAuthn.fromBase64Url.
  rewrite length_map_chars, length_render, <- padding_repeat.
  rewrite replace_replace.
  change (JS.map_chars _ (?x +:+ ?y))
    with (JS.map_chars Base64Spec.std_char (x +:+ y)).
  rewrite map_chars_app.
  destruct (url_render _ (sextets_bounded buf)) as [_ ->].
  destruct (padding_all_equals buf) as (_ & _ & ->).
  rewrite <- btoa_render. apply atob_btoa.
Qed.

(** ** Reading and replacing objects *)

Lemma download_has (path : string) (objs : list Storage.StoredObject) :
  Storage.has path objs = true <-> exists data, Storage.download path objs = Data data.
Proof.
  unfold Storage.has, Storage.download.
  induction objs as [|o r IH]; cbn [existsb List.find].
  - split; [discriminate | intros [data H]; discriminate H].
  - destruct (String.eqb (Storage.key o) path); cbn [orb]; [|exact IH].
    split; eauto.
Qed.

Lemma download_missing (path : string) (objs : list Storage.StoredObject) :
  Storage.has path objs = false ->
  Storage.download path objs = Failure "Object not found".
Proof.
  intros H. destruct (Storage.download path objs) as [data|e] eqn:E.
  - assert (Ht : Storage.has path objs = true) by (apply download_has; eauto).
    congruence.
  - unfold Storage.download in E.
    destruct (List.find _ objs); [discriminate | now inversion E].
Qed.

Lemma download_remove (k p : string) (objs : list Storage.StoredObject) :
  k <> p ->
  Storage.download k (Storage.remove [p] objs) = Storage.download k objs.
Proof.
  intros Hk. unfold Storage.download, Storage.remove.
  assert (E : List.find (fun o => String.eqb (Storage.key o) k)
                (List.filter
                   (fun o => negb (Storage.mem (Storage.key o) [p])) objs)
              = List.find (fun o => String.eqb (Storage.key o) k) objs);
    [|now rewrite E].
  induction objs as [|o r IH]; [reflexivity|].
  cbn [List.filter List.find Storage.mem existsb].
  destruct (String.eqb (Storage.key o) p) eqn:Ep; cbn [orb negb].
  - apply String.eqb_eq in Ep.
    replace (String.eqb (Storage.key o) k) with false; [exact IH|].
    symmetry. apply String.eqb_neq. congruence.
  - cbn [List.find].
    destruct (String.eqb (Storage.key o) k); [reflexivity | exact IH].
Qed.

Lemma has_remove_same (p : string) (objs : list Storage.StoredObject) :
  Storage.has p (Storage.remove [p] objs) = false.
Proof.
  apply has_false_iff. intros o Ho K.
  apply In_remove in Ho as [_ Hn]. apply Hn. now left.
Qed.

Lemma download_upsert_same (p : string) (size : Z)
    (objs : list Storage.StoredObject) :
  Storage.download p (Storage.upsert p size objs) = Data size.
Proof.
  unfold Storage.download, Storage.upsert. cbn [List.find Storage.key].
  now rewrite String.eqb_refl.
Qed.

Lemma download_upsert_other (k p : string) (size : Z)
    (objs : list Storage.StoredObject) :
  k <> p ->
  Storage.download k (Storage.upsert p size objs) = Storage.download k objs.
Proof.
  intros Hk. unfold Storage.upsert.
  rewrite <- (download_remove k p objs Hk).
  unfold Storage.download at 1. cbn [List.find Storage.key].
  replace (String.eqb p k) with false; [reflexivity|].
  symmetry. apply String.eqb_neq. congruence.
Qed.

Lemma has_download_eq (k : string) (a b : list Storage.StoredObject) :
  Storage.download k a = Storage.download k b ->
  Storage.has k a = Storage.has k b.
Proof.
  intros E. destruct (Storage.has k b) eqn:Hb.
  - apply download_has in Hb as [data Hd]. apply download_has.
    exists data. congruence.
  - apply download_missing in Hb. rewrite Hb in E.
    destruct (Storage.has k a) eqn:Ha; [|reflexivity].
    apply download_has in Ha as [data Hd]. congruence.
Qed.

(** ** Renaming *)

Lemma handleRename_missing (uploadError deleteError : option string)
    (userId : string) (document : Index.Document)
    (newName : string) (ui : Index.UI) (st : Backend) :
  Storage.has (userId +:+ "/" +:+ Index.name document) (objects st) = false ->
  Index.handleRename uploadError deleteError (Some userId) document newName ui st
  = {| Index.ui_of := ui; Index.backend_of := st;
       Index.toast_of := Some "Error" |}.
Proof.
  intros H. unfold Index.handleRename. now rewrite (download_missing _ _ H).
Qed.

(** A refused upload is thrown: the handler ends in its [catch]. *)
Lemma handleRename_refused (uploadError deleteError : option string)
    (userId : string) (document : Index.Document)
    (newName : string) (ui : Index.UI) (st : Backend) :
  uploadError <> None ->
  Index.handleRename uploadError deleteError (Some userId) document newName ui st
  = {| Index.ui_of := ui; Index.backend_of := st;
       Index.toast_of := Some "Error" |}.
Proof.
  intros H. unfold Index.handleRename.
  destruct (Storage.download _ _); [|reflexivity].
  destruct uploadError; [reflexivity | contradiction].
Qed.

Lemma handleRename_found (deleteError : option string) (userId : string)
    (document : Index.Document)
    (newName : string) (ui : Index.UI) (st : Backend) (data : Z) :
  Storage.download (userId +:+ "/" +:+ Index.name document) (objects st)
  = Data data ->
  Index.handleRename None deleteError (Some userId) document newName ui st
  = {| Index.ui_of :=
         Index.setDocuments
           (map (Index.renamed document newName (userId +:+ "/" +:+ newName))
              (Index.documents ui)) ui;
       Index.backend_of :=
         with_objects
           (match deleteError with
            | None =>
                Storage.remove [userId +:+ "/" +:+ Index.name document]
                  (Storage.upsert (userId +:+ "/" +:+ newName) data (objects st))
            | Some _ =>
                Storage.upsert (userId +:+ "/" +:+ newName) data (objects st)
            end)
           st;
       Index.toast_of := Some "Document Renamed" |}.
Proof. intros H. unfold Index.handleRename. now rewrite H. Qed.

(** X16: let the object [{userId}/{document.name}] exist and the new name
    differ from the old one.  When the storage service refuses the
    upload, [handleRename] ends with the toast "Error" and changes
    nothing.  When it takes the upload, the toast reports the rename, the
    object is read under the new name (what was stored there before is
    replaced), every key other than the two reads as before and the two
    tables are untouched; nothing is stored under the old name when the
    service carries the removal out, and the object is still read under
    the old name as well when it refuses the removal. *)
Theorem handleRename_moves_object :
  forall (uploadError deleteError : option string) (userId : string)
         (document : Index.Document) (newName : string)
         (ui : Index.UI) (st : Backend) (data : Z),
    Storage.download (userId +:+ "/" +:+ Index.name document) (objects st)
    = Data data ->
    newName <> Index.name document ->
    let out := Index.handleRename uploadError deleteError (Some userId)
                 document newName ui st in
    let st' := Index.backend_of out in
    (uploadError <> None ->
     out = {| Index.ui_of := ui; Index.backend_of := st;
              Index.toast_of := Some "Error" |})
    /\ (uploadError = None ->
        Index.toast_of out = Some "Document Renamed"
        /\ Storage.download (userId +:+ "/" +:+ newName) (objects st')
           = Data data
        /\ (deleteError = None ->
            Storage.has (userId +:+ "/" +:+ Index.name document) (objects st')
            = false)
        /\ (deleteError <> None ->
            Storage.download (userId +:+ "/" +:+ Index.name document)
              (objects st') = Data data)
        /\ (forall k, k <> userId +:+ "/" +:+ Index.name document ->
                      k <> userId +:+ "/" +:+ newName ->
                      Storage.download k (objects st')
                      = Storage.download k (objects st))
        /\ deleted_documents st' = deleted_documents st
        /\ document_shares st' = document_shares st).
Proof.
  intros uploadError deleteError userId document newName ui st data Hd Hn
    out st'. subst out st'.
  split; [now apply handleRename_refused|]. intros ->.
  rewrite (handleRename_found _ _ _ _ _ _ _ Hd).
  cbn [Index.toast_of Index.backend_of with_objects objects deleted_documents
       document_shares].
  assert (Hp : userId +:+ "/" +:+ newName <> userId +:+ "/" +:+ Index.name document).
  { intros E. apply append_inj_r in E. apply Hn.
    change ("/" +:+ newName) with (String "/" newName) in E.
    change ("/" +:+ Index.name document) with (String "/" (Index.name document)) in E.
    now inversion E. }
  split; [reflexivity|].
  destruct deleteError as [e|].
  - split; [apply download_upsert_same|].
    split; [discriminate|]. split.
    { intros _. rewrite download_upsert_other by congruence. exact Hd. }
    split; [|split; reflexivity].
    intros k _ Hk2. now apply download_upsert_other.
  - split.
    { rewrite download_remove by exact Hp. apply download_upsert_same. }
    split; [intros _; apply has_remove_same|].
    split; [intros K; now contradiction K|].
    split; [|split; reflexivity].
    intros k Hk1 Hk2. rewrite download_remove by exact Hk1.
    now apply download_upsert_other.
Qed.

Lemma handleRename_moves_object_witness :
  let document :=
    {| Index.id := Demo.resume; Index.name := Demo.resume;
       Index.category := "education"; Index.url := None;
       Index.path := Some Demo.resume |} in
  let moved := Index.handleRename None None (Some Demo.alice) document
                 "cv.pdf" Demo.ui Demo.backend in
  let copied := Index.handleRename None (Some "403") (Some Demo.alice) document
                  "cv.pdf" Demo.ui Demo.backend in
  (Index.toast_of moved = Some "Document Renamed"
   /\ Storage.download (Demo.alice +:+ "/" +:+ "cv.pdf")
        (objects (Index.backend_of moved)) = Data 2048
   /\ Storage.has (Demo.alice +:+ "/" +:+ Demo.resume)
        (objects (Index.backend_of moved)) = false)
  /\ (Index.toast_of copied = Some "Document Renamed"
      /\ Storage.download (Demo.alice +:+ "/" +:+ Demo.resume)
           (objects (Index.backend_of copied)) = Data 2048)
  /\ Index.handleRename (Some "413") None (Some Demo.alice) document
       "cv.pdf" Demo.ui Demo.backend
     = {| Index.ui_of := Demo.ui; Index.backend_of := Demo.backend;
          Index.toast_of := Some "Error" |}.
Proof.
  intros document moved copied.
  assert (Hd : Storage.download (Demo.alice +:+ "/" +:+ Index.name document)
                 (objects Demo.backend) = Data 2048)
    by (vm_compute; reflexivity).
  assert (Hn : "cv.pdf" <> Index.name document) by (vm_compute; discriminate).
  split; [|split].
  - destruct (handleRename_moves_object None None Demo.alice document "cv.pdf"
                Demo.ui Demo.backend 2048 Hd Hn) as (_ & H).
    destruct (H eq_refl) as (Ht & Hnew & Hgone & _).
    split; [exact Ht|]. split; [exact Hnew | exact (Hgone eq_refl)].
  - destruct (handleRename_moves_object None (Some "403") Demo.alice document
                "cv.pdf" Demo.ui Demo.backend 2048 Hd Hn) as (_ & H).
    destruct (H eq_refl) as (Ht & _ & _ & Hkept & _).
    split; [exact Ht|]. apply Hkept. discriminate.
  - destruct (handleRename_moves_object (Some "413") None Demo.alice document
                "cv.pdf" Demo.ui Demo.backend 2048 Hd Hn) as (H & _).
    apply H. discriminate.
Defined.

Lemma handleRename_same_name (deleteError : option string) (userId : string)
    (document : Index.Document)
    (ui : Index.UI) (st : Backend) (data : Z) :
  Storage.download (userId +:+ "/" +:+ Index.name document) (objects st)
  = Data data ->
  let out := Index.handleRename None deleteError (Some userId) document
               (Index.name document) ui st in
  let st' := Index.backend_of out in
  Index.toast_of out = Some "Document Renamed"
  /\ (deleteError = None ->
      Storage.has (userId +:+ "/" +:+ Index.name document) (objects st') = false)
  /\ (deleteError <> None ->
      Storage.download (userId +:+ "/" +:+ Index.name document) (objects st')
      = Data data)
  /\ (forall k, k <> userId +:+ "/" +:+ Index.name document ->
                Storage.download k (objects st') = Storage.download k (objects st)).
Proof.
  intros Hd out st'. subst out st'.
  rewrite (handleRename_found _ _ _ _ _ _ _ Hd).
  cbn [Index.toast_of Index.backend_of with_objects objects].
  split; [reflexivity|]. destruct deleteError as [e|].
  - split; [discriminate|]. split; [intros _; apply download_upsert_same|].
    intros k Hk. now apply download_upsert_other.
  - split; [intros _; apply has_remove_same|].
    split; [intros K; now contradiction K|].
    intros k Hk. rewrite download_remove by exact Hk.
    now apply download_upsert_other.
Qed.

(** ** The rename dialog *)

Lemma strip_dot_suffix_last (cls : ascii -> bool) (a e : string) :
  cls "."%char = false ->
  JS.nonempty e = true -> JS.all_chars cls e = true ->
  JS.strip_dot_suffix cls (a +:+ String "." e) = a.
Proof.
  intros Hdot Hn He. induction a as [|c a IH].
  - cbn [String.append JS.strip_dot_suffix].
    now rewrite Ascii.eqb_refl, Hn, He.
  - change (String c a +:+ String "." e) with (String c (a +:+ String "." e)).
    cbn [JS.strip_dot_suffix]. rewrite all_chars_app.
    cbn [JS.all_chars]. rewrite Hdot, andb_false_r, !andb_false_r.
    now rewrite IH.
Qed.

Lemma finalName_unedited (document : Index.Document) (stem ext : string) :
  Index.name document = stem +:+ "." +:+ ext ->
  stem <> EmptyString -> JS.trim stem = stem ->
  ext <> EmptyString -> JS.lacks "." ext = true -> JS.lacks "/" ext = true ->
  RenameDialog.finalName document (RenameDialog.nameWithoutExtension document)
  = Some (Index.name document).
Proof.
  intros Hname Hs Ht He Hd Hsl.
  unfold RenameDialog.finalName, RenameDialog.nameWithoutExtension.
  rewrite Hname. change ("." +:+ ext) with (String "." ext).
  unfold JS.strip_file_extension.
  rewrite strip_dot_suffix_last; [|reflexivity|now apply nonempty_true|].
  - rewrite Ht, pop_split_app by exact Hd.
    apply nonempty_true in Hs, He. now rewrite Hs, He.
  - unfold JS.lacks in Hd, Hsl.
    clear - Hd Hsl. induction ext as [|c r IH]; [reflexivity|].
    cbn [JS.all_chars] in *.
    apply andb_true_iff in Hd as [Hc1 Hr1]. apply andb_true_iff in Hsl as [Hc2 Hr2].
    apply negb_true_iff in Hc1, Hc2. rewrite Hc1, Hc2. cbn [orb negb andb].
    now apply IH.
Qed.

(** X17: confirming the rename dialog without editing the proposed name
    deletes the file when the storage service carries out what it is
    asked: for a document named [stem.ext] whose object
    [{userId}/{stem.ext}] exists, the dialog proposes [stem], appends the
    extension again, and [handleRename], given the old name as the new
    one, uploads the object onto itself and then removes it.  The toast
    then reports a rename, nothing is stored under the name afterwards
    and every other key reads as before.  The file survives only when
    the service refuses one of the two calls: a refused upload ends in
    the toast "Error" with the store unchanged, a refused removal leaves
    the object in place under the toast of the rename. *)
Theorem unedited_rename_deletes_object :
  forall (uploadError deleteError : option string) (userId : string)
         (document : Index.Document) (stem ext : string)
         (ui : Index.UI) (st : Backend) (data : Z),
    Index.name document = stem +:+ "." +:+ ext ->
    stem <> EmptyString -> JS.trim stem = stem ->
    ext <> EmptyString -> JS.lacks "." ext = true -> JS.lacks "/" ext = true ->
    Storage.download (userId +:+ "/" +:+ Index.name document) (objects st)
    = Data data ->
    let out := RenameDialog.handleRename uploadError deleteError (Some userId)
                 document (RenameDialog.nameWithoutExtension document) ui st in
    let st' := Index.backend_of out in
    (uploadError <> None ->
     out = {| Index.ui_of := ui; Index.backend_of := st;
              Index.toast_of := Some "Error" |})
    /\ (uploadError = None ->
        Index.toast_of out = Some "Document Renamed"
        /\ (deleteError = None ->
            Storage.has (userId +:+ "/" +:+ Index.name document) (objects st')
            = false)
        /\ (deleteError <> None ->
            Storage.download (userId +:+ "/" +:+ Index.name document)
              (objects st') = Data data)
        /\ (forall k, k <> userId +:+ "/" +:+ Index.name document ->
                      Storage.download k (objects st')
                      = Storage.download k (objects st))).
Proof.
  intros uploadError deleteError userId document stem ext ui st data
    Hname Hs Ht He Hd Hsl Hdl out st'.
  subst out st'. unfold RenameDialog.handleRename.
  rewrite (finalName_unedited document stem ext Hname Hs Ht He Hd Hsl).
  split; [now apply handleRename_refused|]. intros ->.
  exact (handleRename_same_name deleteError userId document ui st data Hdl).
Qed.

Lemma unedited_rename_deletes_object_witness :
  let document :=
    {| Index.id := "report.pdf"; Index.name := "report.pdf";
       Index.category := "other"; Index.url := None;
       Index.path := Some "report.pdf" |} in
  let st := with_objects
              [ {| Storage.key := "3d6f7a10-8c2b-4e59-a1d7-5b90c4e2f681/report.pdf"; Storage.bytes := 10 |} ]
              Demo.empty in
  let out := RenameDialog.handleRename None None (Some "3d6f7a10-8c2b-4e59-a1d7-5b90c4e2f681") document
               (RenameDialog.nameWithoutExtension document) Demo.ui st in
  Index.toast_of out = Some "Document Renamed"
  /\ Storage.has "3d6f7a10-8c2b-4e59-a1d7-5b90c4e2f681/report.pdf" (objects (Index.backend_of out)) = false.
Proof.
  intros document st out.
  destruct (unedited_rename_deletes_object None None "3d6f7a10-8c2b-4e59-a1d7-5b90c4e2f681" document
              "report" "pdf" Demo.ui st 10) as (_ & H);
    try reflexivity; try discriminate.
  destruct (H eq_refl) as (Ht & Hh & _).
  split; [exact Ht | exact (Hh eq_refl)].
Defined.

(** ** Renaming and downloading a listed document *)

Lemma underscores_to_spaces_lacks (s : string) :
  JS.lacks "_" (JS.underscores_to_spaces s) = true.
Proof.
  unfold JS.lacks, JS.underscores_to_spaces.
  induction s as [|c s IH]; [reflexivity|].
  cbn [JS.map_chars JS.all_chars]. rewrite IH, andb_true_r.
  destruct (Ascii.eqb c "_") eqn:E; [reflexivity|]. now rewrite E.
Qed.

Lemma parsed_name_differs (name : string) :
  (3 <= length (JS.split "_" name))%nat ->
  JS.lacks "_" name = false
  /\ JS.lacks "_" (Client.parsedDisplayName name) = true.
Proof.
  intros H. split.
  - destruct (JS.lacks "_" name) eqn:E; [|reflexivity].
    rewrite (split_lacks _ _ E) in H. cbn in H. lia.
  - unfold Client.parsedDisplayName.
    replace (Nat.leb 3 (length (JS.split "_" name))) with true
      by (symmetry; now apply Nat.leb_le).
    apply underscores_to_spaces_lacks.
Qed.

Lemma has_upsert_remove (k old new : string) (data : Z)
    (objs : list Storage.StoredObject) :
  k <> old -> Storage.has k objs = true ->
  Storage.has k (Storage.remove [old] (Storage.upsert new data objs)) = true.
Proof.
  intros Hk Hh.
  rewrite (has_download_eq k _ (Storage.upsert new data objs))
    by now apply download_remove.
  destruct (String.eqb k new) eqn:E.
  - apply String.eqb_eq in E. subst k. apply download_has.
    exists data. apply download_upsert_same.
  - apply String.eqb_neq in E.
    rewrite (has_download_eq k _ objs) by now apply download_upsert_other.
    exact Hh.
Qed.

Lemma has_upsert (k new : string) (data : Z)
    (objs : list Storage.StoredObject) :
  Storage.has k objs = true ->
  Storage.has k (Storage.upsert new data objs) = true.
Proof.
  intros Hh. destruct (String.eqb k new) eqn:E.
  - apply String.eqb_eq in E. subst k. apply download_has.
    exists data. apply download_upsert_same.
  - apply String.eqb_neq in E.
    rewrite (has_download_eq k _ objs) by now apply download_upsert_other.
    exact Hh.
Qed.

(** X18: [handleRename] does not reach the object of a listed document whose
    file name has the form [timestamp_category_name]: the path it reads,
    [{userId}/{display name}], is never the key of that object.  So the
    rename fails with the store unchanged unless some other object is
    stored under the display name, and in no case is the document's own
    object removed, whatever the storage service answers to the upload
    and to the removal. *)
Theorem handleRename_misses_listed_object :
  forall (uploadError deleteError : option string)
         (userId : string) (o : Client.TaggedObject) (newName : string)
         (ui : Index.UI) (st : Backend),
    (3 <= length (JS.split "_" (Client.obj_name o)))%nat ->
    let d := Index.ofListed (Client.toListed userId o) in
    let out := Index.handleRename uploadError deleteError (Some userId) d
                 newName ui st in
    userId +:+ "/" +:+ Index.name d <> Client.fullPath userId o
    /\ (Storage.has (userId +:+ "/" +:+ Index.name d) (objects st) = false ->
        out = {| Index.ui_of := ui; Index.backend_of := st;
                 Index.toast_of := Some "Error" |})
    /\ (Storage.has (Client.fullPath userId o) (objects st) = true ->
        Storage.has (Client.fullPath userId o) (objects (Index.backend_of out))
        = true).
Proof.
  intros uploadError deleteError userId o newName ui st H3 d out.
  destruct (parsed_name_differs _ H3) as [Hn Hd].
  assert (Hne : userId +:+ "/" +:+ Index.name d <> Client.fullPath userId o).
  { subst d. cbn [Index.ofListed Index.name Client.toListed Listed.name].
    unfold Client.fullPath. intros E.
    destruct (Client.isPrivate o); apply append_inj_r in E.
    - change ("/private/" +:+ Client.obj_name o)
        with ("/" +:+ ("private/" +:+ Client.obj_name o)) in E.
      apply (append_inj_r "/") in E. rewrite E, lacks_app, Hn in Hd.
      now rewrite andb_false_r in Hd.
    - apply (append_inj_r "/") in E. rewrite E in Hd. congruence. }
  split; [exact Hne|]. split.
  - intros Hh. subst out. now apply handleRename_missing.
  - intros Hh. subst out.
    destruct (Storage.download (userId +:+ "/" +:+ Index.name d) (objects st))
      as [data|e] eqn:Ed.
    + destruct uploadError as [ue|];
        [rewrite handleRename_refused by discriminate; exact Hh|].
      rewrite (handleRename_found _ _ _ _ _ _ _ Ed).
      cbn [Index.backend_of with_objects objects].
      destruct deleteError as [de|];
        [now apply has_upsert | apply has_upsert_remove; [congruence | exact Hh]].
    + unfold Index.handleRename. rewrite Ed. exact Hh.
Qed.

Lemma handleRename_misses_listed_object_witness :
  Index.handleRename None None (Some Demo.alice) Demo.regular_document "cv.pdf"
    Demo.ui Demo.backend
  = {| Index.ui_of := Demo.ui; Index.backend_of := Demo.backend;
       Index.toast_of := Some "Error" |}.
Proof.
  destruct (handleRename_misses_listed_object None None Demo.alice
              Demo.regular_object
              "cv.pdf" Demo.ui Demo.backend) as (_ & H & _).
  - vm_compute. lia.
  - apply H. vm_compute. reflexivity.
Defined.

Lemma foldered_bare (objs : list Storage.StoredObject) (p : string) :
  Storage.foldered objs -> JS.lacks "/" p = true -> Storage.has p objs = false.
Proof.
  intros Hf Hl. apply has_false_iff. intros o Ho K.
  specialize (Hf o Ho). rewrite K, (includes_sep_lacks _ _ Hl) in Hf.
  discriminate Hf.
Qed.

Lemma listed_path_bare (userId : string) (st : Backend) (docs : list Listed.t)
    (l : Listed.t) :
  Client.listUserDocuments userId st = Data docs -> In l docs ->
  exists o, In o (Client.listed_objects userId st)
            /\ Client.present o = true
            /\ l = Client.toListed userId o
            /\ JS.lacks "/" (Client.obj_name o) = true
            /\ Storage.has (Client.fullPath userId o) (objects st) = true.
Proof.
  intros Hl Hd.
  apply (In_listUserDocuments _ _ _ _ Hl) in Hd as (o & Ho & Hp & _ & ->).
  assert (Hs : (0 <? Client.obj_size o) = true).
  { unfold Client.present in Hp.
    apply andb_true_iff in Hp as [Hp _]. now apply andb_true_iff in Hp as [_ Hp]. }
  destruct (listed_object_stored _ _ _ Ho Hs) as (Hlack & so & Hso & Hk & _).
  exists o. repeat split; auto.
  unfold Storage.has. apply existsb_exists. exists so.
  split; [exact Hso|]. now apply String.eqb_eq.
Qed.

(** [uploadDocument] writes into a folder. *)
Lemma uploadDocument_foldered (now : N) (userId : string) (file : Client.File)
    (name category : string) (isPrivate : bool) (st st' : Backend)
    (up : Client.Uploaded) :
  Client.uploadDocument now userId file name category isPrivate st
  = Data (up, st') ->
  Storage.foldered (objects st) -> Storage.foldered (objects st').
Proof.
  unfold Client.uploadDocument, Storage.upload. intros E Hf.
  destruct (Storage.has _ (objects st)); [discriminate|].
  inversion E; subst up st'; clear E.
  intros o [<-|Ho]; [|now apply Hf].
  cbn [Storage.key]. unfold Client.filePath.
  apply includes_app_r.
  change ("/" +:+ Client.objectName now file name category)
    with (String "/" (Client.objectName now file name category)).
  rewrite includes_cons.
  destruct (Client.objectName now file name category); reflexivity.
Qed.

(** X19: in a store where every object lies in a folder, as all that
    [uploadDocument] writes do, [handleDownload] saves nothing for any
    document of the listing: it asks the store for the bare file name the
    listing gives as [path], under which no object is stored.  Once the
    authentication check is passed the toast says so. *)
Theorem handleDownload_misses_listed_object :
  forall (auth : Index.Authenticator) (userId : string) (st : Backend)
         (docs : list Listed.t) (l : Listed.t),
    Storage.foldered (objects st) ->
    Client.listUserDocuments userId st = Data docs ->
    In l docs ->
    let out := Index.handleDownload auth (Index.ofListed l) st in
    fst out = None
    /\ (fst (Index.requireAuth auth (Index.ofListed l)) = true ->
        snd out = Some "Download failed").
Proof.
  intros auth userId st docs l Hf Hl Hd out. subst out.
  destruct (listed_path_bare _ _ _ _ Hl Hd) as (o & _ & _ & -> & Hb & _).
  unfold Index.handleDownload.
  destruct (Index.requireAuth auth _) as [[|] t]; cbn [fst snd].
  - cbn [Index.ofListed Index.path Client.toListed Listed.path].
    rewrite (download_missing _ _ (foldered_bare _ _ Hf Hb)). auto.
  - split; [reflexivity | discriminate].
Qed.

Lemma handleDownload_misses_listed_object_witness :
  Index.handleDownload
    {| Index.isSupported := false; Index.first_attempt := false;
       Index.second_attempt := false |}
    Demo.regular_document Demo.backend
  = (None, Some "Download failed").
Proof.
  destruct (handleDownload_misses_listed_object
              {| Index.isSupported := false; Index.first_attempt := false;
                 Index.second_attempt := false |}
              Demo.alice Demo.backend
              (Client.data_or_empty (Client.listUserDocuments Demo.alice Demo.backend))
              (Client.toListed Demo.alice Demo.regular_object))
    as [H1 H2].
  - intros o Ho. vm_compute in Ho.
    destruct Ho as [<-|[<-|[]]]; vm_compute; reflexivity.
  - vm_compute. reflexivity.
  - vm_compute. left. reflexivity.
  - specialize (H2 eq_refl). fold Demo.regular_document in H1, H2.
    destruct (Index.handleDownload _ _ _) as [a b]. cbn in *. congruence.
Defined.

(** X20: a private document is saved by [handleDownload] only when the device
    supports the authenticator and one of the two attempts to
    authenticate succeeded; a document of another category is never
    asked for authentication. *)
Theorem private_download_needs_authentication :
  forall (auth : Index.Authenticator) (document : Index.Document)
         (st : Backend),
    (Index.category document = "private" ->
     fst (Index.handleDownload auth document st) <> None ->
     Index.isSupported auth = true
     /\ (Index.first_attempt auth = true \/ Index.second_attempt auth = true))
    /\ (Index.category document <> "private" ->
        Index.requireAuth auth document = (true, None)).
Proof.
  intros auth document st. unfold Index.handleDownload, Index.requireAuth. split.
  - intros -> H. cbn [String.eqb negb] in H.
    change (String.eqb "private" "private") with true in H. cbn [negb] in H.
    destruct (Index.isSupported auth); cbn [negb] in H; [|now contradiction H].
    split; [reflexivity|].
    destruct (Index.first_attempt auth); [now left|].
    destruct (Index.second_attempt auth); [now right|]. now contradiction H.
  - intros H. apply String.eqb_neq in H. now rewrite H.
Qed.

(** ** Sharing and downloading a listed document *)

Lemma includes_nonempty (s sub : string) :
  sub <> EmptyString -> JS.includes s sub = true -> JS.nonempty s = true.
Proof.
  intros Hs H. destruct s; [|reflexivity].
  destruct sub; [contradiction | discriminate H].
Qed.

Lemma strip_leading_slashes_bare (s : string) :
  JS.lacks "/" s = true -> JS.strip_leading_slashes s = s.
Proof.
  unfold JS.lacks. destruct s as [|c r]; [reflexivity|].
  cbn [JS.all_chars JS.strip_leading_slashes].
  intros [Hc _]%andb_true_iff. apply negb_true_iff in Hc. now rewrite Hc.
Qed.

Lemma pop_split_bare (sep : ascii) (s : string) :
  JS.lacks sep s = true -> JS.pop (JS.split sep s) = s.
Proof. intros H. now rewrite (split_lacks _ _ H). Qed.

Lemma createSignedUrl_missing (p : string) (objs : list Storage.StoredObject) :
  Storage.has p objs = false ->
  Storage.createSignedUrl p objs = Failure "Object not found".
Proof. unfold Storage.createSignedUrl. now intros ->. Qed.

(** What [loadDocument] and [downloadDocument] find for a stored path
    that is a bare file name, in a store where every object lies in a
    folder: the object [{user_id}/{path}], by the third path format. *)
Lemma alternativePaths_bare (r : Share.t) (objs : list Storage.StoredObject) :
  Storage.foldered objs ->
  JS.lacks "/" (Share.document_path r) = true ->
  Storage.createSignedUrl (Share.document_path r) objs
  = Failure "Object not found"
  /\ SharedDocument.firstSignedUrl (SharedDocument.alternativePaths r) objs
     = match Storage.createSignedUrl
               (Share.user_id r +:+ "/" +:+ Share.document_path r) objs with
       | Data u => Some u
       | Failure _ => None
       end.
Proof.
  intros Hf Hl.
  pose proof (createSignedUrl_missing _ _ (foldered_bare _ _ Hf Hl)) as Hm.
  split; [exact Hm|].
  unfold SharedDocument.alternativePaths.
  rewrite (strip_leading_slashes_bare _ Hl), (pop_split_bare _ _ Hl).
  cbn [SharedDocument.firstSignedUrl]. now rewrite Hm.
Qed.

(** X21: a share link made for a document of the listing opens only through
    the fallback of [loadDocument]: [handleShare] stores the bare file
    name, for which the store has no object, and the page then finds the
    object by putting the owner's id in front.  For a public share of a
    document that is not private, without password and not yet expired,
    the page shows the signed URL of [{userId}/{path}], in the session of
    the owner and in every session for which the clock of the database
    is before the expiry. *)
Theorem listed_document_share_opens_by_fallback :
  forall (shareToken new_id baseUrl : string) (now : Z) (userId : string)
         (st : Backend) (docs : list Listed.t) (l : Listed.t)
         (shareSettings : Index.ShareSettings)
         (viewer : option string) (db_now t : Z),
    Storage.foldered (objects st) ->
    Client.listUserDocuments userId st = Data docs ->
    In l docs ->
    Listed.category l <> "private" ->
    Sharing.fresh_share shareToken new_id st ->
    Index.isPublic shareSettings = true ->
    Index.requiresPassword shareSettings = false ->
    (0 < Index.expiresIn shareSettings ->
     t <= now + Index.expiresIn shareSettings * 60 * 60 * 1000
     /\ (viewer = Some userId
         \/ db_now < now + Index.expiresIn shareSettings * 60 * 60 * 1000)) ->
    exists st',
      Index.handleShare shareToken new_id baseUrl now (Some userId)
        (Index.ofListed l) shareSettings st
      = (Data (baseUrl +:+ "/shared/" +:+ shareToken), st')
      /\ Storage.createSignedUrl (Listed.path l) (objects st')
         = Failure "Object not found"
      /\ let p := fst (SharedDocument.loadSharedDocument viewer db_now t
                         shareToken SharedDocument.initial st') in
         SharedDocument.documentUrl p
         = "/storage/v1/object/sign/documents/" +:+ userId +:+ "/" +:+ Listed.path l
         /\ SharedDocument.error p = EmptyString.
Proof.
  intros shareToken new_id baseUrl now userId st docs l shareSettings
    viewer db_now t Hf Hl Hd Hc Hfresh Hpub Hreq Ht.
  destruct (listed_path_bare _ _ _ _ Hl Hd) as (o & _ & Hp & -> & Hb & Hs).
  assert (Hpriv : Client.isPrivate o = false).
  { destruct (Client.isPrivate o) eqn:E; [|reflexivity].
    contradiction Hc. cbn [Client.toListed Listed.category]. now rewrite E. }
  assert (Hne : JS.nonempty (Client.obj_name o) = true).
  { unfold Client.present in Hp.
    apply andb_true_iff in Hp as [Hp _]. apply andb_true_iff in Hp as [Hp _].
    apply (includes_nonempty _ "."); [discriminate | exact Hp]. }
  destruct (handleShare_stores shareToken new_id baseUrl now userId
              (Index.ofListed (Client.toListed userId o)) shareSettings st Hc Hfresh)
    as [Hshare Hsel].
  eexists. split; [exact Hshare|].
  cbn [with_shares objects Client.toListed Listed.path].
  set (row := Sharing.share_row shareToken new_id now userId
                (Index.ofListed (Client.toListed userId o)) shareSettings) in *.
  assert (Hpath : Share.document_path row = Client.obj_name o).
  { unfold row, Sharing.share_row.
    cbn [Share.document_path Index.ofListed Index.path Client.toListed
         Listed.path JS.truthy].
    now rewrite Hne. }
  assert (Hl' : JS.lacks "/" (Share.document_path row) = true)
    by now rewrite Hpath.
  destruct (alternativePaths_bare row (objects st) Hf Hl') as [Hm Halt].
  rewrite Hpath in Hm. split; [exact Hm|].
  destruct (share_row_open shareToken new_id now userId
              (Index.ofListed (Client.toListed userId o)) shareSettings
              viewer db_now t Hpub Ht) as [Hv Hx].
  fold row in Hv, Hx.
  specialize (Hsel viewer db_now). rewrite Hv in Hsel.
  rewrite (loadSharedDocument_found _ _ _ _ _ _ _ _ Hsel).
  unfold SharedDocument.resolve.
  replace (Share.is_public row) with true by (symmetry; exact Hpub).
  assert (Hh : Share.password_hash row = None).
  { unfold row, Sharing.share_row, Index.passwordHash.
    cbn [Share.password_hash]. now rewrite Hreq. }
  rewrite Hx, Hh. cbn [negb JS.truthy].
  unfold SharedDocument.loadDocument.
  cbn [with_shares objects].
  rewrite Hpath in *. rewrite Hm, Halt.
  replace (Share.user_id row) with userId by reflexivity.
  unfold Storage.createSignedUrl.
  unfold Client.fullPath in Hs. rewrite Hpriv in Hs. rewrite Hs.
  split; reflexivity.
Qed.

Lemma listed_document_share_opens_by_fallback_witness :
  exists st',
    Index.handleShare "tok-1" "row-1" "https://digi-locker.vercel.app"
      1700000200000 (Some Demo.alice)
      (Index.ofListed (Client.toListed Demo.alice Demo.regular_object))
      (Demo.settings 24 None) Demo.backend
    = (Data ("https://digi-locker.vercel.app" +:+ "/shared/" +:+ "tok-1"), st')
    /\ Storage.createSignedUrl
         (Listed.path (Client.toListed Demo.alice Demo.regular_object))
         (objects st')
       = Failure "Object not found"
    /\ let p := fst (SharedDocument.loadSharedDocument None 1700000300000
                       1700000300000 "tok-1" SharedDocument.initial st') in
       SharedDocument.documentUrl p
       = "/storage/v1/object/sign/documents/" +:+ Demo.alice +:+ "/"
           +:+ Listed.path (Client.toListed Demo.alice Demo.regular_object)
       /\ SharedDocument.error p = EmptyString.
Proof.
  apply (listed_document_share_opens_by_fallback "tok-1" "row-1"
           "https://digi-locker.vercel.app" 1700000200000 Demo.alice
           Demo.backend
           (Client.data_or_empty (Client.listUserDocuments Demo.alice Demo.backend))
           (Client.toListed Demo.alice Demo.regular_object)
           (Demo.settings 24 None) None 1700000300000 1700000300000).
  - intros o Ho. vm_compute in Ho.
    destruct Ho as [<-|[<-|[]]]; vm_compute; reflexivity.
  - vm_compute. reflexivity.
  - vm_compute. left. reflexivity.
  - vm_compute. discriminate.
  - intros r [].
  - reflexivity.
  - reflexivity.
  - intros _. split; [vm_compute; discriminate | right; reflexivity].
Defined.

Lemma firstSignedUrl_none (paths : list string)
    (objs : list Storage.StoredObject) :
  SharedDocument.firstSignedUrl paths objs = None
  <-> existsb (fun p => Storage.has p objs) paths = false.
Proof.
  induction paths as [|p r IH]; cbn [SharedDocument.firstSignedUrl existsb];
    [tauto|].
  unfold Storage.createSignedUrl.
  destruct (Storage.has p objs); cbn [orb]; [split; discriminate | exact IH].
Qed.

Lemma firstSignedUrl_nonempty (paths : list string)
    (objs : list Storage.StoredObject) (u : string) :
  SharedDocument.firstSignedUrl paths objs = Some u -> u <> EmptyString.
Proof.
  induction paths as [|p r IH]; cbn [SharedDocument.firstSignedUrl];
    [discriminate|].
  unfold Storage.createSignedUrl.
  destruct (Storage.has p objs); [|exact IH].
  intros E. inversion E. discriminate.
Qed.

Lemma firstDownload_none (paths : list string)
    (objs : list Storage.StoredObject) :
  SharedDocument.firstDownload paths objs = None
  <-> existsb (fun p => Storage.has p objs) paths = false.
Proof.
  induction paths as [|p r IH]; cbn [SharedDocument.firstDownload existsb];
    [tauto|].
  destruct (Storage.has p objs) eqn:E; cbn [orb].
  - apply download_has in E as [data ->]. split; discriminate.
  - now rewrite (download_missing _ _ E).
Qed.

(** X22: on the share page a document can be downloaded exactly when it
    can be shown, provided the share allows downloads: [downloadDocument]
    saves a file if and only if [loadDocument] finds a URL.  Without
    [allow_download] it does nothing.  The file is saved under a name
    that is not empty and has no slash: the name [getDocumentName]
    shows, except for a path ending in a slash, where the page shows
    "Document" and the file is saved as "document". *)
Theorem shared_download_iff_viewable :
  forall (viewer : option string) (p : SharedDocument.Page) (st : Backend)
         (r : Share.t),
    SharedDocument.shareData p = Some r ->
    (Share.allow_download r = true ->
     (fst (SharedDocument.downloadDocument p st) <> None
      <-> SharedDocument.documentUrl
            (fst (SharedDocument.loadDocument viewer r SharedDocument.initial
                    st))
          <> EmptyString))
    /\ (Share.allow_download r = false ->
        SharedDocument.downloadDocument p st = (None, None))
    /\ (forall d, fst (SharedDocument.downloadDocument p st) = Some d ->
                  Storage.filename d <> EmptyString
                  /\ JS.lacks "/" (Storage.filename d) = true
                  /\ (Storage.filename d = SharedDocument.getDocumentName p
                      \/ (Storage.filename d = "document"
                          /\ SharedDocument.getDocumentName p = "Document"))).
Proof.
  intros viewer p st r Hp. unfold SharedDocument.downloadDocument. rewrite Hp.
  split; [|split].
  - intros ->. cbn [negb]. unfold SharedDocument.loadDocument.
    assert (Hsame : SharedDocument.firstDownload
                      (SharedDocument.alternativePaths r) (objects st) = None
                    <-> match Storage.createSignedUrl (Share.document_path r)
                                (objects st) with
                        | Data u => Some u
                        | Failure _ =>
                            SharedDocument.firstSignedUrl
                              (SharedDocument.alternativePaths r) (objects st)
                        end = None).
    { rewrite firstDownload_none.
      unfold Storage.createSignedUrl at 1.
      destruct (Storage.has (Share.document_path r) (objects st)) eqn:E.
      - unfold SharedDocument.alternativePaths. cbn [existsb]. rewrite E.
        split; discriminate.
      - now rewrite firstSignedUrl_none. }
    destruct (SharedDocument.firstDownload _ _) as [data|];
      destruct (match Storage.createSignedUrl _ _ with
                | Data u => Some u
                | Failure _ => _
                end) as [u|] eqn:Eu; cbn.
    + split; [intros _|discriminate].
      unfold Storage.createSignedUrl in Eu.
      destruct (Storage.has _ _) in Eu.
      * inversion Eu. discriminate.
      * now apply firstSignedUrl_nonempty in Eu.
    + destruct Hsame as [_ H]. now discriminate H.
    + destruct Hsame as [H _]. now discriminate H.
    + tauto.
  - now intros ->.
  - intros d. destruct (negb (Share.allow_download r)); [discriminate|].
    destruct (SharedDocument.firstDownload _ _); [|discriminate].
    cbn [fst]. intros E. inversion E; subst d; clear E. cbn [Storage.filename].
    unfold SharedDocument.getDocumentName. rewrite Hp.
    destruct (JS.nonempty (JS.pop (JS.split "/" (Share.document_path r)))) eqn:En.
    + split; [now apply nonempty_true|]. split; [apply pop_split_lacks|].
      now left.
    + split; [discriminate|]. split; [reflexivity|]. right. split; reflexivity.
Qed.

Lemma shared_download_iff_viewable_witness :
  fst (SharedDocument.downloadDocument
         (SharedDocument.setShareData (Demo.share true None None)
            SharedDocument.initial)
         (Demo.shared (Demo.share true None None)))
  <> None.
Proof.
  destruct (shared_download_iff_viewable None
              (SharedDocument.setShareData (Demo.share true None None)
                 SharedDocument.initial)
              (Demo.shared (Demo.share true None None))
              (Demo.share true None None) eq_refl) as (H & _ & _).
  apply (H eq_refl). vm_compute. discriminate.
Defined.

(** ** The views of the page *)

Lemma includes_empty (s : string) : JS.includes s EmptyString = true.
Proof. destruct s; reflexivity. Qed.

Lemma filter_all {A : Type} (f : A -> bool) (l : list A) :
  (forall x, In x l -> f x = true) -> List.filter f l = l.
Proof.
  intros H. induction l as [|x l IH]; [reflexivity|].
  cbn [List.filter]. rewrite (H x (or_introl eq_refl)), IH; [reflexivity|].
  intros y Hy. apply H. now right.
Qed.

(** A file name whose second segment is [trash] contains [_trash_]. *)
Lemma parsedCategory_trash (name : string) :
  Client.parsedCategory name = "trash" -> JS.includes name "_trash_" = true.
Proof.
  unfold Client.parsedCategory. intros H.
  pose proof (join_split "_" name) as Hj.
  destruct (JS.split "_" name) as [|p0 [|p1 [|p2 rest]]];
    cbn [length Nat.leb nth] in H; try discriminate H.
  subst p1. rewrite <- Hj.
  change (JS.join "_" (p0 :: "trash" :: p2 :: rest))
    with (p0 +:+ ("_trash_" +:+ JS.join "_" (p2 :: rest))).
  apply includes_app_r. apply includes_app_l. reflexivity.
Qed.

Lemma listed_category_not_trash (userId : string) (o : Client.TaggedObject) :
  Client.present o = true ->
  Listed.category (Client.toListed userId o) <> "trash".
Proof.
  intros Hp. cbn [Client.toListed Listed.category].
  destruct (Client.isPrivate o); [discriminate|].
  intros E. apply parsedCategory_trash in E.
  unfold Client.present in Hp. apply andb_true_iff in Hp as [_ Hp].
  rewrite E in Hp. discriminate Hp.
Qed.

Lemma loadDocuments_data (userId : string) (ui : Index.UI) (st : Backend) :
  Index.loadDocuments userId ui st
  = Data (Index.setTrashDocs
            (map Index.ofTrashItem
               (Client.data_or_empty (Client.listUserTrash userId st)))
            (Index.setDocuments
               (map Index.ofListed
                  (Client.data_or_empty (Client.listUserDocuments userId st)))
               ui)).
Proof.
  unfold Index.loadDocuments.
  now rewrite listUserDocuments_data, listUserTrash_data.
Qed.

(** X23: with an empty search field the page shows what was loaded: in the
    view [all] every document of the listing, none of which has the
    category [trash]; in the view [trash] every entry of the trash
    listing. *)
Theorem views_show_what_was_loaded :
  forall (userId : string) (ui ui' : Index.UI) (st : Backend),
    Index.loadDocuments userId ui st = Data ui' ->
    (Index.selectedCategory ui = "all" ->
     Index.filteredDocuments EmptyString ui' = Index.documents ui')
    /\ (Index.selectedCategory ui = "trash" ->
        Index.filteredDocuments EmptyString ui' = Index.trashDocs ui').
Proof.
  intros userId ui ui' st E. rewrite loadDocuments_data in E.
  inversion E; subst ui'; clear E.
  unfold Index.filteredDocuments.
  cbn [Index.setTrashDocs Index.setDocuments Index.selectedCategory
       Index.documents Index.trashDocs].
  split; intros ->.
  - change (String.eqb "all" "trash") with false.
    change (String.eqb "all" "all") with true. cbv iota.
    apply filter_all. intros d Hd.
    change (JS.toLowerCase EmptyString) with EmptyString.
    rewrite includes_empty. cbn [andb].
    apply in_map_iff in Hd as (l & <- & Hl).
    destruct (In_listUserDocuments userId st _ l (listUserDocuments_data userId st))
      as [H _].
    destruct (H Hl) as (o & _ & Hp & _ & ->).
    apply negb_true_iff, String.eqb_neq.
    cbn [Index.ofListed Index.category].
    now apply listed_category_not_trash.
  - change (String.eqb "trash" "trash") with true.
    change (String.eqb "trash" "all") with false. cbv iota.
    apply filter_all. intros d Hd.
    change (JS.toLowerCase EmptyString) with EmptyString.
    rewrite includes_empty. cbn [andb].
    apply in_map_iff in Hd as (t & <- & _). reflexivity.
Qed.

Lemma views_show_what_was_loaded_witness :
  Index.filteredDocuments EmptyString Demo.ui = Index.documents Demo.ui.
Proof.
  destruct (views_show_what_was_loaded Demo.alice Demo.ui Demo.ui Demo.backend)
    as [H _].
  - vm_compute. reflexivity.
  - apply H. reflexivity.
Defined.

(** ** Changing categories in bulk *)

Lemma apply_update_keeps (update : Index.CategoryUpdate)
    (docs : list Index.Document) :
  map Index.id (Index.apply_update update docs) = map Index.id docs
  /\ map Index.name (Index.apply_update update docs) = map Index.name docs
  /\ map Index.path (Index.apply_update update docs) = map Index.path docs.
Proof.
  induction docs as [|d r (IH1 & IH2 & IH3)]; [repeat split|].
  cbn [Index.apply_update].
  destruct (Index.path_is (Index.update_path update) d); cbn [map];
    [repeat split|].
  now rewrite IH1, IH2, IH3.
Qed.

(** X24: [handleBulkCategoryUpdate] changes categories on the page only: the
    backend is left as it is, the documents keep their ids, names and
    paths, and the next [loadDocuments] gives the same page as if no
    update had been made. *)
Theorem bulk_category_update_is_not_stored :
  forall (updates : list Index.CategoryUpdate) (userId : string)
         (ui : Index.UI) (st : Backend),
    let out := Index.handleBulkCategoryUpdate updates ui st in
    Index.backend_of out = st
    /\ map Index.id (Index.documents (Index.ui_of out))
       = map Index.id (Index.documents ui)
    /\ map Index.name (Index.documents (Index.ui_of out))
       = map Index.name (Index.documents ui)
    /\ map Index.path (Index.documents (Index.ui_of out))
       = map Index.path (Index.documents ui)
    /\ Index.loadDocuments userId (Index.ui_of out) st
       = Index.loadDocuments userId ui st.
Proof.
  intros updates userId ui st out. subst out.
  unfold Index.handleBulkCategoryUpdate.
  cbn [Index.backend_of Index.ui_of Index.setDocuments Index.documents].
  split; [reflexivity|].
  assert (H : forall docs,
             map Index.id (fold_left (fun docs update => Index.apply_update update docs)
                             updates docs) = map Index.id docs
             /\ map Index.name (fold_left (fun docs update => Index.apply_update update docs)
                                  updates docs) = map Index.name docs
             /\ map Index.path (fold_left (fun docs update => Index.apply_update update docs)
                                  updates docs) = map Index.path docs).
  { induction updates as [|u r IH]; intros docs; [repeat split|].
    cbn [fold_left]. destruct (IH (Index.apply_update u docs)) as (H1 & H2 & H3).
    destruct (apply_update_keeps u docs) as (K1 & K2 & K3).
    rewrite H1, H2, H3. auto. }
  destruct (H (Index.documents ui)) as (H1 & H2 & H3).
  split; [exact H1|]. split; [exact H2|]. split; [exact H3|].
  now rewrite !loadDocuments_data.
Qed.

(** ** Subcategories *)

Lemma all_chars_trim_start (p : ascii -> bool) (s : string) :
  JS.all_chars p s = true -> JS.all_chars p (JS.trim_start s) = true.
Proof.
  induction s as [|c r IH]; [reflexivity|].
  cbn [JS.trim_start]. destruct (JS.is_white_space c); [|auto].
  cbn [JS.all_chars]. intros [_ H]%andb_true_iff. auto.
Qed.

Lemma all_chars_trim_end (p : ascii -> bool) (s : string) :
  JS.all_chars p s = true -> JS.all_chars p (JS.trim_end s) = true.
Proof.
  induction s as [|c r IH]; [reflexivity|].
  cbn [JS.trim_end].
  destruct (JS.is_white_space c && JS.all_chars JS.is_white_space r)%bool;
    [reflexivity|].
  cbn [JS.all_chars]. intros [Hc H]%andb_true_iff. now rewrite Hc, IH.
Qed.

Lemma all_chars_filter_chars (p : ascii -> bool) (s : string) :
  JS.all_chars p (JS.filter_chars p s) = true.
Proof.
  induction s as [|c r IH]; [reflexivity|].
  cbn [JS.filter_chars]. destruct (p c) eqn:E; [|exact IH].
  cbn [JS.all_chars]. now rewrite E, IH.
Qed.

Lemma getFallbackSubcategory_well_formed (fileName category : string) :
  Gemini.well_formed_subcategory (Gemini.getFallbackSubcategory fileName category) = true.
Proof.
  unfold Gemini.getFallbackSubcategory.
  repeat match goal with
         | |- context [if ?b then _ else _] => destruct b
         end; reflexivity.
Qed.

(** X25: whatever the endpoint answers, [getSubcategoryName] returns a name of
    1 to 30 code units without apostrophe or quotation mark; an answer
    that is cleaned up to a name outside that range is replaced by the
    name [getFallbackSubcategory] derives from the file name. *)
Theorem getSubcategoryName_is_well_formed :
  forall (apiKey : option string) (answer : Gemini.TextAnswer)
         (fileName category : string),
    let s := Gemini.getSubcategoryName apiKey answer fileName category in
    (1 <= String.length s <= 30)%nat
    /\ JS.all_chars (fun c => negb (JS.is_quote c)) s = true.
Proof.
  intros apiKey answer fileName category s.
  assert (H : Gemini.well_formed_subcategory s = true).
  { subst s. unfold Gemini.getSubcategoryName.
    destruct (negb (JS.truthy apiKey));
      [apply getFallbackSubcategory_well_formed|].
    destruct answer as [| | |[raw|]];
      try apply getFallbackSubcategory_well_formed.
    destruct (negb (JS.nonempty (JS.trim raw)));
      [apply getFallbackSubcategory_well_formed|].
    destruct (Nat.ltb 0 _ && Nat.leb _ 30)%bool eqn:E;
      [|apply getFallbackSubcategory_well_formed].
    unfold Gemini.well_formed_subcategory. rewrite E. cbn [andb].
    unfold JS.trim. apply all_chars_trim_end, all_chars_trim_start.
    apply all_chars_filter_chars. }
  unfold Gemini.well_formed_subcategory in H.
  apply andb_true_iff in H as [H Hq]. apply andb_true_iff in H as [H1 H2].
  apply Nat.ltb_lt in H1. apply Nat.leb_le in H2. split; [lia | exact Hq].
Qed.

(** ** Matching a document to a folder *)

Lemma ratio_positive (k n : nat) : (1 <= k <= n)%nat -> (0 < Gemini.ratio k n)%Q.
Proof.
  intros H. unfold Gemini.ratio.
  apply Qlt_shift_div_l.
  - unfold Qlt. cbn. lia.
  - unfold Qlt. cbn. lia.
Qed.

Lemma matchingKeywords_length (lowerFileName : string) (folder : Gemini.Folder) :
  (length (Gemini.matchingKeywords lowerFileName folder)
   <= length (Gemini.keywords folder))%nat.
Proof. unfold Gemini.matchingKeywords. apply List.filter_length_le. Qed.

Lemma firstMatchingFolder_some (lowerFileName : string)
    (existingFolders : list Gemini.Folder) (m : Gemini.FolderMatch) :
  Gemini.firstMatchingFolder lowerFileName existingFolders = Some m ->
  exists before folder after,
    existingFolders = before ++ folder :: after
    /\ (forall f, In f before -> Gemini.matchingKeywords lowerFileName f = [])
    /\ Gemini.matchingKeywords lowerFileName folder <> []
    /\ Gemini.folderName m = Gemini.name folder
    /\ (3 # 10 < Gemini.match_confidence m)%Q
    /\ (Gemini.match_confidence m <= 8 # 10)%Q.
Proof.
  induction existingFolders as [|folder rest IH]; [discriminate|].
  cbn [Gemini.firstMatchingFolder].
  destruct (Nat.ltb 0 (length (Gemini.matchingKeywords lowerFileName folder)))
    eqn:E.
  - intros H. inversion H; subst m; clear H.
    apply Nat.ltb_lt in E.
    exists [], folder, rest. cbn [Gemini.folderName Gemini.match_confidence].
    split; [reflexivity|]. split; [intros f []|].
    split; [intros K; rewrite K in E; cbn in E; lia|].
    split; [reflexivity|]. split.
    + apply Q.min_glb_lt; [reflexivity|].
      pose proof (matchingKeywords_length lowerFileName folder) as Hle.
      pose proof (ratio_positive _ _ (conj E Hle)) as Hp.
      rewrite <- (Qplus_0_l (3 # 10)) at 1.
      apply Qplus_lt_le_compat; [exact Hp | apply Qle_refl].
    + apply Q.le_min_l.
  - intros H. destruct (IH H) as (before & f & after & -> & Hb & Hm & Hn & Hc).
    exists (folder :: before), f, after. split; [reflexivity|].
    split; [|auto].
    intros g [<-|Hg]; [|now apply Hb].
    apply Nat.ltb_ge in E.
    destruct (Gemini.matchingKeywords lowerFileName folder); [reflexivity|].
    cbn in E. lia.
Qed.

Lemma firstMatchingFolder_none (lowerFileName : string)
    (existingFolders : list Gemini.Folder) :
  Gemini.firstMatchingFolder lowerFileName existingFolders = None
  <-> forall f, In f existingFolders ->
                Gemini.matchingKeywords lowerFileName f = [].
Proof.
  induction existingFolders as [|folder rest IH];
    cbn [Gemini.firstMatchingFolder].
  - split; [intros _ f [] | reflexivity].
  - destruct (Gemini.matchingKeywords lowerFileName folder) as [|k ks] eqn:Ek;
      cbn [length Nat.ltb Nat.leb].
    + rewrite IH. split.
      * intros H f [<-|Hf]; [exact Ek | now apply H].
      * intros H f Hf. apply H. now right.
    + split; [discriminate|]. intros H.
      specialize (H folder (or_introl eq_refl)). congruence.
Qed.

(** X26: [findFallbackMatchingFolder] answers with the first folder, in the
    order given, that has a keyword occurring in the lower-cased file
    name, and with [null] exactly when no folder has one.  The confidence
    it reports lies above 0.3 and does not exceed 0.8. *)
Theorem findFallbackMatchingFolder_first_match :
  forall (fileName category : string) (existingFolders : list Gemini.Folder),
    let lower := JS.toLowerCase fileName in
    let found := Gemini.findFallbackMatchingFolder fileName category
                   existingFolders in
    (found = None <->
     forall f, In f existingFolders -> Gemini.matchingKeywords lower f = [])
    /\ (forall m, found = Some m ->
        exists before folder after,
          existingFolders = before ++ folder :: after
          /\ (forall f, In f before -> Gemini.matchingKeywords lower f = [])
          /\ Gemini.matchingKeywords lower folder <> []
          /\ Gemini.folderName m = Gemini.name folder
          /\ (3 # 10 < Gemini.match_confidence m)%Q
          /\ (Gemini.match_confidence m <= 8 # 10)%Q).
Proof.
  intros fileName category existingFolders lower found. subst lower found.
  unfold Gemini.findFallbackMatchingFolder. split.
  - apply firstMatchingFolder_none.
  - intros m. apply firstMatchingFolder_some.
Qed.

(** X27: [findBestMatchingFolder] never reports a confidence of 0.3 or less.
    With an API key, an answer that parses is taken only with a
    non-empty folder name and a confidence of at least 0.7, and an answer
    without a JSON object gives [null] at once, also where the keyword
    matching would find a folder. *)
Theorem findBestMatchingFolder_confidence :
  forall (apiKey : option string) (answer : Gemini.FolderAnswer)
         (fileName category : string) (existingFolders : list Gemini.Folder),
    let found := Gemini.findBestMatchingFolder apiKey answer fileName category
                   existingFolders in
    (forall m, found = Some m -> (3 # 10 < Gemini.match_confidence m)%Q)
    /\ (JS.truthy apiKey = true ->
        (forall folder c m,
            answer = Gemini.FolderJson folder c -> found = Some m ->
            (7 # 10 <= c)%Q /\ folder = Some (Gemini.folderName m)
            /\ Gemini.folderName m <> EmptyString
            /\ Gemini.match_confidence m = c)
        /\ (forall text, answer = Gemini.FolderNoJsonObject text -> found = None)).
Proof.
  intros apiKey answer fileName category existingFolders found. subst found.
  unfold Gemini.findBestMatchingFolder. split.
  - intros m.
    assert (Hfb : Gemini.findFallbackMatchingFolder fileName category
                    existingFolders = Some m ->
                  (3 # 10 < Gemini.match_confidence m)%Q).
    { intros H. apply firstMatchingFolder_some in H.
      destruct H as (_ & _ & _ & _ & _ & _ & _ & H & _). exact H. }
    destruct (negb (JS.truthy apiKey)); [exact Hfb|].
    destruct answer as [| | | | | |folder c]; try exact Hfb; try discriminate.
    destruct (JS.truthy folder && Qle_bool (7 # 10) c)%bool eqn:E;
      [|discriminate].
    intros H. inversion H; subst m; clear H. cbn [Gemini.match_confidence].
    apply andb_true_iff in E as [_ E]. apply Qle_bool_iff in E.
    eapply Qlt_le_trans; [|exact E]. reflexivity.
  - intros ->. cbn [negb]. split.
    + intros folder c m ->.
      destruct (JS.truthy folder && Qle_bool (7 # 10) c)%bool eqn:E;
        [|discriminate].
      intros H. inversion H; subst m; clear H.
      cbn [Gemini.match_confidence Gemini.folderName].
      apply andb_true_iff in E as [Ef E]. apply Qle_bool_iff in E.
      destruct folder as [f|]; [|discriminate Ef].
      cbn [JS.truthy] in Ef. apply nonempty_true in Ef.
      repeat split; auto.
    + now intros text ->.
Qed.

Lemma findBestMatchingFolder_confidence_witness :
  Gemini.findBestMatchingFolder (Some "key")
    (Gemini.FolderNoJsonObject "no folder fits") "bank_statement.pdf" "financial"
    [ {| Gemini.name := "Bank Statements"; Gemini.keywords := ["bank"] |} ]
  = None
  /\ Gemini.findFallbackMatchingFolder "bank_statement.pdf" "financial"
       [ {| Gemini.name := "Bank Statements"; Gemini.keywords := ["bank"] |} ]
     <> None.
Proof.
  destruct (findBestMatchingFolder_confidence (Some "key")
              (Gemini.FolderNoJsonObject "no folder fits") "bank_statement.pdf"
              "financial"
              [ {| Gemini.name := "Bank Statements"; Gemini.keywords := ["bank"] |} ])
    as [_ H].
  destruct (H eq_refl) as [_ Hn].
  split; [apply (Hn "no folder fits"); reflexivity|].
  vm_compute. discriminate.
Defined.

(** ** Suggestions for many documents *)

Lemma categorizeDocument_known (apiKey : option string) (answer : Gemini.Answer)
    (fileName : string) :
  Gemini.categoryMapping_has
    (Gemini.category (Gemini.categorizeDocument apiKey answer fileName)) = true.
Proof.
  assert (Hf : Gemini.categoryMapping_has
                 (Gemini.category (Gemini.fallbackCategorization fileName)) = true).
  { pose proof (fallback_category fileName) as H.
    unfold Gemini.categoryMapping_has. apply orb_true_iff. left.
    unfold Gemini.mem. apply existsb_exists.
    eexists. split; [exact H | apply String.eqb_refl]. }
  unfold Gemini.categorizeDocument.
  destruct (negb (JS.truthy apiKey)); [exact Hf|].
  destruct answer as [| | | | | | |s]; try exact Hf.
  unfold Gemini.validate.
  destruct (Gemini.categoryMapping_has (JS.string_of (Gemini.json_category s)))
    eqn:E; cbn [negb Gemini.category]; [exact E | reflexivity].
Qed.

Lemma In_analyzeAllDocuments (apiKey : option string)
    (documents : list (Gemini.Doc * Gemini.Answer))
    (s : BulkCategorizeDialog.Suggestion) :
  In s (BulkCategorizeDialog.analyzeAllDocuments apiKey documents) <->
  BulkCategorizeDialog.shown s = true
  /\ exists doc answer,
       In (doc, answer) documents
       /\ s = BulkCategorizeDialog.withMetadata (map fst documents)
                {| Gemini.result_path := Gemini.doc_path doc;
                   Gemini.suggestedCategory :=
                     Gemini.category
                       (Gemini.categorizeDocument apiKey answer (Gemini.doc_name doc));
                   Gemini.result_confidence :=
                     Gemini.confidence
                       (Gemini.categorizeDocument apiKey answer (Gemini.doc_name doc));
                   Gemini.result_reasoning :=
                     Gemini.reasoning
                       (Gemini.categorizeDocument apiKey answer (Gemini.doc_name doc)) |}.
Proof.
  unfold BulkCategorizeDialog.analyzeAllDocuments, Gemini.bulkCategorizeDocuments.
  rewrite filter_In, in_map_iff. split.
  - intros [(r & <- & Hr) Hs]. split; [exact Hs|].
    apply in_map_iff in Hr as ([doc answer] & <- & Hd). eauto.
  - intros [Hs (doc & answer & Hd & ->)]. split; [|exact Hs].
    eexists. split; [reflexivity|].
    apply in_map_iff. exists (doc, answer). auto.
Qed.

(** X28: every suggestion the dialog shows is a change: its category differs
    from the current one of the document found for its path, its
    confidence is at least 0.5, its path is that of one of the documents
    analysed, and the lookup of its category in [categoryMapping] is
    truthy. *)
Theorem shown_suggestions_are_changes :
  forall (apiKey : option string)
         (documents : list (Gemini.Doc * Gemini.Answer))
         (s : BulkCategorizeDialog.Suggestion),
    In s (BulkCategorizeDialog.analyzeAllDocuments apiKey documents) ->
    BulkCategorizeDialog.suggestedCategory s
    <> BulkCategorizeDialog.currentCategory s
    /\ (exists c, BulkCategorizeDialog.confidence s = Some c
                  /\ (0.5 <=? c)%float = true)
    /\ Gemini.categoryMapping_has (BulkCategorizeDialog.suggestedCategory s) = true
    /\ exists doc answer,
         In (doc, answer) documents
         /\ BulkCategorizeDialog.path s = Gemini.doc_path doc
         /\ BulkCategorizeDialog.suggestedCategory s
            = Gemini.category
                (Gemini.categorizeDocument apiKey answer (Gemini.doc_name doc)).
Proof.
  intros apiKey documents s Hs.
  apply In_analyzeAllDocuments in Hs as [Hshown (doc & answer & Hd & Hm)].
  unfold BulkCategorizeDialog.shown in Hshown.
  apply andb_true_iff in Hshown as [Hne Hc].
  apply negb_true_iff, String.eqb_neq in Hne.
  split; [exact Hne|]. split.
  { unfold JS.ge in Hc.
    destruct (BulkCategorizeDialog.confidence s) as [c|]; [eauto|].
    discriminate Hc. }
  split.
  - rewrite Hm. apply categorizeDocument_known.
  - exists doc, answer. rewrite Hm. auto.
Qed.

Lemma shown_suggestions_are_changes_witness :
  let s :=
    BulkCategorizeDialog.withMetadata
      [BulkCategorizeDialog.ofDocument Demo.private_document]
      {| Gemini.result_path := Demo.passport;
         Gemini.suggestedCategory := "identity";
         Gemini.result_confidence := Some 0.7%float;
         Gemini.result_reasoning :=
           Some "Filename contains identity document keywords" |} in
  BulkCategorizeDialog.suggestedCategory s
  <> BulkCategorizeDialog.currentCategory s
  /\ (exists c, BulkCategorizeDialog.confidence s = Some c
                /\ (0.5 <=? c)%float = true).
Proof.
  intros s.
  destruct (shown_suggestions_are_changes None
              [(BulkCategorizeDialog.ofDocument Demo.private_document,
                Gemini.NoText)] s) as (H1 & H2 & _).
  - vm_compute. left. reflexivity.
  - split; [exact H1 | exact H2].
Defined.

(** ** Applying suggestions to the page *)

Lemma apply_update_app (update : Index.CategoryUpdate)
    (l1 l2 : list Index.Document) :
  Index.apply_update update (l1 ++ l2)
  = if existsb (Index.path_is (Index.update_path update)) l1
    then Index.apply_update update l1 ++ l2
    else l1 ++ Index.apply_update update l2.
Proof.
  induction l1 as [|d r IH]; [reflexivity|].
  cbn [app Index.apply_update existsb].
  destruct (Index.path_is (Index.update_path update) d); cbn [orb];
    [reflexivity|].
  rewrite IH. now destruct (existsb _ r).
Qed.

Lemma path_is_iff (p : string) (d : Index.Document) :
  Index.path_is p d = true <-> Index.path d = Some p.
Proof.
  unfold Index.path_is. destruct (Index.path d) as [q|].
  - rewrite String.eqb_eq. split; congruence.
  - split; discriminate.
Qed.

Lemma apply_update_length (update : Index.CategoryUpdate)
    (docs : list Index.Document) :
  length (Index.apply_update update docs) = length docs.
Proof.
  destruct (apply_update_keeps update docs) as (H & _).
  apply (f_equal (@length _)) in H. now rewrite !length_map in H.
Qed.

Lemma apply_update_paths (update : Index.CategoryUpdate)
    (docs : list Index.Document) (p : string) :
  (forall x, In x docs -> Index.path x <> Some p) ->
  forall x, In x (Index.apply_update update docs) -> Index.path x <> Some p.
Proof.
  intros H x Hx.
  destruct (apply_update_keeps update docs) as (_ & _ & Hp).
  assert (Hin : In (Index.path x) (map Index.path docs))
    by (rewrite <- Hp; now apply in_map).
  apply in_map_iff in Hin as (y & <- & Hy). now apply H.
Qed.

(** The document at a position that no earlier document shares its path
    with: after a run of updates it has kept its id and its path, and
    its category is the one it had, when no update names the path, or
    the category of an update that names it. *)
Lemma fold_updates_at (updates : list Index.CategoryUpdate) (p : string) :
  forall (before : list Index.Document) (d : Index.Document)
         (after : list Index.Document),
    Index.path d = Some p ->
    (forall x, In x before -> Index.path x <> Some p) ->
    exists before' d' after',
      fold_left (fun docs update => Index.apply_update update docs) updates
        (before ++ d :: after)
      = before' ++ d' :: after'
      /\ length before' = length before
      /\ Index.id d' = Index.id d
      /\ Index.name d' = Index.name d
      /\ Index.path d' = Some p
      /\ ((Index.category d' = Index.category d
           /\ forall u, In u updates -> Index.update_path u <> p)
          \/ exists u, In u updates /\ Index.update_path u = p
                       /\ Index.category d' = Index.update_category u).
Proof.
  induction updates as [|u r IH]; intros before d after Hd Hb.
  - exists before, d, after. cbn [fold_left].
    split; [reflexivity|]. do 4 (split; [auto|]). left. split; [reflexivity | intros u []].
  - cbn [fold_left]. rewrite apply_update_app.
    destruct (existsb (Index.path_is (Index.update_path u)) before) eqn:Eb.
    + (* the update lands before the position *)
      assert (Hu : Index.update_path u <> p).
      { intros E. rewrite E in Eb. apply existsb_exists in Eb as (x & Hx & Hm).
        apply path_is_iff in Hm. now apply (Hb x Hx). }
      destruct (IH (Index.apply_update u before) d after Hd
                  (apply_update_paths u before p Hb))
        as (b' & d' & a' & E & Hl & Hi & Hn & Hp & Hc).
      exists b', d', a'. rewrite apply_update_length in Hl.
      split; [exact E|]. split; [exact Hl|]. split; [exact Hi|].
      split; [exact Hn|]. split; [exact Hp|].
      destruct Hc as [[Hc Hall]|(v & Hv & Hvp & Hvc)].
      * left. split; [exact Hc|]. intros v [<-|Hv]; auto.
      * right. exists v. split; [now right | auto].
    + cbn [Index.apply_update].
      destruct (Index.path_is (Index.update_path u) d) eqn:Ed.
      * (* the update lands on the position *)
        apply path_is_iff in Ed.
        assert (Ep : p = Index.update_path u) by congruence.
        destruct (IH before
                    {| Index.id := Index.id d; Index.name := Index.name d;
                       Index.category := Index.update_category u;
                       Index.url := Index.url d; Index.path := Index.path d |}
                    after Hd Hb)
          as (b' & d' & a' & E & Hl & Hi & Hn & Hp & Hc).
        exists b', d', a'.
        split; [exact E|]. split; [exact Hl|]. split; [exact Hi|].
        split; [exact Hn|]. split; [exact Hp|].
        right. destruct Hc as [[Hc Hall]|(v & Hv & Hvp & Hvc)].
        -- exists u. split; [now left|]. split; [now rewrite Ep | exact Hc].
        -- exists v. split; [now right | auto].
      * (* the update lands after it, or nowhere *)
        assert (Hu : Index.update_path u <> p).
        { intros E. rewrite E in Ed.
          assert (Index.path_is p d = true) by now apply path_is_iff.
          congruence. }
        destruct (IH before d (Index.apply_update u after) Hd Hb)
          as (b' & d' & a' & E & Hl & Hi & Hn & Hp & Hc).
        exists b', d', a'.
        split; [exact E|]. split; [exact Hl|]. split; [exact Hi|].
        split; [exact Hn|]. split; [exact Hp|].
        destruct Hc as [[Hc Hall]|(v & Hv & Hvp & Hvc)].
        -- left. split; [exact Hc|]. intros v [<-|Hv]; auto.
        -- right. exists v. split; [now right | auto].
Qed.

Lemma find_first (p : string) (before : list Index.Document)
    (d : Index.Document) (after : list Index.Document) :
  Index.path d = Some p ->
  (forall x, In x before -> default EmptyString (Index.path x) <> p) ->
  List.find (fun x => String.eqb (Gemini.doc_path x) p)
    (map BulkCategorizeDialog.ofDocument (before ++ d :: after))
  = Some (BulkCategorizeDialog.ofDocument d).
Proof.
  intros Hd Hb. induction before as [|x r IH].
  - cbn [app map List.find BulkCategorizeDialog.ofDocument Gemini.doc_path].
    rewrite Hd. cbn [default]. now rewrite String.eqb_refl.
  - cbn [app map List.find].
    replace (String.eqb (Gemini.doc_path (BulkCategorizeDialog.ofDocument x)) p)
      with false.
    + apply IH. intros y Hy. apply Hb. now right.
    + symmetry. apply String.eqb_neq. apply Hb. now left.
Qed.

Lemma category_not_private (c : string) :
  In c Gemini.categories -> c <> "private".
Proof.
  unfold Gemini.categories. cbn [In].
  intros [<-|[<-|[<-|[<-|[<-|[<-|[]]]]]]]; discriminate.
Qed.

(** X29: a private document does not stay private through the bulk
    categorisation.  Without an API key the dialog shows, for a private
    document that is the first of the page with its path, the category
    the keyword table gives to its name; once that suggestion is selected
    and applied, the document is on the page under one of the six regular
    categories, with the id and the path it had, [requireAuth] lets it
    pass without asking the authenticator, and the backend is as
    before. *)
Theorem bulk_categorisation_unprotects_private_document :
  forall (apiKey : option string)
         (documents : list (Gemini.Doc * Gemini.Answer))
         (selectedSuggestions : gset string)
         (ui : Index.UI) (st : Backend)
         (before : list Index.Document) (d : Index.Document)
         (after : list Index.Document) (p : string),
    JS.truthy apiKey = false ->
    Index.documents ui = before ++ d :: after ->
    map fst documents
    = map BulkCategorizeDialog.ofDocument (Index.documents ui) ->
    Index.category d = "private" ->
    Index.path d = Some p ->
    (forall x, In x before -> default EmptyString (Index.path x) <> p) ->
    p ∈ selectedSuggestions ->
    let out :=
      BulkCategorizeDialog.applySelectedSuggestions selectedSuggestions
        (BulkCategorizeDialog.analyzeAllDocuments apiKey documents) ui st in
    Index.backend_of out = st
    /\ exists d',
         nth_error (Index.documents (Index.ui_of out)) (length before) = Some d'
         /\ Index.id d' = Index.id d
         /\ Index.path d' = Index.path d
         /\ In (Index.category d') Gemini.categories
         /\ Index.category d' <> "private"
         /\ forall auth, Index.requireAuth auth d' = (true, None).
Proof.
  intros apiKey documents selected ui st before d after p
    Hkey Hdocs Hmap Hcat Hpath Hbefore Hsel out.
  set (suggestions := BulkCategorizeDialog.analyzeAllDocuments apiKey documents)
    in *.
  set (updates := BulkCategorizeDialog.selectedUpdates selected suggestions).
  (* what every update carries *)
  assert (Hupd : forall u, In u updates ->
                           In (Index.update_category u) Gemini.categories).
  { intros u Hu. unfold updates, BulkCategorizeDialog.selectedUpdates in Hu.
    apply in_map_iff in Hu as (s & <- & Hs).
    apply filter_In in Hs as [Hs _].
    apply In_analyzeAllDocuments in Hs as [_ (doc & answer & _ & ->)].
    cbn [Index.update_category BulkCategorizeDialog.withMetadata
         BulkCategorizeDialog.suggestedCategory Gemini.suggestedCategory].
    unfold Gemini.categorizeDocument. rewrite Hkey. cbn [negb].
    apply fallback_category. }
  (* the update the document itself gives rise to *)
  assert (Hown : exists u, In u updates /\ Index.update_path u = p).
  { assert (Hin : In (BulkCategorizeDialog.ofDocument d) (map fst documents)).
    { rewrite Hmap, Hdocs. apply in_map, in_app_iff. right. now left. }
    apply in_map_iff in Hin as ([doc answer] & Hdoc & Hin).
    cbn [fst] in Hdoc. subst doc.
    set (s := BulkCategorizeDialog.withMetadata (map fst documents)
                {| Gemini.result_path :=
                     Gemini.doc_path (BulkCategorizeDialog.ofDocument d);
                   Gemini.suggestedCategory :=
                     Gemini.category
                       (Gemini.categorizeDocument apiKey answer
                          (Gemini.doc_name (BulkCategorizeDialog.ofDocument d)));
                   Gemini.result_confidence :=
                     Gemini.confidence
                       (Gemini.categorizeDocument apiKey answer
                          (Gemini.doc_name (BulkCategorizeDialog.ofDocument d)));
                   Gemini.result_reasoning :=
                     Gemini.reasoning
                       (Gemini.categorizeDocument apiKey answer
                          (Gemini.doc_name (BulkCategorizeDialog.ofDocument d))) |}).
    assert (Hp : BulkCategorizeDialog.path s = p).
    { subst s. cbn [BulkCategorizeDialog.withMetadata BulkCategorizeDialog.path
                    Gemini.result_path BulkCategorizeDialog.ofDocument
                    Gemini.doc_path].
      now rewrite Hpath. }
    assert (Hcur : BulkCategorizeDialog.currentCategory s = "private").
    { subst s. unfold BulkCategorizeDialog.withMetadata.
      cbn [BulkCategorizeDialog.currentCategory Gemini.result_path].
      rewrite Hmap, Hdocs.
      replace (Gemini.doc_path (BulkCategorizeDialog.ofDocument d)) with p
        by (cbn [BulkCategorizeDialog.ofDocument Gemini.doc_path];
            now rewrite Hpath).
      rewrite (find_first p before d after Hpath Hbefore).
      cbn [BulkCategorizeDialog.ofDocument Gemini.doc_category].
      now rewrite Hcat. }
    assert (Hshown : BulkCategorizeDialog.shown s = true).
    { unfold BulkCategorizeDialog.shown. rewrite Hcur.
      subst s. cbn [BulkCategorizeDialog.withMetadata
                    BulkCategorizeDialog.suggestedCategory
                    BulkCategorizeDialog.confidence
                    Gemini.suggestedCategory Gemini.result_confidence].
      unfold Gemini.categorizeDocument. rewrite Hkey. cbn [negb].
      apply andb_true_iff. split.
      - apply negb_true_iff, String.eqb_neq, category_not_private,
          fallback_category.
      - destruct (fallback_confidence
                    (Gemini.doc_name (BulkCategorizeDialog.ofDocument d)))
          as [-> | ->]; reflexivity. }
    exists {| Index.update_path := BulkCategorizeDialog.path s;
              Index.update_category := BulkCategorizeDialog.suggestedCategory s |}.
    split; [|exact Hp].
    unfold updates, BulkCategorizeDialog.selectedUpdates.
    apply in_map_iff. exists s. split; [reflexivity|].
    apply filter_In. split.
    - apply In_analyzeAllDocuments. split; [exact Hshown|].
      exists (BulkCategorizeDialog.ofDocument d), answer. auto.
    - rewrite Hp. now apply bool_decide_eq_true. }
  (* the page after the updates *)
  assert (Hb' : forall x, In x before -> Index.path x <> Some p).
  { intros x Hx E. apply (Hbefore x Hx). now rewrite E. }
  destruct (fold_updates_at updates p before d after Hpath Hb')
    as (b' & d' & a' & Hfold & Hlen & Hid & _ & Hp' & Hc).
  assert (Hout : out = Index.handleBulkCategoryUpdate updates ui st).
  { subst out. unfold BulkCategorizeDialog.applySelectedSuggestions.
    fold suggestions. fold updates.
    destruct Hown as (u & Hu & _). destruct updates; [destruct Hu | reflexivity]. }
  rewrite Hout. unfold Index.handleBulkCategoryUpdate.
  cbn [Index.backend_of Index.ui_of Index.setDocuments Index.documents].
  split; [reflexivity|]. exists d'.
  rewrite Hdocs, Hfold, <- Hlen, nth_error_app2, Nat.sub_diag by lia.
  assert (Hcd : In (Index.category d') Gemini.categories).
  { destruct Hc as [[_ Hall]|(u & Hu & _ & ->)]; [|now apply Hupd].
    destruct Hown as (u & Hu & Hup). now destruct (Hall u Hu). }
  pose proof (category_not_private _ Hcd) as Hnp.
  repeat split; auto; [congruence|].
  intros auth. unfold Index.requireAuth.
  apply String.eqb_neq in Hnp. now rewrite Hnp.
Qed.

Lemma bulk_categorisation_unprotects_private_document_witness :
  let out :=
    BulkCategorizeDialog.applySelectedSuggestions {[ Demo.passport ]}
      (BulkCategorizeDialog.analyzeAllDocuments None
         (map (fun doc => (BulkCategorizeDialog.ofDocument doc, Gemini.NoText))
            (Index.documents Demo.ui)))
      Demo.ui Demo.backend in
  exists d',
    nth_error (Index.documents (Index.ui_of out)) 1 = Some d'
    /\ Index.id d' = Index.id Demo.private_document
    /\ Index.category d' <> "private".
Proof.
  intros out.
  destruct (bulk_categorisation_unprotects_private_document None
              (map (fun doc => (BulkCategorizeDialog.ofDocument doc, Gemini.NoText))
                 (Index.documents Demo.ui))
              {[ Demo.passport ]} Demo.ui Demo.backend
              [Demo.regular_document] Demo.private_document [] Demo.passport)
    as (_ & d' & Hn & Hi & _ & _ & Hc & _).
  - reflexivity.
  - reflexivity.
  - reflexivity.
  - reflexivity.
  - reflexivity.
  - intros x [<-|[]]. vm_compute. discriminate.
  - now apply elem_of_singleton.
  - exists d'. split; [exact Hn|]. split; [exact Hi | exact Hc].
Defined.

(** ** The keywords of a smart folder *)

Lemma nodup_snoc {A : Type} (l : list A) (x : A) :
  List.NoDup l -> ~ In x l -> List.NoDup (l ++ [x]).
Proof.
  induction l as [|y l IH]; intros Hl Hx.
  - constructor; [intros [] | constructor].
  - inversion Hl as [|? ? Hy Hl']; subst. cbn [app].
    constructor.
    + rewrite in_app_iff. intros [K|[K|[]]]; [now apply Hy|].
      apply Hx. now left.
    + apply IH; [exact Hl'|]. intros K. apply Hx. now right.
Qed.

Lemma add_keyword_NoDup (keywords : list string) (word : string) :
  List.NoDup keywords -> List.NoDup (Index.add_keyword keywords word).
Proof.
  intros H. unfold Index.add_keyword.
  destruct (existsb (String.eqb word) keywords) eqn:E; [exact H|].
  apply nodup_snoc; [exact H|]. intros Hx.
  assert (existsb (String.eqb word) keywords = true); [|congruence].
  apply existsb_exists. exists word. split; [exact Hx | apply String.eqb_refl].
Qed.

Lemma In_add_keyword (keywords : list string) (word x : string) :
  In x (Index.add_keyword keywords word) <-> In x keywords \/ x = word.
Proof.
  unfold Index.add_keyword.
  destruct (existsb (String.eqb word) keywords) eqn:E.
  - apply existsb_exists in E as (y & Hy & Ey). apply String.eqb_eq in Ey.
    subst y. split; [auto | intros [H| ->]; auto].
  - rewrite in_app_iff. cbn [In]. intuition.
Qed.

Lemma fold_add_keyword (words keywords : list string) :
  List.NoDup keywords ->
  List.NoDup (fold_left Index.add_keyword words keywords)
  /\ (forall x, In x (fold_left Index.add_keyword words keywords)
                <-> In x keywords \/ In x words)
  /\ exists more, fold_left Index.add_keyword words keywords = keywords ++ more.
Proof.
  revert keywords. induction words as [|w r IH]; intros keywords Hk.
  - cbn [fold_left In]. split; [exact Hk|]. split; [intuition|].
    exists []. now rewrite app_nil_r.
  - cbn [fold_left].
    destruct (IH _ (add_keyword_NoDup keywords w Hk)) as (Hn & Hin & more & Hm).
    split; [exact Hn|]. split.
    + intros x. rewrite Hin, In_add_keyword. cbn [In]. intuition.
    + rewrite Hm. unfold Index.add_keyword.
      destruct (existsb (String.eqb w) keywords); [eauto|].
      exists ([w] ++ more). now rewrite app_assoc.
Qed.

Lemma nodup_firstn {A : Type} (n : nat) (l : list A) :
  List.NoDup l -> List.NoDup (firstn n l).
Proof.
  revert n. induction l as [|x l IH]; intros n H.
  - now rewrite firstn_nil.
  - destruct n as [|n]; [constructor|].
    cbn [firstn]. inversion H as [|? ? Hx Hl]; subst.
    constructor; [|now apply IH].
    intros K. apply Hx. now apply firstn_incl in K.
Qed.

(** The first segment of a split is a prefix of the string, up to the
    characters a map has turned into separators. *)
Lemma split_head_prefix (f : ascii -> ascii) (sep : ascii) (s : string) :
  (forall c, f c = c \/ f c = sep) ->
  String.prefix (hd EmptyString (JS.split sep (JS.map_chars f s))) s = true.
Proof.
  intros Hf. induction s as [|c r IH]; [reflexivity|].
  cbn [JS.map_chars JS.split].
  destruct (Ascii.eqb (f c) sep) eqn:E; [reflexivity|].
  destruct (Hf c) as [Hc|Hc]; [|rewrite Hc, Ascii.eqb_refl in E; discriminate].
  pose proof (split_nonempty sep (JS.map_chars f r)) as Hne.
  destruct (JS.split sep (JS.map_chars f r)) as [|h t]; [contradiction|].
  cbn [hd] in *. rewrite Hc. cbn [String.prefix].
  destruct (ascii_dec c c) as [_|K]; [exact IH | now contradiction K].
Qed.

(** Every non-empty segment occurs in the string as it is. *)
Lemma split_segment_includes (f : ascii -> ascii) (sep : ascii)
    (s w : string) :
  (forall c, f c = c \/ f c = sep) ->
  In w (JS.split sep (JS.map_chars f s)) -> w <> EmptyString ->
  JS.includes s w = true.
Proof.
  intros Hf. induction s as [|c r IH]; intros Hw Hne.
  - cbn in Hw. destruct Hw as [<-|[]]. now contradiction Hne.
  - rewrite includes_cons.
    pose proof (split_head_prefix f sep r Hf) as Hp.
    cbn [JS.map_chars JS.split] in Hw.
    destruct (Ascii.eqb (f c) sep) eqn:E.
    + destruct Hw as [<-|Hw]; [now contradiction Hne|].
      rewrite (IH Hw Hne). apply orb_true_r.
    + destruct (Hf c) as [Hc|Hc]; [|rewrite Hc, Ascii.eqb_refl in E; discriminate].
      pose proof (split_nonempty sep (JS.map_chars f r)) as Hnil.
      destruct (JS.split sep (JS.map_chars f r)) as [|h t]; [contradiction|].
      cbn [hd] in Hp.
      destruct Hw as [<-|Hw].
      * rewrite Hc. cbn [String.prefix].
        destruct (ascii_dec c c) as [_|K]; [|now contradiction K].
        now rewrite Hp.
      * rewrite IH; [apply orb_true_r | now right | exact Hne].
Qed.

Lemma lower_char_fixed (c : ascii) :
  (JS.is_lower c || JS.is_digit c || JS.is_white_space c)%bool = true ->
  JS.lower_char c = c.
Proof.
  destruct c as [[] [] [] [] [] [] [] []]; vm_compute; intros H;
    reflexivity || discriminate H.
Qed.

Lemma clean_segment_lower (s w : string) :
  In w (JS.split " " (Index.clean_word_chars s)) -> JS.toLowerCase w = w.
Proof.
  intros Hw.
  assert (Hall : JS.all_chars
                   (fun c => (JS.is_lower c || JS.is_digit c
                              || JS.is_white_space c)%bool) w = true).
  { revert w Hw. unfold Index.clean_word_chars.
    induction s as [|c r IH]; intros w Hw.
    - cbn in Hw. destruct Hw as [<-|[]]. reflexivity.
    - cbn [JS.map_chars JS.split] in Hw.
      destruct (JS.is_lower c || JS.is_digit c || JS.is_white_space c)%bool eqn:Ec.
      + destruct (Ascii.eqb c " ") eqn:E.
        * destruct Hw as [<-|Hw]; [reflexivity | now apply IH].
        * pose proof (split_nonempty " " (JS.map_chars
            (fun c => if (JS.is_lower c || JS.is_digit c || JS.is_white_space c)%bool
                      then c else " "%char) r)) as Hnil.
          destruct (JS.split " " _) as [|h t] eqn:Es; [contradiction|].
          destruct Hw as [<-|Hw].
          -- cbn [JS.all_chars]. rewrite Ec. apply IH. now left.
          -- apply IH. now right.
      + change (Ascii.eqb " " " ") with true in Hw. cbv iota in Hw.
        destruct Hw as [<-|Hw]; [reflexivity | now apply IH]. }
  unfold JS.toLowerCase. clear Hw. induction w as [|c r IH]; [reflexivity|].
  cbn [JS.all_chars] in Hall. apply andb_true_iff in Hall as [Hc Hr].
  cbn [JS.map_chars]. now rewrite (lower_char_fixed c Hc), IH.
Qed.

Lemma documentWords_match (doc : Index.Document) (k : string) :
  In k (Index.documentWords doc) ->
  JS.includes (JS.toLowerCase (Index.name doc)) (JS.toLowerCase k) = true.
Proof.
  unfold Index.documentWords. intros [Hk Hl]%filter_In.
  rewrite (clean_segment_lower _ _ Hk).
  unfold Index.clean_word_chars in Hk.
  apply (split_segment_includes _ " " _ _) in Hk; [exact Hk| |].
  - intros c. destruct (_ || _ || _)%bool; auto.
  - intros ->. discriminate Hl.
Qed.

(** X30: [generateFolderKeywords] gives at most ten keywords, no keyword
    twice, each longer than two code units.  A keyword that comes from
    the name of a document occurs in that name, so a folder saved with
    these keywords is found again for the document by
    [findFallbackMatchingFolder]. *)
Theorem generated_keywords_match_their_documents :
  forall (folderName : string) (documents : list Index.Document),
    let keywords := Index.generateFolderKeywords folderName documents in
    (length keywords <= 10)%nat
    /\ List.NoDup keywords
    /\ (forall k, In k keywords -> (2 < String.length k)%nat)
    /\ (forall doc k category,
          In k keywords -> In k (Index.documentWords doc) ->
          exists m,
            Gemini.findFallbackMatchingFolder (Index.name doc) category
              [ {| Gemini.name := folderName; Gemini.keywords := keywords |} ]
            = Some m
            /\ Gemini.folderName m = folderName).
Proof.
  intros folderName documents keywords.
  destruct (fold_add_keyword
              (Index.folderWords folderName
                 ++ flat_map Index.documentWords documents) [] (List.NoDup_nil _))
    as (Hn & Hin & _).
  split; [apply firstn_le_length|].
  split; [now apply nodup_firstn|]. split.
  - intros k Hk. apply firstn_incl, Hin in Hk. destruct Hk as [[]|Hk].
    apply in_app_iff in Hk as [Hk|Hk].
    + apply filter_In in Hk as [_ Hk]. now apply Nat.ltb_lt in Hk.
    + apply in_flat_map in Hk as (d & _ & Hk).
      apply filter_In in Hk as [_ Hk]. now apply Nat.ltb_lt in Hk.
  - intros doc k category Hk Hd.
    unfold Gemini.findFallbackMatchingFolder.
    cbn [Gemini.firstMatchingFolder].
    assert (Hm : In k (Gemini.matchingKeywords (JS.toLowerCase (Index.name doc))
                         {| Gemini.name := folderName;
                            Gemini.keywords := keywords |})).
    { unfold Gemini.matchingKeywords. apply filter_In.
      split; [exact Hk | now apply documentWords_match]. }
    destruct (Gemini.matchingKeywords _ _) as [|x l]; [destruct Hm|].
    cbn [length Nat.ltb Nat.leb]. eexists. split; reflexivity.
Qed.

Lemma generated_keywords_match_their_documents_witness :
  Index.generateFolderKeywords "Bank Statements" [Demo.regular_document]
  = ["bank"; "statements"; "resume"; "2024"]
  /\ exists m,
       Gemini.findFallbackMatchingFolder (Index.name Demo.regular_document)
         "education"
         [ {| Gemini.name := "Bank Statements";
              Gemini.keywords :=
                Index.generateFolderKeywords "Bank Statements"
                  [Demo.regular_document] |} ]
       = Some m
       /\ Gemini.folderName m = "Bank Statements".
Proof.
  split; [vm_compute; reflexivity|].
  destruct (generated_keywords_match_their_documents "Bank Statements"
              [Demo.regular_document]) as (_ & _ & _ & H).
  apply (H Demo.regular_document "resume" "education").
  - vm_compute. auto.
  - vm_compute. auto.
Defined.
